(** * BatchRender: the render-queue execution engine of [BatchRender.py]

    A shallow embedding of [BatchRenderDialog.start_batch_render] and of the
    helper functions nested in it, together with the properties of the
    engine that the design document states.

    The 3ds Max host ([pymxs.runtime], written [rt] in the source), the file
    system, the clock, the V-Ray log file and the confirmation dialogs are
    explicit: what the code reads or assigns is a field of the record
    [World]; what the host computes on its own (a render, a preset load, a
    dialog answer) is a field of the record [Host], a function on worlds
    about which nothing is assumed.

    The engine logs through events that carry the level and the message;
    the indentation and the filter on the level of verbosity, which bear
    on nothing the engine decides, are modelled apart, on the state of the
    log window, together with [escape_characters] of
    [secondary_window.py].

    The table of the dialog is a list of rows of cells, a cell holding an
    item, a check box, or neither; on it are modelled the functions that
    move, delete and duplicate rows, those that write the parameter fields
    into the selected rows, and [get_entry_values], which reads a row for
    the engine.  The rows of the selected items are an argument of these
    functions.

    [saveDialogData], which [main] calls before it reads the rows, stores
    the table in the scene file; it is a step of the host, which may
    raise.  So is [re.sub] for a replacement that holds a backslash.

    Left out: the selection that Qt keeps and the signals it sends, and
    the window flags of the dialog. *)

From Stdlib Require Import String Ascii List ZArith QArith Bool Lia Arith.
From Stdlib Require Import DecimalString DecimalNat DecimalZ FinFun Sorted.
Import ListNotations.
Local Open Scope string_scope.
Local Open Scope Z_scope.

(** ** Python strings *)

Module PyStr.

Definition is_upper (c : ascii) : bool :=
  let n := nat_of_ascii c in (65 <=? n)%nat && (n <=? 90)%nat.

Definition lower_char (c : ascii) : ascii :=
  if is_upper c then ascii_of_nat (nat_of_ascii c + 32) else c.

(** [s.lower()] on ASCII text. *)
Fixpoint lower (s : string) : string :=
  match s with
  | EmptyString => EmptyString
  | String c s' => String (lower_char c) (lower s')
  end.

(** [s.startswith(p)]. *)
Definition startswith (p s : string) : bool := String.prefix p s.

(** [sub in s]. *)
Fixpoint contains (sub s : string) : bool :=
  String.prefix sub s ||
  match s with
  | EmptyString => false
  | String _ s' => contains sub s'
  end.

(** [c in s] for a single character. *)
Fixpoint mem_char (c : ascii) (s : string) : bool :=
  match s with
  | EmptyString => false
  | String d s' => Ascii.eqb c d || mem_char c s'
  end.

(** [any(char in s for char in chars)]. *)
Fixpoint any_char_in (chars s : string) : bool :=
  match chars with
  | EmptyString => false
  | String c chars' => mem_char c s || any_char_in chars' s
  end.

(** The scan behind [str.replace] and [re.sub] with a literal pattern:
    occurrences are found left to right and do not overlap.  [skip]
    counts the characters of the current occurrence still to drop. *)
Fixpoint replace_scan (is_match : string -> bool) (width : nat)
         (new : string) (skip : nat) (s : string) : string :=
  match s with
  | EmptyString => EmptyString
  | String c s' =>
      match skip with
      | S k => replace_scan is_match width new k s'
      | O =>
          if is_match s
          then new ++ replace_scan is_match width new (Nat.pred width) s'
          else String c (replace_scan is_match width new O s')
      end
  end.

(** [s.replace(old, new)], for a non-empty [old]. *)
Definition replace (old new s : string) : string :=
  replace_scan (String.prefix old) (String.length old) new O s.

(** [re.sub(pat, new, s, flags=re.IGNORECASE)] for the patterns the
    program uses, [{Camera}], [{Scene State}] and so on: a brace that
    opens no repetition count is a literal character of the pattern, so
    each pattern matches its own text, letters compared without case.
    The replacement is put in as it is, which is what [re.sub] does for
    a replacement without backslash, and only for such a one. *)
Definition re_sub_ignorecase (pat new s : string) : string :=
  replace_scan (fun t => String.prefix (lower pat) (lower t))
               (String.length pat) new O s.

(** The characters [str.strip()] removes, within ASCII. *)
Definition is_space (c : ascii) : bool :=
  let n := nat_of_ascii c in
  ((9 <=? n)%nat && (n <=? 13)%nat) || ((28 <=? n)%nat && (n <=? 32)%nat).

Fixpoint lstrip (s : string) : string :=
  match s with
  | EmptyString => EmptyString
  | String c s' => if is_space c then lstrip s' else s
  end.

Fixpoint rstrip (s : string) : string :=
  match s with
  | EmptyString => EmptyString
  | String c s' =>
      match rstrip s' with
      | EmptyString => if is_space c then EmptyString else String c EmptyString
      | r => String c r
      end
  end.

Definition strip (s : string) : string := rstrip (lstrip s).

(** [s.split(sep)] for a one-character separator: the pieces between the
    separators, empty pieces kept, never the empty list. *)
Fixpoint split (sep : ascii) (s : string) : list string :=
  match s with
  | EmptyString => [EmptyString]
  | String c s' =>
      if Ascii.eqb c sep then EmptyString :: split sep s'
      else match split sep s' with
           | [] => [String c EmptyString]
           | p :: ps => String c p :: ps
           end
  end.

(** [sep.join(parts)]. *)
Definition join (sep : string) (parts : list string) : string :=
  String.concat sep parts.

(** [str(n)] for an integer. *)
Definition str (z : Z) : string := NilZero.string_of_int (Z.to_int z).

(** [str(n)] for a counter. *)
Definition str_nat (n : nat) : string := NilZero.string_of_uint (Nat.to_uint n).

Fixpoint zeros (n : nat) : string :=
  match n with
  | O => EmptyString
  | S k => String "0" (zeros k)
  end.

Definition zfill (width : nat) (s : string) : string :=
  zeros (width - String.length s) ++ s.

(** [f"{z:04d}"]: at least four characters, the sign counted among them
    and written before the padding zeros. *)
Definition format_04d (z : Z) : string :=
  if z <? 0 then String "-" (zfill 3 (str (Z.abs z))) else zfill 4 (str z).

Definition is_digit (c : ascii) : bool :=
  let n := nat_of_ascii c in (48 <=? n)%nat && (n <=? 57)%nat.

Definition digit_value (c : ascii) : Z := Z.of_nat (nat_of_ascii c - 48).

(** The digits of an integer literal: digits, with single underscores
    allowed between two digits. *)
Fixpoint int_digits (s : string) (acc : Z) (after_digit : bool) : option Z :=
  match s with
  | EmptyString => if after_digit then Some acc else None
  | String c s' =>
      if is_digit c then int_digits s' (10 * acc + digit_value c) true
      else if Ascii.eqb c "_" && after_digit then int_digits s' acc false
      else None
  end.

(** [int(s)]: [None] stands for the [ValueError] that [int] raises on a
    string that is no decimal integer literal. *)
Definition int (s : string) : option Z :=
  match strip s with
  | String "-" d => option_map Z.opp (int_digits d 0 false)
  | String "+" d => int_digits d 0 false
  | d => int_digits d 0 false
  end.

End PyStr.

(** ** Exceptions *)

(** The engine catches [ValueError] around each entry and nothing else, so
    the two are kept apart: any other exception ends the whole run. *)
Inductive exn : Type :=
| ValueError (msg : string)
| OtherError (kind : string).

Inductive result (A : Type) : Type :=
| Ok (a : A)
| Raise (e : exn).
Arguments Ok {A} a.
Arguments Raise {A} e.

Definition bind_result {A B : Type} (r : result A) (k : A -> result B) : result B :=
  match r with
  | Ok a => k a
  | Raise e => Raise e
  end.

Declare Scope result_scope.
Delimit Scope result_scope with result.
Notation "x <- r ;; k" := (bind_result r (fun x => k))
  (at level 61, r at next level, right associativity) : result_scope.

(** [int(s)] with its exception. *)
Definition int_or_raise (s : string) : result Z :=
  match PyStr.int s with
  | Some z => Ok z
  | None => Raise (ValueError ("invalid literal for int() with base 10: " ++ s))
  end.

Fixpoint map_result {A B : Type} (f : A -> result B) (l : list A) : result (list B) :=
  match l with
  | [] => Ok []
  | a :: l' =>
      match f a with
      | Ok b => match map_result f l' with
                | Ok bs => Ok (b :: bs)
                | Raise e => Raise e
                end
      | Raise e => Raise e
      end
  end.

(** ** Frame sequences *)

(** What [get_frame_range] can return: a list, a [range] object, or the
    field value itself when no case of the function applies. *)
Inductive frames : Type :=
| PyList (l : list Z)
| PyRange (start stop step : Z)
| PyText (s : string).

Fixpoint count_up (n : nat) (start step : Z) : list Z :=
  match n with
  | O => []
  | S k => start :: count_up k (start + step) step
  end.

(** The elements of [range(start, stop, step)], [step] not zero. *)
Definition range_elements (start stop step : Z) : list Z :=
  if 0 <? step
  then count_up (Z.to_nat ((stop - start + step - 1) / step)) start step
  else count_up (Z.to_nat ((start - stop - step - 1) / (- step))) start step.

(** [range(start, stop, step)]; a zero step raises [ValueError]. *)
Definition py_range (start stop step : Z) : result frames :=
  if step =? 0 then Raise (ValueError "range() arg 3 must not be zero")
  else Ok (PyRange start stop step).

Fixpoint chars_of (s : string) : list string :=
  match s with
  | EmptyString => []
  | String c s' => String c EmptyString :: chars_of s'
  end.

(** ** Time *)

(** A [datetime.datetime] value, compared field by field as Python does. *)
Record datetime : Type := {
  year : Z; month : Z; day : Z;
  hour : Z; minute : Z; second : Z; microsecond : Z
}.

Definition datetime_fields (d : datetime) : list Z :=
  [year d; month d; day d; hour d; minute d; second d; microsecond d].

Fixpoint lex_leb (a b : list Z) : bool :=
  match a, b with
  | x :: a', y :: b' => (x <? y) || ((x =? y) && lex_leb a' b')
  | _, _ => true
  end.

(** [a <= b] on datetimes. *)
Definition datetime_leb (a b : datetime) : bool :=
  lex_leb (datetime_fields a) (datetime_fields b).

Definition two_digits (z : Z) : string := PyStr.zfill 2 (PyStr.str z).

(** [d.strftime("%y-%m-%dT%H.%M.%S")], for example [24-06-18T14.18.45]. *)
Definition strftime_run (d : datetime) : string :=
  two_digits (year d mod 100) ++ "-" ++ two_digits (month d) ++ "-" ++
  two_digits (day d) ++ "T" ++ two_digits (hour d) ++ "." ++
  two_digits (minute d) ++ "." ++ two_digits (second d).

(** ** The host and the world *)

(** Everything the engine reads from, or assigns in, its surroundings.
    Frame numbers and render sizes are integers; [time.time()] and file
    modification times are seconds, kept as rationals. *)
Record World : Type := {
  (* pymxs.runtime globals *)
  renderWidth : Z;
  renderHeight : Z;
  renderPixelAspect : string;
  rendTimeType : Z;
  currentTime_frame : Z;
  animationRange_start : Z;
  animationRange_end : Z;
  rendStart : Z;
  rendEnd : Z;
  rendNThFrame : Z;
  rendPickupFrames : string;
  renderers_current : string;            (* str(rt.renderers.current) *)
  renderSceneDialog_isOpen : bool;
  project_folder : string;               (* rt.pathConfig.getCurrentProjectFolder() *)
  objects : list (string * option string); (* nodes with their PersistentID property *)
  (* the dialog's own widgets *)
  txtDefaultOutputPath : string;
  (* operating system *)
  clock : datetime;                      (* datetime.now() *)
  time_time : Q;                         (* time.time() *)
  files : list (string * Q);             (* existing paths, with modification time *)
  vraylog : option (list string)         (* lines of %TEMP%\vraylog.txt, if the file is there *)
}.

Definition set_renderPixelAspect (v : string) (w : World) : World :=
  {| renderWidth := renderWidth w; renderHeight := renderHeight w;
     renderPixelAspect := v;
     rendTimeType := rendTimeType w; currentTime_frame := currentTime_frame w;
     animationRange_start := animationRange_start w;
     animationRange_end := animationRange_end w;
     rendStart := rendStart w; rendEnd := rendEnd w;
     rendNThFrame := rendNThFrame w; rendPickupFrames := rendPickupFrames w;
     renderers_current := renderers_current w;
     renderSceneDialog_isOpen := renderSceneDialog_isOpen w;
     project_folder := project_folder w; objects := objects w;
     txtDefaultOutputPath := txtDefaultOutputPath w;
     clock := clock w; time_time := time_time w; files := files w;
     vraylog := vraylog w |}.

Definition set_renderSize (width height : Z) (w : World) : World :=
  {| renderWidth := width; renderHeight := height;
     renderPixelAspect := renderPixelAspect w;
     rendTimeType := rendTimeType w; currentTime_frame := currentTime_frame w;
     animationRange_start := animationRange_start w;
     animationRange_end := animationRange_end w;
     rendStart := rendStart w; rendEnd := rendEnd w;
     rendNThFrame := rendNThFrame w; rendPickupFrames := rendPickupFrames w;
     renderers_current := renderers_current w;
     renderSceneDialog_isOpen := renderSceneDialog_isOpen w;
     project_folder := project_folder w; objects := objects w;
     txtDefaultOutputPath := txtDefaultOutputPath w;
     clock := clock w; time_time := time_time w; files := files w;
     vraylog := vraylog w |}.

Definition set_renderSceneDialog_isOpen (b : bool) (w : World) : World :=
  {| renderWidth := renderWidth w; renderHeight := renderHeight w;
     renderPixelAspect := renderPixelAspect w;
     rendTimeType := rendTimeType w; currentTime_frame := currentTime_frame w;
     animationRange_start := animationRange_start w;
     animationRange_end := animationRange_end w;
     rendStart := rendStart w; rendEnd := rendEnd w;
     rendNThFrame := rendNThFrame w; rendPickupFrames := rendPickupFrames w;
     renderers_current := renderers_current w;
     renderSceneDialog_isOpen := b;
     project_folder := project_folder w; objects := objects w;
     txtDefaultOutputPath := txtDefaultOutputPath w;
     clock := clock w; time_time := time_time w; files := files w;
     vraylog := vraylog w |}.

(** The arguments of one [rt.render] call. *)
Record render_call : Type := {
  rc_camera : string;
  rc_frame : Z;
  rc_outputwidth : Z;
  rc_outputheight : Z;
  rc_pixelaspect : string;
  rc_outputfile : string
}.

(** What the host and the libraries do on their own.  Each host primitive
    may change the world in any way; the [os.path] functions and
    [datetime.strptime] are functions of their arguments. *)
Record Host : Type := {
  (* r, canceled = rt.render(...) *)
  rt_render : World -> render_call -> World * bool;
  (* rt.execute(command): the world afterwards and str() of the value *)
  rt_execute : World -> string -> World * string;
  vrayVFBGetRegionEnabled : World -> bool;
  masterState_GetDescendant : World -> string -> bool;
  masterState_SetCurrentStateSet : World -> string -> World;
  sceneStateMgr_FindSceneState : World -> string -> bool;
  sceneStateMgr_RestoreAllParts : World -> string -> World;
  rt_GetDir : World -> string -> string;
  renderPresets_LoadAll : World -> string -> World;
  vfbLayerMgr_loadLayersFromFile : World -> string -> World;
  (* GenericDialog(...).exec_(): 0 when the window is closed, else the
     number of the button pressed, counted from 1 *)
  dialog_exec : World -> string -> string -> list string -> World * nat;
  (* datetime.strptime(text, "[%Y/%b/%d|%H:%M:%S]"), None for ValueError *)
  strptime : string -> option datetime;
  os_path_join : string -> string -> string;
  os_path_split : string -> string * string;
  os_path_splitext : string -> string * string;
  os_path_dirname : string -> string;
  os_path_abspath : string -> string;
  (* re.sub(pattern, repl, string, flags=re.IGNORECASE) for a repl with a
     backslash, which re reads as a template: the text that comes of it,
     or the class of the exception, re.error or IndexError *)
  re_sub_template : string -> string -> string -> string + string;
  (* self.saveDialogData(): the world afterwards and the data it stored,
     None when the scene held them already, or the exception it raised *)
  saveDialogData_run : World -> World * result (option string)
}.

(** [os.path.exists(path)]: the path is among the existing ones, paths
    compared as they are written. *)
Definition os_path_exists (w : World) (path : string) : bool :=
  existsb (fun f => String.eqb (fst f) path) (files w).

(** [os.path.getmtime(path)]; a missing file raises [FileNotFoundError]. *)
Definition os_path_getmtime (w : World) (path : string) : result Q :=
  match find (fun f => String.eqb (fst f) path) (files w) with
  | Some f => Ok (snd f)
  | None => Raise (OtherError "FileNotFoundError")
  end.

(** ** The log *)

(** The messages of the engine, by what they report; the text around the
    values, the indentation and the elapsed time of a render are left out.
    [MsgText] carries a message that the program passes on as a string. *)
Inductive message : Type :=
| MsgStartingPreCheck
| MsgStartingBatchRender
| MsgChecking (row_id : nat) (name : string)
| MsgCouldntFindCamera (camera_id : option string)
| MsgRendering (row_id : nat) (rendered_rows total_rows_to_render : Z) (name : string)
| MsgRenderingFrame (frame : Z) (full_filename : string)
| MsgTimeDifference (time_difference : Q)
| MsgRenderedSuccessfully
| MsgOutputPath (outputfile_exr : string)
| MsgRenderCanceled
| MsgRenderFailed
| MsgCanceledRenderQueue
| MsgRenderingDone
| MsgNoErrorsFound
| MsgErrorsFound
| MsgUserClosedWindow
| MsgUserClicked (button : string)
| MsgDataSaved
| MsgText (text : string).

Inductive level : Type := DEBUG | INFO | WARNING | ERROR.

(** What one pass leaves behind for an observer: the log lines, and the
    frames whose file names were allocated, every call of [rt.render], and
    every [render_result] that [main] obtained for a frame. *)
Inductive event : Type :=
| EvLog (lvl : level) (msg : message)
| EvNames (row_id : nat) (frame : Z) (formatted_time outputfile_exr outputfile_png : string)
| EvRenderCall (call : render_call)
| EvRenderResult (render_result : Z).

(** The state [main] works on: the world, the variables of [main] that
    outlive one entry, and the events so far, latest first. *)
Record St : Type := {
  world : World;
  total_rows_to_render : Z;
  rendered_rows : Z;
  canceled_renders : Z;
  python_render_error : bool;
  render_queue_canceled : bool;
  trace : list event
}.

Definition with_world (w : World) (s : St) : St :=
  {| world := w; total_rows_to_render := total_rows_to_render s;
     rendered_rows := rendered_rows s; canceled_renders := canceled_renders s;
     python_render_error := python_render_error s;
     render_queue_canceled := render_queue_canceled s; trace := trace s |}.

Definition add_event (e : event) (s : St) : St :=
  {| world := world s; total_rows_to_render := total_rows_to_render s;
     rendered_rows := rendered_rows s; canceled_renders := canceled_renders s;
     python_render_error := python_render_error s;
     render_queue_canceled := render_queue_canceled s; trace := e :: trace s |}.

(** A computation that works on the state and may raise: the state
    reached when the exception was raised is kept, as in Python. *)
Definition M (A : Type) : Type := St -> result A * St.

Definition ret {A : Type} (a : A) : M A := fun s => (Ok a, s).

Definition raise {A : Type} (e : exn) : M A := fun s => (Raise e, s).

Definition bind {A B : Type} (m : M A) (k : A -> M B) : M B :=
  fun s => match m s with
           | (Ok a, s') => k a s'
           | (Raise e, s') => (Raise e, s')
           end.

Definition lift {A : Type} (r : result A) : M A := fun s => (r, s).

Definition get_world : M World := fun s => (Ok (world s), s).

Definition put_world (w : World) : M unit := fun s => (Ok tt, with_world w s).

(** [log(level, text)]. *)
Definition log (lvl : level) (msg : message) : M unit :=
  fun s => (Ok tt, add_event (EvLog lvl msg) s).

Definition emit (e : event) : M unit := fun s => (Ok tt, add_event e s).

Declare Scope m_scope.
Delimit Scope m_scope with M.
Notation "x <- m ;; k" := (bind m (fun x => k))
  (at level 61, m at next level, right associativity) : m_scope.
Notation "m ;; k" := (bind m (fun _ => k))
  (at level 61, right associativity) : m_scope.
Notation "' pat <- m ;; k" := (bind m (fun x => match x with pat => k end))
  (at level 61, pat pattern, m at next level, right associativity) : m_scope.

(** ** Constants of the module and of the dialog *)

Definition DEFAULT_PATH_TEXT : string := "Default Path + Name".
Definition stateSet_prefix : string := "State Set: ".
Definition sceneState_prefix : string := "Scene State: ".

Definition dquote : string := String "034"%char EmptyString.
Definition backslash : string := String "092"%char EmptyString.
Definition nl : string := String "010"%char EmptyString.

(** Python's truth value of a string. *)
Definition nonempty (s : string) : bool := negb (String.eqb s "").

(** Python's truth value of a string or [None]. *)
Definition truthy (o : option string) : bool :=
  match o with
  | Some s => nonempty s
  | None => false
  end.

(** One row of the table, as [get_entry_values] reads it: the check box
    of column [Use], the text of the other columns, and the hidden value
    of the camera column. *)
Record Row : Type := {
  Use : bool;
  Name : string;
  Camera : string;
  Camera_Hidden : option string;
  Output_Path : string;
  Range : string;
  Resolution : string;
  Pixel_Aspect : string;
  Scene_State : string;
  Render_Preset : string;
  Layer_Preset : string
}.

(** The entries of [rowProperties] that [get_valid_filename] reads, at the
    point where [main] calls it: [Scene_State] has been replaced by the
    value of [get_and_set_scene_state], [Resolution_Display] added. *)
Record item_values : Type := {
  iv_Name : string;
  iv_Camera : string;
  iv_Scene_State : option string;
  iv_Render_Preset : string;
  iv_Layer_Preset : string;
  iv_Resolution_Display : string;
  iv_Pixel_Aspect : string
}.

(** ** General functions *)

(** [get_item_by_id]: the first node of [rt.objects] whose [PersistentID]
    is [unique_id]; nodes without the property are passed over. *)
Fixpoint find_node (nodes : list (string * option string)) (unique_id : option string)
  : option string :=
  match nodes with
  | [] => None
  | (node, prop) :: rest =>
      match prop with
      | Some object_id =>
          if nonempty object_id &&
             match unique_id with
             | Some u => String.eqb object_id u
             | None => false
             end
          then Some node
          else find_node rest unique_id
      | None => find_node rest unique_id
      end
  end.

Definition show_id (unique_id : option string) : string :=
  match unique_id with
  | Some u => u
  | None => "None"
  end.

Definition get_item_by_id (unique_id : option string) : M string :=
  (w <- get_world ;;
   match find_node (objects w) unique_id with
   | Some node => ret node
   | None => raise (ValueError ("No object could not be found by unique ID " ++
                                dquote ++ show_id unique_id ++ dquote))
   end)%M.

Section Engine.

Variable H : Host.

(** [self.DEBUG_disable_rendering]. *)
Variable DEBUG_disable_rendering : bool.

(** [convert_path_to_absolute]. *)
Definition convert_path_to_absolute (w : World) (relative_path : string) : string :=
  os_path_abspath H (os_path_join H (project_folder w) relative_path).

(** [warn_render_settings_open]: the value of the button pressed, [None]
    when the window was closed. *)
Definition warn_render_settings_open (title text : string)
           (buttons : list (string * bool)) : M (option bool) :=
  (w <- get_world ;;
   let '(w', code) := dialog_exec H w title text (map fst buttons) in
   put_world w' ;;
   match code with
   | O => log DEBUG MsgUserClosedWindow ;; ret None
   | S i =>
       match nth_error buttons i with
       | Some (key, value) => log DEBUG (MsgUserClicked key) ;; ret (Some value)
       | None => raise (OtherError "KeyError")
       end
   end)%M.

Definition yes_no : list (string * bool) := [("Yes", true); ("No", false)].

Definition is_true (o : option bool) : bool :=
  match o with
  | Some b => b
  | None => false
  end.

(** *** parse_number_string *)

Definition parse_part (part : string) : result (list Z) :=
  if PyStr.contains "-" part then
    match PyStr.split "-" part with
    | [a; b] =>
        (start <- int_or_raise a ;;
         end_ <- int_or_raise b ;;
         Ok (range_elements start (end_ + 1) 1))%result
    | _ => Raise (ValueError "wrong number of values to unpack")
    end
  else
    (n <- int_or_raise (PyStr.strip part) ;; Ok [n])%result.

Definition parse_number_string (number_string : string) : result (list Z) :=
  (parts <- map_result parse_part (PyStr.split "," number_string) ;;
   Ok (List.concat parts))%result.

(** *** were_there_render_errors *)

(** The text up to and with the first closing bracket. *)
Fixpoint up_to_close (s : string) : option string :=
  match s with
  | EmptyString => None
  | String c s' =>
      if Ascii.eqb c "]" then Some (String c EmptyString)
      else option_map (String c) (up_to_close s')
  end.

(** [re.search("\[.*?]", line)]: the first opening bracket and the text
    up to the nearest closing bracket after it. *)
Fixpoint search_bracket (line : string) : option string :=
  match line with
  | EmptyString => None
  | String c s' =>
      if Ascii.eqb c "[" then option_map (String c) (up_to_close s')
      else search_bracket s'
  end.

Fixpoint scan_log (time_of_render : datetime) (lines : list string)
  : result (option string) :=
  match lines with
  | [] => Ok None
  | raw :: rest =>
      let line := PyStr.strip raw in
      match search_bracket line with
      | None => Raise (OtherError "AttributeError")
      | Some line_timestamp_formatted =>
          match strptime H line_timestamp_formatted with
          | None => Raise (ValueError "time data does not match format")
          | Some line_timestamp_datetime =>
              if datetime_leb time_of_render line_timestamp_datetime &&
                 PyStr.contains "error: " line
              then Ok (Some (PyStr.strip
                               (PyStr.replace (line_timestamp_formatted ++ " error")
                                              "Error" line)))
              else scan_log time_of_render rest
          end
      end
  end.

Definition were_there_render_errors (time_of_render : datetime) : M (option string) :=
  (w <- get_world ;;
   match vraylog w with
   | None => raise (OtherError "FileNotFoundError")
   | Some lines => lift (scan_log time_of_render lines)
   end)%M.

(** *** get_valid_filename *)

(** The dictionary [replace_flags], in the order it is written. *)
Definition replace_flags (iv : item_values) : list (string * option string) :=
  [ ("{Camera}", Some (iv_Camera iv));
    ("{Scene State}", iv_Scene_State iv);
    ("{State Set}", iv_Scene_State iv);
    ("{Render Preset}", Some (iv_Render_Preset iv));
    ("{Layer Preset}", Some (iv_Layer_Preset iv));
    ("{Resolution}", Some (iv_Resolution_Display iv));
    ("{Pixel Aspect}", Some (iv_Pixel_Aspect iv)) ].

(** [re.sub(replace, replace_with, render_name, flags=re.IGNORECASE)].
    A replacement with a backslash is a template for [re]: escapes are
    expanded, a reference to the group 0 stands for the text matched,
    and a bad escape or a reference to a group that the pattern has not
    raises [re.error] or [IndexError].  What comes of the template is
    the host's. *)
Definition re_sub (replace replace_with render_name : string) : result string :=
  if PyStr.contains backslash replace_with then
    match re_sub_template H replace replace_with render_name with
    | inl text => Ok text
    | inr kind => Raise (OtherError kind)
    end
  else Ok (PyStr.re_sub_ignorecase replace replace_with render_name).

(** One turn of the loop over [replace_flags], on the pair
    [(render_name, blank_values)]. *)
Definition substitute_flag (acc : string * bool) (flag : string * option string)
  : result (string * bool) :=
  let '(render_name, blank_values) := acc in
  let '(replace, replace_with) := flag in
  if PyStr.contains (PyStr.lower replace) (PyStr.lower render_name) then
    let replace_with := match replace_with with Some v => v | None => "" end in
    let lowered := PyStr.lower replace_with in
    if String.eqb lowered "default" || String.eqb lowered "" then
      (render_name <- re_sub replace "" render_name ;; Ok (render_name, true))%result
    else
      (render_name <- re_sub replace replace_with render_name ;;
       Ok (render_name, blank_values))%result
  else Ok acc.

(** The loop over [replace_flags]: the first exception ends it. *)
Fixpoint substitute_flags (flags : list (string * option string)) (acc : string * bool)
  : result (string * bool) :=
  match flags with
  | [] => Ok acc
  | flag :: rest =>
      match substitute_flag acc flag with
      | Ok acc' => substitute_flags rest acc'
      | Raise e => Raise e
      end
  end.

(** The first half of [get_valid_filename]: the camera name without its
    [_VRayPhysicalCamera], the template chosen, the flags substituted.
    Returns [render_name] and [blank_values]. *)
Definition resolve_render_name (iv0 : item_values) : result (string * bool) :=
  let iv := {| iv_Name := iv_Name iv0;
               iv_Camera := PyStr.replace "_VRayPhysicalCamera" "" (iv_Camera iv0);
               iv_Scene_State := iv_Scene_State iv0;
               iv_Render_Preset := iv_Render_Preset iv0;
               iv_Layer_Preset := iv_Layer_Preset iv0;
               iv_Resolution_Display := iv_Resolution_Display iv0;
               iv_Pixel_Aspect := iv_Pixel_Aspect iv0 |} in
  let render_name := iv_Name iv in
  let render_name := if String.eqb render_name "Default" then "{Camera}" else render_name in
  substitute_flags (replace_flags iv) (render_name, false).

Definition invalid_chars : string := backslash ++ "/:*?<>|" ++ dquote ++ backslash.

Definition name_is_invalid (render_name : string) : bool :=
  negb (nonempty render_name) ||
  PyStr.any_char_in invalid_chars render_name ||
  PyStr.startswith "." render_name.

Definition blank_flags_message (original_render_name render_name : string) : string :=
  "Some of the replacement flags in the render name are blank or default. " ++
  "This may result in weird file names." ++ nl ++ nl ++
  "Original render name: " ++ original_render_name ++ nl ++
  "Render name: " ++ render_name ++ nl ++ nl ++ "Do you want to proceed?".

Definition get_valid_filename (pre_check : bool) (iv : item_values) : M string :=
  (let original_render_name := iv_Name iv in
   '(render_name, blank_values) <- lift (resolve_render_name iv) ;;
   (if blank_values && pre_check then
      continue_with_render <-
        warn_render_settings_open "Warning!"
          (blank_flags_message original_render_name render_name) yes_no ;;
      if is_true continue_with_render then ret tt
      else raise (ValueError ("Canceled because of blank replacement flags in " ++
                              dquote ++ original_render_name ++ dquote))
    else ret tt) ;;
   if name_is_invalid render_name
   then raise (ValueError ("Image name invalid!: " ++ render_name))
   else ret render_name)%M.

(** *** get_output_path *)

(** [output_path_png] is assigned in the first branch only: in the other
    it is an unbound local, and reading it raises [UnboundLocalError]. *)
Definition get_output_path (output_path name : string) : M (string * string) :=
  (w <- get_world ;;
   let '(path, output_path, output_path_png) :=
     if String.eqb output_path DEFAULT_PATH_TEXT then
       let path := txtDefaultOutputPath w in
       (path, os_path_join H path (name ++ ".exr"),
        Some (os_path_join H path (name ++ ".png")))
     else
       (os_path_dirname H output_path, output_path, None) in
   let path := convert_path_to_absolute w path in
   let output_path := convert_path_to_absolute w output_path in
   match output_path_png with
   | None => raise (OtherError "UnboundLocalError")
   | Some png =>
       let output_path_png := convert_path_to_absolute w png in
       if negb (os_path_exists w path)
       then raise (ValueError ("Output directory doesnt exist!: " ++ path))
       else ret (output_path, output_path_png)
   end)%M.

(** *** get_frame_range, get_frame_range_display *)

Definition get_frame_range (frame_range : string) : M frames :=
  (w <- get_world ;;
   if String.eqb frame_range "Default" then
     let renderTimeType := rendTimeType w in
     if renderTimeType =? 1 then ret (PyList [currentTime_frame w])
     else if renderTimeType =? 2 then
       lift (py_range (animationRange_start w) (animationRange_end w + 1) 1)
     else if renderTimeType =? 3 then
       lift (py_range (rendStart w) (rendEnd w + 1) (rendNThFrame w))
     else if renderTimeType =? 4 then
       l <- lift (parse_number_string (rendPickupFrames w)) ;; ret (PyList l)
     else ret (PyText frame_range)
   else
     let parts := PyStr.split ":" frame_range in
     let first := hd "" parts in
     let last := List.last parts "" in
     if String.eqb first last then
       n <- lift (int_or_raise first) ;; ret (PyList [n])
     else
       ns <- lift (map_result int_or_raise parts) ;;
       lift (py_range (hd 0 ns) (List.last ns 0 + 1) 1))%M.

(** The items a [for] loop over the value visits.  A text is never
    iterated as frames: [get_frame_range_display] raises on it first. *)
Definition frames_items (frame_range : frames) : list Z :=
  match frame_range with
  | PyList l => l
  | PyRange start stop step => range_elements start stop step
  | PyText _ => []
  end.

Definition comma_joined (items : list Z) : string :=
  PyStr.join ", " (map PyStr.str items).

Definition get_frame_range_display (frame_range : frames) : result string :=
  match frame_range with
  | PyRange start stop step =>
      if step =? 1 then Ok (PyStr.str start ++ "-" ++ PyStr.str stop)
      else Ok (comma_joined (range_elements start stop step))
  | PyList l => Ok (comma_joined l)
  | PyText s =>
      (items <- map_result int_or_raise (chars_of s) ;; Ok (comma_joined items))%result
  end.

(** *** get_resolution_disp, get_pixel_aspect *)

(** The list [resolution]: the two global sizes, or the pieces of the
    field. *)
Inductive resolution_value : Type :=
| ResGlobals (width height : Z)
| ResParts (parts : list string).

Definition get_resolution_disp (resolution : string) (original_width original_height : Z)
  : resolution_value * string :=
  if String.eqb resolution "Default" then
    (ResGlobals original_width original_height,
     PyStr.join "x" [PyStr.str original_width; PyStr.str original_height])
  else
    let parts := PyStr.split "x" resolution in
    (ResParts parts, PyStr.join "x" parts).

(** [int(resolution[i])]. *)
Definition resolution_item (resolution : resolution_value) (i : nat) : result Z :=
  match resolution with
  | ResGlobals width height =>
      match i with
      | O => Ok width
      | 1%nat => Ok height
      | _ => Raise (OtherError "IndexError")
      end
  | ResParts parts =>
      match nth_error parts i with
      | Some p => int_or_raise p
      | None => Raise (OtherError "IndexError")
      end
  end.

Definition get_pixel_aspect (pixel_aspect : string) : M string :=
  (w <- get_world ;;
   if String.eqb pixel_aspect "Default" then ret (renderPixelAspect w)
   else put_world (set_renderPixelAspect pixel_aspect w) ;; ret pixel_aspect)%M.

(** *** get_and_set_scene_state, get_and_set_render_preset,
        get_and_set_layer_preset *)

Definition get_and_set_scene_state (scene_state_disp : string) : M (option string) :=
  (if nonempty scene_state_disp then
     w <- get_world ;;
     found <-
       (if PyStr.contains stateSet_prefix scene_state_disp then
          let potential_stateSet := PyStr.replace stateSet_prefix "" scene_state_disp in
          if masterState_GetDescendant H w potential_stateSet then
            put_world (masterState_SetCurrentStateSet H w potential_stateSet) ;;
            ret (Some potential_stateSet)
          else ret None
        else if PyStr.contains sceneState_prefix scene_state_disp then
          let sceneState := PyStr.replace sceneState_prefix "" scene_state_disp in
          if sceneStateMgr_FindSceneState H w sceneState then
            put_world (sceneStateMgr_RestoreAllParts H w sceneState) ;;
            ret (Some sceneState)
          else ret None
        else ret None) ;;
     match found with
     | Some name => ret (Some name)
     | None => raise (ValueError ("Scene State or State Set '" ++ scene_state_disp ++
                                  "' does not exist."))
     end
   else ret None)%M.

Definition get_and_set_render_preset (preset_disp : string) : M (option string) :=
  (if nonempty preset_disp then
     w <- get_world ;;
     let file_path := os_path_join H (rt_GetDir H w "renderPresets") preset_disp in
     put_world (renderPresets_LoadAll H w file_path) ;;
     ret (Some preset_disp)
   else ret None)%M.

Definition get_and_set_layer_preset (layer_preset_disp : string) : M (option string) :=
  (if nonempty layer_preset_disp then
     w <- get_world ;;
     let file_path := os_path_join H (rt_GetDir H w "vpost") layer_preset_disp in
     put_world (vfbLayerMgr_loadLayersFromFile H w file_path) ;;
     ret (Some layer_preset_disp)
   else ret None)%M.

(** *** prevent_duplicate_files *)

Definition dupe_count_str (dupe_count : nat) : string :=
  match dupe_count with
  | O => ""
  | S _ => " (" ++ PyStr.str_nat dupe_count ++ ")"
  end.

(** The file name tried when [dupe_count] names were found taken, for
    example [View 1_0000_24-06-18T14.18.45 (1).exr]. *)
Definition numbered_name (filename file_extension : string) (frame : Z)
           (formatted_time : string) (dupe_count : nat) : string :=
  filename ++ "_" ++ PyStr.format_04d frame ++ "_" ++ formatted_time ++
  dupe_count_str dupe_count ++ file_extension.

(** The path that [prevent_duplicate_files] tries at [dupe_count]. *)
Definition candidate_path (output_path : string) (frame : Z) (formatted_time : string)
           (dupe_count : nat) : string :=
  let '(directory, file_name) := os_path_split H output_path in
  let '(filename, file_extension) := os_path_splitext H file_name in
  os_path_join H directory
    (numbered_name filename file_extension frame formatted_time dupe_count).

(** The [while True] loop: [dupe_count] goes up while the path exists.
    [fuel] bounds the number of turns; [None] when it is used up. *)
Fixpoint probe (taken : string -> bool) (path_at : nat -> string)
         (fuel dupe_count : nat) : option nat :=
  match fuel with
  | O => None
  | S fuel' =>
      if taken (path_at dupe_count)
      then probe taken path_at fuel' (S dupe_count)
      else Some dupe_count
  end.

(** One turn more than there are files: enough whenever the paths tried
    differ from one another ([probe_finds_free_name] below). *)
Definition probe_fuel (w : World) : nat := S (List.length (files w)).

(** [original_full_filename]: the first path tried, the loop assigning
    it as long as it is an empty string. *)
Definition original_name (path_at : nat -> string) (dupe_count : nat) : string :=
  match find nonempty (map path_at (seq O (S dupe_count))) with
  | Some path => path
  | None => path_at dupe_count
  end.

Definition duplicate_message (original_full_filename file_name : string) : string :=
  "An image with the same name already exists. " ++
  "A number will automatically be append to the end of the file name to prevent overwriting. " ++
  "If this is not the desired result, move or rename the existing file." ++
  nl ++ "Original name: " ++ original_full_filename ++
  nl ++ "New name:      " ++ file_name.

(** Returns [file_path] and [file_name].  The exception [OtherError
    "unbounded loop"] is the model's, not the program's: it marks a loop
    that did not end within [probe_fuel]. *)
Definition prevent_duplicate_files (pre_check : bool) (output_path : string) (frame : Z)
           (formatted_time : string) : M (string * string) :=
  (w <- get_world ;;
   let path_at := candidate_path output_path frame formatted_time in
   match probe (os_path_exists w) path_at (probe_fuel w) O with
   | None => raise (OtherError "unbounded loop")
   | Some dupe_count =>
       let file_path := path_at dupe_count in
       let original_full_filename := original_name path_at dupe_count in
       let '(directory, file_name) := os_path_split H file_path in
       (if pre_check && (0 <? dupe_count)%nat then
          _ <- warn_render_settings_open "Image already exists!"
                 (duplicate_message original_full_filename file_name) [("OK", true)] ;;
          ret tt
        else ret tt) ;;
       ret (file_path, file_name)
   end)%M.

(** *** check_VFB_settings *)

Definition problem_settings_message (enabled : list string) : option string :=
  match enabled with
  | [] => None
  | [a] => Some (a ++ " is enabled")
  | [a; b] => Some (PyStr.join " and " [a; b] ++ " are enabled")
  | _ => Some (PyStr.join ", " (removelast enabled) ++ ", and " ++
               List.last enabled "" ++ " are enabled")
  end.

(** [rt.execute(command)], keeping the world it leaves. *)
Definition execute (command : string) : M string :=
  (w <- get_world ;;
   let '(w', value) := rt_execute H w command in
   put_world w' ;; ret value)%M.

(** Opening and closing the render-settings panel is seen by the engine
    through [isOpen] only, so that is all the model keeps of it;
    [commit] leaves the world as it is. *)
Definition renderSceneDialog_open : M unit :=
  (w <- get_world ;; put_world (set_renderSceneDialog_isOpen true w))%M.

Definition renderSceneDialog_cancel : M unit :=
  (w <- get_world ;; put_world (set_renderSceneDialog_isOpen false w))%M.

(** Returns [continue_with_render] and [close_renderSceneDialog]. *)
Definition check_VFB_settings (pre_check : bool) : M (bool * bool) :=
  (w <- get_world ;;
   '(text, close_renderSceneDialog) <-
     (if PyStr.contains "V_Ray" (renderers_current w) then
        let region_enabled := vrayVFBGetRegionEnabled H w in
        v1 <- execute "vfbControl #testresolution" ;;
        v2 <- execute "vfbControl #trackmouse" ;;
        v3 <- execute "vfbControl #debugshading" ;;
        let testRes_enabled := PyStr.contains "1" v1 in
        let followMouse_enabled := PyStr.contains "1" v2 in
        let debugShading_enabled := PyStr.contains "1" v3 in
        w1 <- get_world ;;
        let renderSettings_open := renderSceneDialog_isOpen w1 in
        let problem_settings :=
          [("Region render", region_enabled); ("Test resolution", testRes_enabled);
           ("Follow mouse", followMouse_enabled); ("Debug shading", debugShading_enabled)] in
        let text := problem_settings_message
                      (map fst (filter snd problem_settings)) in
        if renderSettings_open then ret (text, false)
        else renderSceneDialog_open ;; ret (text, true)
      else ret (Some "V-Ray is not set as current renderer!", false)) ;;
   match text with
   | Some t =>
       if nonempty t && pre_check then
         answer <- warn_render_settings_open "Warning!"
                     (t ++ ". Do you want to proceed?") yes_no ;;
         ret (is_true answer, close_renderSceneDialog)
       else ret (true, close_renderSceneDialog)
   | None => ret (true, close_renderSceneDialog)
   end)%M.

(** *** do_render *)

Definition stale_file_message : string :=
  "Waring: File seems too old in relation to when the image was rendered. " ++
  "The image may have not written to the file correctly.".

Definition missing_file_message : string := "Error: File doesn't exist!".

(** The test on the file written, in the branch [not canceled]: the
    value of [vray_log_error]. *)
Definition check_output_file (outputfile_exr : string) : M (option string) :=
  (w <- get_world ;;
   if os_path_exists w outputfile_exr then
     last_modified_time <- lift (os_path_getmtime w outputfile_exr) ;;
     let current_time := time_time w in
     let time_difference := (current_time - last_modified_time)%Q in
     if Qle_bool 60 time_difference then
       log WARNING (MsgTimeDifference time_difference) ;;
       ret (Some stale_file_message)
     else ret None
   else ret (Some missing_file_message))%M.

(** Returns 0 when the frame was rendered, 1 when the user canceled, 2
    when rendering failed. *)
Definition do_render (camera : string) (frame : Z) (outputfile_exr outputfile_png : string)
           (pixel_aspect : string) (image_width image_height : Z) : M Z :=
  (w <- get_world ;;
   let time_of_render := clock w in
   let call := {| rc_camera := camera; rc_frame := frame;
                  rc_outputwidth := image_width; rc_outputheight := image_height;
                  rc_pixelaspect := pixel_aspect; rc_outputfile := outputfile_exr |} in
   emit (EvRenderCall call) ;;
   let '(w', canceled) := rt_render H w call in
   put_world w' ;;
   vray_log_error <-
     (if negb canceled then check_output_file outputfile_exr
      else were_there_render_errors time_of_render) ;;
   if negb canceled && negb (truthy vray_log_error) then
     _ <- execute "vfbControl #setchannel 0" ;;
     let outputfile_png := PyStr.replace backslash "/" outputfile_png in
     _ <- execute ("vfbControl #saveimage " ++ dquote ++ outputfile_png ++ dquote) ;;
     log INFO MsgRenderedSuccessfully ;;
     log INFO (MsgOutputPath outputfile_exr) ;;
     ret 0
   else if canceled && negb (truthy vray_log_error) then
     log WARNING MsgRenderCanceled ;;
     ret 1
   else
     log ERROR MsgRenderFailed ;;
     log ERROR (MsgText (match vray_log_error with Some e => e | None => "None" end)) ;;
     ret 2)%M.

(** *** main *)

Definition max_canceled_before_exit : Z := 2.

(** [max_canceled_before_exit and canceled_renders >= max_canceled_before_exit]. *)
Definition cancel_limit_reached (s : St) : bool :=
  negb (max_canceled_before_exit =? 0) && (max_canceled_before_exit <=? canceled_renders s).

Definition get_state : M St := fun s => (Ok s, s).

Definition modify (f : St -> St) : M unit := fun s => (Ok tt, f s).

Definition count_row_to_render (s : St) : St :=
  {| world := world s; total_rows_to_render := total_rows_to_render s + 1;
     rendered_rows := rendered_rows s; canceled_renders := canceled_renders s;
     python_render_error := python_render_error s;
     render_queue_canceled := render_queue_canceled s; trace := trace s |}.

Definition count_rendered_row (s : St) : St :=
  {| world := world s; total_rows_to_render := total_rows_to_render s;
     rendered_rows := rendered_rows s + 1; canceled_renders := canceled_renders s;
     python_render_error := python_render_error s;
     render_queue_canceled := render_queue_canceled s; trace := trace s |}.

Definition count_canceled_render (s : St) : St :=
  {| world := world s; total_rows_to_render := total_rows_to_render s;
     rendered_rows := rendered_rows s; canceled_renders := canceled_renders s + 1;
     python_render_error := python_render_error s;
     render_queue_canceled := render_queue_canceled s; trace := trace s |}.

Definition set_python_render_error (s : St) : St :=
  {| world := world s; total_rows_to_render := total_rows_to_render s;
     rendered_rows := rendered_rows s; canceled_renders := canceled_renders s;
     python_render_error := true;
     render_queue_canceled := render_queue_canceled s; trace := trace s |}.

Definition set_render_queue_canceled (s : St) : St :=
  {| world := world s; total_rows_to_render := total_rows_to_render s;
     rendered_rows := rendered_rows s; canceled_renders := canceled_renders s;
     python_render_error := python_render_error s;
     render_queue_canceled := true; trace := trace s |}.

(** The variables of [main] as it sets them before the loop. *)
Definition enter_main (total : Z) (s : St) : St :=
  {| world := world s; total_rows_to_render := total;
     rendered_rows := 0; canceled_renders := 0;
     python_render_error := false;
     render_queue_canceled := false; trace := trace s |}.

(** [try: m except ValueError as e: handler; raise e]. *)
Definition reraise_after {A : Type} (m : M A) (handler : M unit) : M A :=
  fun s => match m s with
           | (Raise (ValueError msg), s') =>
               match handler s' with
               | (Ok _, s'') => (Raise (ValueError msg), s'')
               | (Raise e, s'') => (Raise e, s'')
               end
           | other => other
           end.

(** The part of the loop body under [if not pre_check]: one frame is
    rendered and its result counted. *)
Definition render_frame (camera : string) (resolution : resolution_value)
           (pixel_aspect : string) (frame : Z)
           (outputfile_exr outputfile_png full_filename : string) : M unit :=
  (log INFO (MsgRenderingFrame frame full_filename) ;;
   render_result <-
     (if negb DEBUG_disable_rendering then
        image_width <- lift (resolution_item resolution 0) ;;
        image_height <- lift (resolution_item resolution 1) ;;
        do_render camera frame outputfile_exr outputfile_png pixel_aspect
                  image_width image_height
      else ret 0) ;;
   emit (EvRenderResult render_result) ;;
   if render_result =? 1 then modify count_canceled_render else ret tt)%M.

(** The loop over the frames of one entry. *)
Fixpoint frames_loop (pre_check : bool) (row_id : nat) (camera : string)
         (resolution : resolution_value) (pixel_aspect : string)
         (output_path_exr output_path_png formatted_time : string)
         (frame_list : list Z) : M unit :=
  match frame_list with
  | [] => ret tt
  | frame :: rest =>
      ('(outputfile_exr, full_filename) <-
          prevent_duplicate_files pre_check output_path_exr frame formatted_time ;;
       '(outputfile_png, _) <-
          prevent_duplicate_files pre_check output_path_png frame formatted_time ;;
       emit (EvNames row_id frame formatted_time outputfile_exr outputfile_png) ;;
       (if negb pre_check then
          render_frame camera resolution pixel_aspect frame
                       outputfile_exr outputfile_png full_filename
        else ret tt) ;;
       s <- get_state ;;
       if cancel_limit_reached s then ret tt
       else frames_loop pre_check row_id camera resolution pixel_aspect
                        output_path_exr output_path_png formatted_time rest)%M
  end.

(** What the first half of the loop body leaves for the second. *)
Record prepared : Type := {
  p_camera : string;
  p_frame_range : frames;
  p_original_renderWidth : Z;
  p_original_renderHeight : Z;
  p_resolution : resolution_value;
  p_pixel_aspect : string;
  p_name : string;
  p_output_path_exr : string;
  p_output_path_png : string
}.

(** The body of the loop over the rows for a row in use, from
    [# Get parameters] to the call of [get_output_path]. *)
Definition prepare_row (pre_check : bool) (row_id : nat) (rowProperties : Row)
  : M prepared :=
  (let name := Name rowProperties in
   let camera_id := Camera_Hidden rowProperties in
   (if pre_check then
      log INFO (MsgChecking (S row_id) name) ;;
      modify count_row_to_render
    else ret tt) ;;
   camera <- reraise_after (get_item_by_id camera_id)
                           (log ERROR (MsgCouldntFindCamera camera_id)) ;;
   frame_range <- get_frame_range (Range rowProperties) ;;
   frame_range_disp <- lift (get_frame_range_display frame_range) ;;
   w <- get_world ;;
   let original_renderWidth := renderWidth w in
   let original_renderHeight := renderHeight w in
   let '(resolution, resolution_disp) :=
     get_resolution_disp (Resolution rowProperties)
                         original_renderWidth original_renderHeight in
   pixel_aspect <- get_pixel_aspect (Pixel_Aspect rowProperties) ;;
   scene_state_disp <- get_and_set_scene_state (Scene_State rowProperties) ;;
   preset_disp <- get_and_set_render_preset (Render_Preset rowProperties) ;;
   layer_preset_disp <- get_and_set_layer_preset (Layer_Preset rowProperties) ;;
   name <- get_valid_filename pre_check
             {| iv_Name := Name rowProperties;
                iv_Camera := Camera rowProperties;
                iv_Scene_State := scene_state_disp;
                iv_Render_Preset := Render_Preset rowProperties;
                iv_Layer_Preset := Layer_Preset rowProperties;
                iv_Resolution_Display := resolution_disp;
                iv_Pixel_Aspect := Pixel_Aspect rowProperties |} ;;
   '(output_path_exr, output_path_png) <-
      get_output_path (Output_Path rowProperties) name ;;
   ret {| p_camera := camera; p_frame_range := frame_range;
          p_original_renderWidth := original_renderWidth;
          p_original_renderHeight := original_renderHeight;
          p_resolution := resolution; p_pixel_aspect := pixel_aspect;
          p_name := name;
          p_output_path_exr := output_path_exr;
          p_output_path_png := output_path_png |})%M.

(** The rest of the body, from [rendered_rows += 1] on; [true] when the
    loop over the rows is left by [break]. *)
Definition render_row (pre_check : bool) (row_id : nat) (p : prepared) : M bool :=
  (modify count_rendered_row ;;
   (if negb pre_check then
      s <- get_state ;;
      log INFO (MsgRendering (S row_id) (rendered_rows s) (total_rows_to_render s)
                             (p_name p))
    else ret tt) ;;
   w <- get_world ;;
   let formatted_time := strftime_run (clock w) in
   frames_loop pre_check row_id (p_camera p) (p_resolution p) (p_pixel_aspect p)
               (p_output_path_exr p) (p_output_path_png p) formatted_time
               (frames_items (p_frame_range p)) ;;
   w <- get_world ;;
   put_world (set_renderSize (p_original_renderWidth p) (p_original_renderHeight p) w) ;;
   s <- get_state ;;
   if cancel_limit_reached s && negb pre_check then
     modify set_render_queue_canceled ;;
     log WARNING MsgCanceledRenderQueue ;;
     ret true
   else ret false)%M.

(** The body of the loop over the rows, inside its [try]. *)
Definition process_row (pre_check : bool) (row_id : nat) (rowProperties : Row) : M bool :=
  (if Use rowProperties then
     p <- prepare_row pre_check row_id rowProperties ;;
     render_row pre_check row_id p
   else ret false)%M.

Definition exn_text (e : exn) : string :=
  match e with
  | ValueError msg => msg
  | OtherError kind => kind
  end.

(** [for row_id in range(total_rows)], with the [except ValueError]
    around the body. *)
Fixpoint rows_loop (pre_check : bool) (row_id : nat) (rows : list Row) : M unit :=
  match rows with
  | [] => ret tt
  | rowProperties :: rest =>
      fun s =>
        match process_row pre_check row_id rowProperties s with
        | (Ok true, s') => (Ok tt, s')
        | (Ok false, s') => rows_loop pre_check (S row_id) rest s'
        | (Raise (ValueError msg), s') =>
            rows_loop pre_check (S row_id) rest
              (set_python_render_error (add_event (EvLog ERROR (MsgText msg)) s'))
        | (Raise e, s') => (Raise e, s')
        end
  end.

(** What [main] returns. *)
Inductive return_value : Type :=
| ReturnNone
| ReturnTrue
| ReturnFalse
| ReturnInt (n : Z).

(** [self.saveDialogData()].  It writes the registry, the [QSettings]
    and the variable of the scene that holds the table, none of them in
    [World], and is the host's: [saveDialogData_run] gives the world
    after it, and the data it stored or the exception it raised, which
    may be an [OSError] of the registry or, from [json.loads] on what the
    scene holds, a [JSONDecodeError], which is a [ValueError].  Data that
    it stored are logged. *)
Definition saveDialogData : M unit :=
  (w <- get_world ;;
   let '(w', saved) := saveDialogData_run H w in
   put_world w' ;;
   data <- lift saved ;;
   match data with
   | Some data => log DEBUG (MsgText data) ;; log INFO MsgDataSaved
   | None => ret tt
   end)%M.

(** [main] from [self.saveDialogData()] on, [total] being the value of
    [total_rows_to_render] there.  The variables that [main] sets around
    the call are set at once before it; [saveDialogData] reads none. *)
Definition main_pass (pre_check : bool) (total : Z) (rows : list Row) : M return_value :=
  (modify (enter_main total) ;;
   saveDialogData ;;
   '(continue_with_render, close_renderSceneDialog) <- check_VFB_settings pre_check ;;
   if negb continue_with_render then ret ReturnNone
   else
     rows_loop pre_check O rows ;;
     (if close_renderSceneDialog then renderSceneDialog_cancel else ret tt) ;;
     s <- get_state ;;
     if negb pre_check && negb (render_queue_canceled s) then
       log INFO MsgRenderingDone ;; ret ReturnTrue
     else if pre_check && negb (python_render_error s) then
       log INFO MsgNoErrorsFound ;; ret (ReturnInt (total_rows_to_render s))
     else if pre_check && python_render_error s then
       log ERROR MsgErrorsFound ;; ret ReturnFalse
     else ret ReturnNone)%M.

(** Python's truth value of what the pre-check returned. *)
Definition rows_to_render (r : return_value) : option Z :=
  match r with
  | ReturnInt n => if n =? 0 then None else Some n
  | ReturnTrue => Some 1
  | _ => None
  end.

(** [start_batch_render(pre_check)], that is [main()]: the commit run
    first runs the pre-check and goes on only if it returned a count
    that is not zero. *)
Definition start_batch_render (pre_check : bool) (rows : list Row) : M return_value :=
  (if negb pre_check then
     log INFO MsgStartingPreCheck ;;
     checked <- main_pass true 0 rows ;;
     match rows_to_render checked with
     | None => ret ReturnNone
     | Some total => log INFO MsgStartingBatchRender ;; main_pass false total rows
     end
   else main_pass true 0 rows)%M.

End Engine.

(** The state in which a run starts: nothing counted, nothing logged. *)
Definition initial_state (w : World) : St :=
  {| world := w; total_rows_to_render := 0; rendered_rows := 0; canceled_renders := 0;
     python_render_error := false; render_queue_canceled := false; trace := [] |}.

(** ** The table of the dialog

    The [CustomTableWidget] of the dialog, its rows and the functions of
    [BatchRenderDialog] that edit them.  A cell of the widget holds an
    item, a widget, both or neither.  The items are [QTableWidgetItem]s,
    with a text, and the [CustomTableWidgetItem]s of the module, with a
    text and a hidden value; the only widgets that the dialog puts into
    cells are check boxes, kept here by their state.  The selection is
    Qt's: each function takes the rows of the selected items as it finds
    them when it is called.  The log lines of these functions and the
    widths of the columns are left out. *)

Inductive table_item : Type :=
| QTableWidgetItem (text : string)
| CustomTableWidgetItem (display_value : string) (hidden_value : option string).

(** [item.text()]. *)
Definition item_text (i : table_item) : string :=
  match i with
  | QTableWidgetItem text => text
  | CustomTableWidgetItem display_value _ => display_value
  end.

Record table_cell : Type := {
  cell_item : option table_item;
  cell_widget : option bool     (* a QCheckBox and [isChecked()] *)
}.

Definition empty_cell : table_cell := {| cell_item := None; cell_widget := None |}.

Definition column_names : list string :=
  ["Use"; "Name"; "Camera"; "Output Path"; "Range"; "Resolution";
   "Pixel Aspect"; "Scene State"; "Render Preset"; "Layer Preset"].

(** [self.tableWidget.columnCount()], set once with [setColumnCount(10)]. *)
Definition columnCount : nat := 10.

(** [self.column_names.index(name)]. *)
Fixpoint index_of (name : string) (names : list string) : nat :=
  match names with
  | [] => O
  | n :: rest => if String.eqb n name then O else S (index_of name rest)
  end.

Definition column (name : string) : nat := index_of name column_names.

(** The rows of the widget, first to last. *)
Definition table : Type := list (list table_cell).

Definition rowCount (t : table) : nat := List.length t.

Definition cell_at (t : table) (row col : nat) : table_cell :=
  nth col (nth row t []) empty_cell.

(** [item(row, column)] and [cellWidget(row, column)]: [None] where there
    is none, and outside the table. *)
Definition item (t : table) (row col : nat) : option table_item :=
  cell_item (cell_at t row col).

Definition cellWidget (t : table) (row col : nat) : option bool :=
  cell_widget (cell_at t row col).

(** [insertRow(row)]: a row of empty cells before the row [row], or at
    the end for [row = rowCount]; nothing for a larger [row]. *)
Definition insertRow (row : nat) (t : table) : table :=
  if (row <=? rowCount t)%nat
  then (firstn row t ++ repeat empty_cell columnCount :: skipn row t)%list
  else t.

(** [removeRow(row)]: nothing for a row that is not there. *)
Definition removeRow (row : nat) (t : table) : table :=
  (firstn row t ++ skipn (S row) t)%list.

Fixpoint update_nth {A : Type} (n : nat) (f : A -> A) (l : list A) : list A :=
  match l, n with
  | [], _ => []
  | a :: l', O => f a :: l'
  | a :: l', S k => a :: update_nth k f l'
  end.

(** [setItem(row, column, item)] and [setCellWidget(row, column, widget)]:
    nothing outside the table. *)
Definition setItem (t : table) (row col : nat) (i : table_item) : table :=
  update_nth row
    (update_nth col (fun c => {| cell_item := Some i; cell_widget := cell_widget c |})) t.

Definition setCellWidget (t : table) (row col : nat) (checked : bool) : table :=
  update_nth row
    (update_nth col (fun c => {| cell_item := cell_item c; cell_widget := Some checked |})) t.

(** [CustomTableWidget.setCellData] and [CustomTableWidget.getHiddenValue]. *)
Definition setCellData (t : table) (row col : nat) (display_value : string)
           (hidden_value : option string) : table :=
  setItem t row col (CustomTableWidgetItem display_value hidden_value).

Definition getHiddenValue (t : table) (row col : nat) : option string :=
  match item t row col with
  | Some (CustomTableWidgetItem _ hidden_value) => hidden_value
  | _ => None
  end.

(** A value read from a cell: the state of its check box or the text of
    its item. *)
Inductive entry_value : Type :=
| EntryBool (checked : bool)
| EntryText (text : string).

(** [get_entry_values(row)], nested in [start_batch_render]: for every
    column its value and its hidden value, in the order of the columns.
    A cell with neither widget nor item raises [AttributeError]. *)
Definition entry_of_cell (t : table) (row col : nat) : result (entry_value * option string) :=
  match cellWidget t row col with
  | Some checked => Ok (EntryBool checked, None)
  | None =>
      match item t row col with
      | Some i => Ok (EntryText (item_text i), getHiddenValue t row col)
      | None => Raise (OtherError "AttributeError")
      end
  end.

Definition get_entry_values (t : table) (row : nat)
  : result (list (entry_value * option string)) :=
  map_result (entry_of_cell t row) (seq O (List.length column_names)).

(** What the functions below read and assign of the dialog: the table and
    the flag [system_modified], which the handlers of the parameter fields
    test before they do anything. *)
Record Dialog : Type := {
  tableWidget : table;
  system_modified : bool
}.

(** [sorted(rows)] and [sorted(list(set(rows)))]. *)
Fixpoint insert_sorted (x : nat) (l : list nat) : list nat :=
  match l with
  | [] => [x]
  | y :: l' => if (x <=? y)%nat then x :: l else y :: insert_sorted x l'
  end.

Definition sorted (l : list nat) : list nat := fold_right insert_sorted [] l.

Definition sorted_set (l : list nat) : list nat := sorted (nodup Nat.eq_dec l).

(** [move_row(from_row, to_row)]: the texts and the check-box states of
    the row are copied into [items_dict], the row is removed, a row is
    inserted at [to_row] and filled with new check boxes and new
    [QTableWidgetItem]s. *)
Definition copied_value (t : table) (row col : nat) : entry_value :=
  match cellWidget t row col with
  | Some checked => EntryBool checked
  | None => EntryText (match item t row col with
                       | Some i => item_text i
                       | None => ""
                       end)
  end.

Definition populate (to_row : nat) (t : table) (entry : nat * entry_value) : table :=
  let '(col, value) := entry in
  match value with
  | EntryBool checked => setCellWidget t to_row col checked
  | EntryText text => setItem t to_row col (QTableWidgetItem text)
  end.

Definition move_row (from_row to_row : nat) (d : Dialog) : Dialog :=
  let t := tableWidget d in
  let items_dict := map (fun col => (col, copied_value t from_row col)) (seq O columnCount) in
  let t := removeRow from_row t in
  let t := insertRow to_row t in
  let t := fold_left (populate to_row) items_dict t in
  {| tableWidget := t; system_modified := false |}.

(** The loops of [move_up] and [move_down]: [x] counts the rows moved. *)
Fixpoint move_rows (to_row : nat -> nat) (rows : list nat) (x : nat) (d : Dialog) : Dialog :=
  match rows with
  | [] => d
  | row_id :: rest => move_rows to_row rest (S x) (move_row row_id (to_row x) d)
  end.

(** [move_up()], [selected_rows] being the rows of the selected items.
    [one_above_selection >= 0] is [rows_to_move[0] >= 1]. *)
Definition move_up (selected_rows : list nat) (d : Dialog) : Dialog :=
  match sorted_set selected_rows with
  | [] => d
  | O :: _ => d
  | (S one_above_selection :: _) as rows_to_move =>
      move_rows (fun x => one_above_selection + x)%nat rows_to_move O d
  end.

(** [move_down()].  [x] is less than the number of rows to move, which is
    at most [one_below_selection]: the difference is taken in [nat]. *)
Definition move_down (selected_rows : list nat) (d : Dialog) : Dialog :=
  match sorted_set selected_rows with
  | [] => d
  | rows_to_move =>
      let one_below_selection := S (List.last rows_to_move O) in
      if (one_below_selection <? rowCount (tableWidget d))%nat
      then move_rows (fun x => one_below_selection - x)%nat (rev rows_to_move) O d
      else d
  end.

(** [delete_row()]: the rows are removed from the last to the first. *)
Definition delete_row (selected_rows : list nat) (d : Dialog) : Dialog :=
  match selected_rows with
  | [] => d
  | _ =>
      let rows_to_delete := rev (sorted_set selected_rows) in
      {| tableWidget := fold_left (fun t x => removeRow x t) rows_to_delete (tableWidget d);
         system_modified := false |}
  end.

(** [duplicate_row()].  One turn of the loop over the columns copies a
    cell of [row_int] into the new row.  [item.clone()] raises
    [AttributeError] for a cell without item, and the function raises
    [ValueError] after copying a cell of the camera column without hidden
    value; the table keeps what was done before. *)
Definition duplicate_cell (row_int newRow_int : nat) (t : table) (col : nat)
  : result unit * table :=
  let column_name := nth col column_names "" in
  let copied :=
    match cellWidget t row_int col with
    | Some value => Ok (setCellWidget t newRow_int col value, None)
    | None =>
        match item t row_int col with
        | Some i =>
            let hidden_value := getHiddenValue t row_int col in
            Ok (setCellData t newRow_int col (item_text i) hidden_value, hidden_value)
        | None => Raise (OtherError "AttributeError")
        end
    end in
  match copied with
  | Ok (t', hidden_value) =>
      if String.eqb column_name "Camera" &&
         match hidden_value with None => true | Some _ => false end
      then (Raise (ValueError "Camera ID is missing"), t')
      else (Ok tt, t')
  | Raise e => (Raise e, t)
  end.

Fixpoint duplicate_cells (row_int newRow_int : nat) (cols : list nat) (t : table)
  : result unit * table :=
  match cols with
  | [] => (Ok tt, t)
  | col :: rest =>
      match duplicate_cell row_int newRow_int t col with
      | (Ok _, t') => duplicate_cells row_int newRow_int rest t'
      | (Raise e, t') => (Raise e, t')
      end
  end.

(** The loop over the rows to duplicate, last to first; every new row is
    inserted below the last of them, [x] staying 0. *)
Fixpoint duplicate_rows (newRow_int : nat) (rows : list nat) (t : table)
  : result unit * table :=
  match rows with
  | [] => (Ok tt, t)
  | row_int :: rest =>
      match duplicate_cells row_int newRow_int (seq O columnCount)
                            (insertRow newRow_int t) with
      | (Ok _, t') => duplicate_rows newRow_int rest t'
      | (Raise e, t') => (Raise e, t')
      end
  end.

Definition duplicate_row (selected_rows : list nat) (d : Dialog) : result unit * Dialog :=
  match selected_rows with
  | [] => (Ok tt, {| tableWidget := tableWidget d; system_modified := false |})
  | _ =>
      let rows_to_duplicate := sorted_set selected_rows in
      let newRow_int := (List.last rows_to_duplicate O + 1 + 0)%nat in
      match duplicate_rows newRow_int (rev rows_to_duplicate) (tableWidget d) with
      | (Ok _, t) => (Ok tt, {| tableWidget := t; system_modified := false |})
      | (Raise e, t) => (Raise e, {| tableWidget := t; system_modified := true |})
      end
  end.

(** [add_row()]: [default_camera] and [default_camera_ID] are the text
    and the data of the first entry of the camera list. *)
Definition add_row (default_camera : string) (default_camera_ID : option string)
           (d : Dialog) : Dialog :=
  let t := tableWidget d in
  let row_position := rowCount t in
  let t := insertRow row_position t in
  let t := setCellWidget t row_position 0 true in
  let t := fold_left (fun t col => setItem t row_position col (QTableWidgetItem "Default"))
                     (seq 1 (columnCount - 2 - 1)) t in
  let t := setCellData t row_position (column "Camera") default_camera default_camera_ID in
  let t := setItem t row_position (column "Scene State") (QTableWidgetItem "") in
  let t := setItem t row_position (column "Render Preset") (QTableWidgetItem "") in
  let t := setItem t row_position (column "Layer Preset") (QTableWidgetItem "") in
  let t := setItem t row_position (column "Output Path") (QTableWidgetItem DEFAULT_PATH_TEXT) in
  {| tableWidget := t; system_modified := false |}.

(** The part that [frame_range_changed], [resolution_changed] and the
    like share: the text [value] is put into the column [name] of every
    selected row that has an item there.  With no item selected the
    function returns with [system_modified] still set. *)
Definition set_column_text (name value : string) (selected_rows : list nat) (d : Dialog)
  : Dialog :=
  if system_modified d then d
  else
    match sorted selected_rows with
    | [] => {| tableWidget := tableWidget d; system_modified := true |}
    | rows =>
        {| tableWidget :=
             fold_left (fun t row =>
                          match item t row (column name) with
                          | Some _ => setItem t row (column name) (QTableWidgetItem value)
                          | None => t
                          end) rows (tableWidget d);
           system_modified := false |}
    end.

(** [frame_range_changed()]: [override] is the truth value of the state
    of the check box [frameRangeOverride], [spnFrameStart] and
    [spnFrameEnd] are the values of the two spin boxes. *)
Definition frame_range_text (override : bool) (spnFrameStart spnFrameEnd : Z) : string :=
  if override then PyStr.str spnFrameStart ++ ":" ++ PyStr.str spnFrameEnd else "Default".

Definition frame_range_changed (override : bool) (spnFrameStart spnFrameEnd : Z)
           (selected_rows : list nat) (d : Dialog) : Dialog :=
  set_column_text "Range" (frame_range_text override spnFrameStart spnFrameEnd)
                  selected_rows d.

(** [resolution_changed()]. *)
Definition resolution_text (override : bool) (spnWidth spnHeight : Z) : string :=
  if override then PyStr.str spnWidth ++ "x" ++ PyStr.str spnHeight else "Default".

Definition resolution_changed (override : bool) (spnWidth spnHeight : Z)
           (selected_rows : list nat) (d : Dialog) : Dialog :=
  set_column_text "Resolution" (resolution_text override spnWidth spnHeight)
                  selected_rows d.

(** The part of [update_element_values] that sets a pair of spin boxes
    from the text of a cell: the state of the override check box and the
    two values.  [defaults] are the values of the scene, taken when the
    text is [Default] or empty; a text with one piece only raises
    [IndexError]. *)
Definition spin_values (sep : ascii) (value : string) (defaults : Z * Z)
  : result (bool * Z * Z) :=
  if String.eqb value "Default" || String.eqb value "" then
    Ok (false, fst defaults, snd defaults)
  else
    let pieces := PyStr.split sep value in
    (first <- match nth_error pieces 0 with
              | Some p => int_or_raise p
              | None => Raise (OtherError "IndexError")
              end ;;
     second <- match nth_error pieces 1 with
               | Some p => int_or_raise p
               | None => Raise (OtherError "IndexError")
               end ;;
     Ok (true, first, second))%result.

(** ** The log window

    The log functions of [BatchRender.py]: the level of verbosity, the
    level of indentation, and what goes to the log window over the named
    pipe and to the standard output.  A message on the pipe is the
    dictionary [data], kept by its two entries [TYPE] and [VALUE]. *)

Record LogState : Type := {
  LOG_VERBOSE_LEVEL : option string;
  LOG_INDENT_LEVEL : Z;
  pipe_written : list (string * string);   (* latest first *)
  printed : list string;                   (* latest first *)
  pipe_closed : bool
}.

Definition LOG_INDENT_SPACING : string := "   ".

(** [s * n]: the empty string for [n] not above zero. *)
Fixpoint repeat_nat (s : string) (n : nat) : string :=
  match n with
  | O => ""
  | S k => s ++ repeat_nat s k
  end.

Definition string_times (s : string) (n : Z) : string := repeat_nat s (Z.to_nat n).

Definition verbose_level_order : list string := ["DEBUG"; "INFO"; "WARNING"; "ERROR"].

(** [l.index(x)], [None] for the [ValueError] of a value not in the list. *)
Fixpoint list_index (x : string) (l : list string) : option nat :=
  match l with
  | [] => None
  | y :: l' => if String.eqb y x then Some O else option_map S (list_index x l')
  end.

(** [send_to_log(data)]: the dictionary goes to the pipe as it is, then
    its type decides. *)
Definition send_to_log (data_type data_VALUE : string) (st : LogState)
  : result unit * LogState :=
  let indent := string_times LOG_INDENT_SPACING (LOG_INDENT_LEVEL st) in
  let data_value := if negb (String.eqb data_type "LOG") then data_VALUE
                    else indent ++ data_VALUE in
  let st := {| LOG_VERBOSE_LEVEL := LOG_VERBOSE_LEVEL st;
               LOG_INDENT_LEVEL := LOG_INDENT_LEVEL st;
               pipe_written := (data_type, data_VALUE) :: pipe_written st;
               printed := printed st; pipe_closed := pipe_closed st |} in
  if String.eqb data_type "LOG" then
    (Ok tt, {| LOG_VERBOSE_LEVEL := LOG_VERBOSE_LEVEL st;
               LOG_INDENT_LEVEL := LOG_INDENT_LEVEL st;
               pipe_written := pipe_written st;
               printed := (indent ++ data_value) :: printed st;
               pipe_closed := pipe_closed st |})
  else if String.eqb data_type "COMMAND" then
    if String.eqb data_value "SHUTDOWN" then
      (Ok tt, {| LOG_VERBOSE_LEVEL := LOG_VERBOSE_LEVEL st;
                 LOG_INDENT_LEVEL := LOG_INDENT_LEVEL st;
                 pipe_written := pipe_written st; printed := printed st;
                 pipe_closed := true |})
    else if existsb (String.eqb data_value) ["OPEN"] then (Ok tt, st)
    else (Raise (ValueError ("Invalid command: " ++ data_value)), st)
  else (Raise (ValueError ("Invalid data type: " ++ data_type)), st).

(** [log(level, text)], named [log_window] here, [log] being the log
    of the engine above.  Both [ValueError]s are kept by a short text, the
    second being the one of [list.index]. *)
Definition log_window (level text : string) (st : LogState) : result unit * LogState :=
  match list_index level verbose_level_order with
  | None => (Raise (ValueError "Invalid verbose level"), st)
  | Some message_level_index =>
      match match LOG_VERBOSE_LEVEL st with
            | Some verbose => list_index verbose verbose_level_order
            | None => None
            end with
      | None => (Raise (ValueError "is not in list"), st)
      | Some log_verbose_level_index =>
          if (log_verbose_level_index <=? message_level_index)%nat
          then send_to_log "LOG" text st
          else (Ok tt, st)
      end
  end.

Definition set_log_verbose_level (level : string) (st : LogState) : LogState :=
  {| LOG_VERBOSE_LEVEL := Some level; LOG_INDENT_LEVEL := LOG_INDENT_LEVEL st;
     pipe_written := pipe_written st; printed := printed st;
     pipe_closed := pipe_closed st |}.

Definition adjust_log_indent_level (adjustment : Z) (st : LogState) : LogState :=
  {| LOG_VERBOSE_LEVEL := LOG_VERBOSE_LEVEL st;
     LOG_INDENT_LEVEL := if adjustment =? 0 then 0 else LOG_INDENT_LEVEL st + adjustment;
     pipe_written := pipe_written st; printed := printed st;
     pipe_closed := pipe_closed st |}.

Definition log_open (st : LogState) : result unit * LogState :=
  send_to_log "COMMAND" "OPEN" st.

Definition log_shutdown (st : LogState) : result unit * LogState :=
  send_to_log "COMMAND" "SHUTDOWN" st.

(** ** Error messages of the log window

    [escape_characters], nested in [excepthook] of [secondary_window.py]:
    the text of an exception made ready for [cmd /k echo]. *)

(** The loop over [characters]: each one gets a caret before it. *)
Definition escape_carets (text : string) : string :=
  fold_left (fun text character => PyStr.replace character ("^" ++ character) text)
            ["^"; "&"; "|"; "<"; ">"] text.

Definition escape_characters (text : string) : list string :=
  let text := escape_carets text in
  let text := PyStr.replace dquote "'" text in
  map (fun line => if String.eqb line "" then "." else " " ++ line)
      (PyStr.split "010" text).

(** ** A host to run the engine on

    A small stand-in for 3ds Max and for the libraries, used for the
    examples only: paths are joined with a backslash and split at the last
    one, the extension starts at the last dot, and a render does what the
    function [render] given to [sim_host] says. *)

Module Sim.

Fixpoint split_last (sep : ascii) (s : string) : option (string * string) :=
  match s with
  | EmptyString => None
  | String c s' =>
      match split_last sep s' with
      | Some (head, tail) => Some (String c head, tail)
      | None => if Ascii.eqb c sep then Some (EmptyString, s') else None
      end
  end.

Definition join (a b : string) : string := a ++ backslash ++ b.

Definition split (p : string) : string * string :=
  match split_last "092" p with
  | Some (head, tail) => (head, tail)
  | None => (EmptyString, p)
  end.

Definition splitext (p : string) : string * string :=
  match split_last "." p with
  | Some (root, ext) => (root, String "." ext)
  | None => (p, EmptyString)
  end.

Definition month_number (s : string) : option Z :=
  match find (fun m => String.eqb (fst m) s)
             [("Jan", 1); ("Feb", 2); ("Mar", 3); ("Apr", 4); ("May", 5); ("Jun", 6);
              ("Jul", 7); ("Aug", 8); ("Sep", 9); ("Oct", 10); ("Nov", 11); ("Dec", 12)] with
  | Some m => Some (snd m)
  | None => None
  end.

(** Reads [[2024/Aug/21|11:37:54]], fields of fixed width. *)
Definition parse_stamp (s : string) : option datetime :=
  if (String.length s =? 22)%nat then
    match PyStr.int (substring 1 4 s), month_number (substring 6 3 s),
          PyStr.int (substring 10 2 s), PyStr.int (substring 13 2 s),
          PyStr.int (substring 16 2 s), PyStr.int (substring 19 2 s) with
    | Some y, Some mo, Some d, Some h, Some mi, Some sec =>
        Some {| year := y; month := mo; day := d; hour := h; minute := mi;
                second := sec; microsecond := 0 |}
    | _, _, _, _, _, _ => None
    end
  else None.

Definition host (render : World -> render_call -> World * bool) : Host :=
  {| rt_render := render;
     rt_execute := fun w _ => (w, "0");
     vrayVFBGetRegionEnabled := fun _ => false;
     masterState_GetDescendant := fun _ _ => false;
     masterState_SetCurrentStateSet := fun w _ => w;
     sceneStateMgr_FindSceneState := fun _ _ => false;
     sceneStateMgr_RestoreAllParts := fun w _ => w;
     rt_GetDir := fun _ name => name;
     renderPresets_LoadAll := fun w _ => w;
     vfbLayerMgr_loadLayersFromFile := fun w _ => w;
     dialog_exec := fun w _ _ _ => (w, 1%nat);
     strptime := parse_stamp;
     os_path_join := join;
     os_path_split := split;
     os_path_splitext := splitext;
     os_path_dirname := fun p => fst (split p);
     os_path_abspath := fun p => p;
     re_sub_template := fun _ _ _ => inr "re.error";
     saveDialogData_run := fun w => (w, Ok (Some "{}")) |}.

Definition noon : datetime :=
  {| year := 2024; month := 1; day := 1; hour := 12; minute := 0; second := 0;
     microsecond := 0 |}.

(** A scene with two cameras, V-Ray current, the render-settings panel
    closed, the directory [C:\out] there and the project folder [C:]. *)
Definition scene (existing : list (string * Q)) (log_lines : option (list string)) : World :=
  {| renderWidth := 1920; renderHeight := 1080; renderPixelAspect := "1.0";
     rendTimeType := 1; currentTime_frame := 1;
     animationRange_start := 0; animationRange_end := 100;
     rendStart := 0; rendEnd := 100; rendNThFrame := 1; rendPickupFrames := "1, 3-5, 8";
     renderers_current := "V_Ray_GPU_6:V_Ray_GPU_6";
     renderSceneDialog_isOpen := false;
     project_folder := "C:";
     objects := [("Cam01", Some "id-1"); ("Cam03", Some "id-3")];
     txtDefaultOutputPath := "out";
     clock := noon; time_time := 1000%Q;
     files := ("C:\out", 0%Q) :: existing;
     vraylog := log_lines |}.

(** What a render leaves: the clock moved on, files written, lines
    logged by V-Ray. *)
Definition after_render (w : World) (seconds : Z) (written : list string)
           (logged : list string) : World :=
  {| renderWidth := renderWidth w; renderHeight := renderHeight w;
     renderPixelAspect := renderPixelAspect w;
     rendTimeType := rendTimeType w; currentTime_frame := currentTime_frame w;
     animationRange_start := animationRange_start w;
     animationRange_end := animationRange_end w;
     rendStart := rendStart w; rendEnd := rendEnd w;
     rendNThFrame := rendNThFrame w; rendPickupFrames := rendPickupFrames w;
     renderers_current := renderers_current w;
     renderSceneDialog_isOpen := renderSceneDialog_isOpen w;
     project_folder := project_folder w; objects := objects w;
     txtDefaultOutputPath := txtDefaultOutputPath w;
     clock := {| year := year (clock w); month := month (clock w); day := day (clock w);
                 hour := hour (clock w); minute := minute (clock w);
                 second := second (clock w) + seconds;
                 microsecond := microsecond (clock w) |};
     time_time := (time_time w + inject_Z seconds)%Q;
     files := (map (fun p => (p, (time_time w + inject_Z seconds)%Q)) written ++ files w)%list;
     vraylog := match vraylog w with
                | Some old => Some (old ++ logged)%list
                | None => match logged with [] => None | _ => Some logged end
                end |}.

(** The render writes its file and takes five seconds. *)
Definition render_ok (w : World) (call : render_call) : World * bool :=
  (after_render w 5 [rc_outputfile call] [], false).

(** The user cancels every render. *)
Definition render_canceled (w : World) (call : render_call) : World * bool :=
  (after_render w 1 [] [], true).

(** The host reports no cancellation and writes nothing: the file found
    afterwards, if any, is the one that was there before. *)
Definition render_nothing (w : World) (call : render_call) : World * bool :=
  (after_render w 5 [] [], false).


Definition entry (name camera_id output_path range pixel_aspect : string) : Row :=
  {| Use := true; Name := name; Camera := "Cam";
     Camera_Hidden := Some camera_id; Output_Path := output_path;
     Range := range; Resolution := "Default"; Pixel_Aspect := pixel_aspect;
     Scene_State := ""; Render_Preset := ""; Layer_Preset := "" |}.

End Sim.

(** ** Vocabulary of the properties *)

(** The values [get_valid_filename] works from, written in a row. *)
Definition example_values (name camera : string) (scene_state : option string)
           (render_preset layer_preset resolution_disp pixel_aspect : string) : item_values :=
  {| iv_Name := name; iv_Camera := camera; iv_Scene_State := scene_state;
     iv_Render_Preset := render_preset; iv_Layer_Preset := layer_preset;
     iv_Resolution_Display := resolution_disp; iv_Pixel_Aspect := pixel_aspect |}.

(** The state right after [rt.render] returned from [call]. *)
Definition rendered (H : Host) (call : render_call) (s : St) : St :=
  with_world (fst (rt_render H (world s) call)) (add_event (EvRenderCall call) s).

(** Whether the host reported the render of [call] as canceled. *)
Definition reported_canceled (H : Host) (call : render_call) (s : St) : bool :=
  snd (rt_render H (world s) call).

(** The timestamp that [were_there_render_errors] reads on a line of the
    V-Ray log, when the line has one. *)
Definition line_stamp (H : Host) (raw : string) : option datetime :=
  match search_bracket (PyStr.strip raw) with
  | Some line_timestamp_formatted => strptime H line_timestamp_formatted
  | None => None
  end.


(** The number of frames among [events] whose render was canceled. *)
Fixpoint canceled_count (events : list event) : Z :=
  match events with
  | [] => 0
  | EvRenderResult render_result :: older =>
      (if render_result =? 1 then 1 else 0) + canceled_count older
  | _ :: older => canceled_count older
  end.

(** Every call of [rt.render] among [events], latest first, was made when
    fewer than [max_canceled_before_exit] of the frames before it had been
    canceled, [already] counting those canceled before [events]. *)
Fixpoint calls_below_limit (already : Z) (events : list event) : bool :=
  match events with
  | [] => true
  | EvRenderCall _ :: older =>
      (already + canceled_count older <? max_canceled_before_exit) &&
      calls_below_limit already older
  | _ :: older => calls_below_limit already older
  end.

(** How the loop over the rows dealt with one row. *)
Inductive outcome : Type :=
| Skipped                 (* not in use *)
| Validated               (* the body ran to its end *)
| Failed (msg : string)   (* ValueError, caught: the loop goes on *)
| Stopped                 (* the body ran to its end and left the loop *)
| Crashed (e : exn).      (* another exception: the run ends *)

(** The outcomes of the rows that [rows_loop] gets to, in order. *)
Fixpoint outcomes (H : Host) (DEBUG_disable_rendering pre_check : bool)
         (row_id : nat) (rows : list Row) (s : St) : list outcome :=
  match rows with
  | [] => []
  | rowProperties :: rest =>
      match process_row H DEBUG_disable_rendering pre_check row_id rowProperties s with
      | (Ok true, _) => [Stopped]
      | (Ok false, s') =>
          (if Use rowProperties then Validated else Skipped) ::
          outcomes H DEBUG_disable_rendering pre_check (S row_id) rest s'
      | (Raise (ValueError msg), s') =>
          Failed msg ::
          outcomes H DEBUG_disable_rendering pre_check (S row_id) rest
            (set_python_render_error (add_event (EvLog ERROR (MsgText msg)) s'))
      | (Raise e, _) => [Crashed e]
      end
  end.

Definition is_validated (o : outcome) : bool :=
  match o with Validated => true | _ => false end.

Definition is_failed (o : outcome) : bool :=
  match o with Failed _ => true | _ => false end.

Definition count_where {A : Type} (p : A -> bool) (l : list A) : Z :=
  Z.of_nat (List.length (filter p l)).

(** The timestamps in the file names allocated for the frames of row
    [row_id], latest first. *)
Fixpoint timestamps_of_row (row_id : nat) (events : list event) : list string :=
  match events with
  | [] => []
  | EvNames r _ formatted_time _ _ :: older =>
      if Nat.eqb r row_id then formatted_time :: timestamps_of_row row_id older
      else timestamps_of_row row_id older
  | _ :: older => timestamps_of_row row_id older
  end.

(** The events of a run, first to last. *)
Definition history (s : St) : list event := rev (trace s).

(** The render call of the examples. *)
Definition stale_call : render_call :=
  {| rc_camera := "Cam01"; rc_frame := 1; rc_outputwidth := 1920; rc_outputheight := 1080;
     rc_pixelaspect := "1.0"; rc_outputfile := "C:\out\shot.exr" |}.


(** The request of the examples: frame 1 of [C:\out\shot.exr] in the run
    stamped [24-01-01T00.00.00], on a disk where [existing] are taken. *)
Definition request_shot (existing : list string) : result (string * string) * St :=
  prevent_duplicate_files (Sim.host Sim.render_ok) false "C:\out\shot.exr" 1
    "24-01-01T00.00.00"
    (initial_state (Sim.scene (map (fun path => (path, 0%Q)) existing) None)).

Definition allocated (r : result (string * string) * St) : option string :=
  match fst r with
  | Ok (file_path, file_name) => Some file_name
  | Raise _ => None
  end.

(** The calls of [rt.render] among [events], in the order of [events]. *)
Fixpoint render_calls (events : list event) : list render_call :=
  match events with
  | [] => []
  | EvRenderCall call :: rest => call :: render_calls rest
  | _ :: rest => render_calls rest
  end.

Definition is_log (e : event) : Prop :=
  match e with
  | EvLog _ _ => True
  | _ => False
  end.

(** An event that is not a render: a log line or the names of a frame. *)
Definition is_inert (e : event) : Prop :=
  match e with
  | EvRenderCall _ | EvRenderResult _ => False
  | _ => True
  end.

(** An event that the entry [row_id], stamped [formatted_time], can leave. *)
Definition of_entry (row_id : nat) (formatted_time : string) (e : event) : Prop :=
  match e with
  | EvNames r _ t _ _ => r = row_id /\ t = formatted_time
  | _ => True
  end.

(** [s'] has the events of [s] and, after them, [added]. *)
Definition adds (added : list event) (s s' : St) : Prop :=
  trace s' = (added ++ trace s)%list.

(** The variables of [main] other than [canceled_renders] are the same. *)
Definition same_tallies (s s' : St) : Prop :=
  total_rows_to_render s' = total_rows_to_render s /\
  rendered_rows s' = rendered_rows s /\
  python_render_error s' = python_render_error s /\
  render_queue_canceled s' = render_queue_canceled s.

(** A step that only logs: the variables of [main] stay, log lines come. *)
Definition quiet_step (s s' : St) : Prop :=
  same_tallies s s' /\ canceled_renders s' = canceled_renders s /\
  exists added, adds added s s' /\ Forall is_log added.

(** A quiet step that leaves the world alone as well. *)
Definition reading_step (s s' : St) : Prop :=
  quiet_step s s' /\ world s' = world s.

(** Every run of [m] makes a step in [R], however it ends. *)
Definition steps {A : Type} (R : St -> St -> Prop) (m : M A) : Prop :=
  forall s, R s (snd (m s)).

(** [m] never raises [ValueError]. *)
Definition no_value_error {A : Type} (m : M A) : Prop :=
  forall s msg, fst (m s) <> Raise (ValueError msg).

(** What a stretch of the loop over the frames of entry [row_id] does:
    [added] are its events, all of this entry and its timestamp; only
    [canceled_renders] changes, by the number of canceled frames among
    them; the pre-check renders nothing. *)
Definition entry_stretch (pre_check : bool) (row_id : nat) (formatted_time : string)
           (added : list event) (s s' : St) : Prop :=
  same_tallies s s' /\ adds added s s' /\
  Forall (of_entry row_id formatted_time) added /\
  canceled_renders s' = canceled_renders s + canceled_count added /\
  (pre_check = true -> Forall is_inert added).

(** The limit on canceled frames is respected on a stretch that starts
    below it: every render is called below the limit, and the stretch
    ends below the limit unless it ends normally in a commit pass. *)
Definition within_limit {A : Type} (pre_check : bool) (added : list event)
           (s : St) (r : result A) (s' : St) : Prop :=
  canceled_renders s < max_canceled_before_exit ->
  calls_below_limit (canceled_renders s) added = true /\
  (canceled_renders s' < max_canceled_before_exit \/
   (pre_check = false /\ exists a, r = Ok a)).

(** An event other than the names of a frame. *)
Definition is_work (e : event) : Prop :=
  match e with
  | EvNames _ _ _ _ _ => False
  | _ => True
  end.

(** A step in which a render may be called, each call below the limit on
    canceled frames if the step starts below it, and no result counted. *)
Definition attempt_step (s s' : St) : Prop :=
  same_tallies s s' /\ canceled_renders s' = canceled_renders s /\
  exists added,
    adds added s s' /\ Forall is_work added /\ canceled_count added = 0 /\
    forall already, already < max_canceled_before_exit ->
                    calls_below_limit already added = true.

(** From every state, [m] makes a stretch of the entry that respects the
    limit. *)
Definition stretches {A : Type} (pre_check : bool) (row_id : nat) (formatted_time : string)
           (m : M A) : Prop :=
  forall s, exists added,
    entry_stretch pre_check row_id formatted_time added s (snd (m s)) /\
    within_limit pre_check added s (fst (m s)) (snd (m s)).

(** A step of the entry [row_id] in which nothing is rendered. *)
Definition calm_step (row_id : nat) (formatted_time : string) (s s' : St) : Prop :=
  same_tallies s s' /\ canceled_renders s' = canceled_renders s /\
  exists added,
    adds added s s' /\ Forall is_inert added /\
    Forall (of_entry row_id formatted_time) added.

(** Whatever [m] returns satisfies [P]. *)
Definition returns_only {A : Type} (P : A -> Prop) (m : M A) : Prop :=
  forall s a, fst (m s) = Ok a -> P a.

(** What one turn of the loop over the rows does, for the row [row_id],
    in use or not, from [s] to the result [r] in [s']. *)
Definition entry_run (pre_check : bool) (row_id : nat) (in_use : bool)
           (s : St) (r : result bool) (s' : St) : Prop :=
  exists formatted_time added,
    adds added s s' /\
    Forall (of_entry row_id formatted_time) added /\
    (pre_check = true -> Forall is_inert added) /\
    python_render_error s' = python_render_error s /\
    total_rows_to_render s' =
      total_rows_to_render s + (if in_use && pre_check then 1 else 0) /\
    canceled_renders s' = canceled_renders s + canceled_count added /\
    (* the renders stay below the limit, and reaching it ends the queue *)
    (canceled_renders s < max_canceled_before_exit ->
     calls_below_limit (canceled_renders s) added = true /\
     match r with
     | Ok true =>
         pre_check = false /\ max_canceled_before_exit <= canceled_renders s' /\
         render_queue_canceled s' = true /\
         hd_error added = Some (EvLog WARNING MsgCanceledRenderQueue)
     | _ =>
         canceled_renders s' < max_canceled_before_exit /\
         render_queue_canceled s' = render_queue_canceled s
     end) /\
    (* a turn that ends normally has counted the row and put the sizes back *)
    (forall b, r = Ok b ->
               rendered_rows s' = rendered_rows s + (if in_use then 1 else 0) /\
               renderWidth (world s') = renderWidth (world s) /\
               renderHeight (world s') = renderHeight (world s)) /\
    (* in the pre-check, a row that fails validation is not counted *)
    (pre_check = true -> forall msg, r = Raise (ValueError msg) ->
                                     rendered_rows s' = rendered_rows s).

(** What [main] does before the loop over the rows, its variables set:
    it saves the dialog data and checks the settings of the frame
    buffer. *)
Definition main_start (H : Host) (pre_check : bool) : M (bool * bool) :=
  (saveDialogData H ;; check_VFB_settings H pre_check)%M.

(** The outcomes of the rows in the pre-check that starts in [s]. *)
Definition checked_rows (H : Host) (DEBUG_disable_rendering : bool) (rows : list Row)
           (s : St) : list outcome :=
  outcomes H DEBUG_disable_rendering true O rows
           (snd (main_start H true (enter_main 0 s))).

(** The state in which the pre-check of a commit run starts. *)
Definition before_pre_check (s0 : St) : St := add_event (EvLog INFO MsgStartingPreCheck) s0.

(** The rows in use. *)
Definition rows_in_use (rows : list Row) : Z := count_where Use rows.

(** Whether [check_VFB_settings] opened the render-settings panel at the
    start of the commit pass on [s], and so asks [main] to close it. *)
Definition opened_panel (H : Host) (total : Z) (s : St) : bool :=
  match fst (main_start H false (enter_main total s)) with
  | Ok (_, close_renderSceneDialog) => close_renderSceneDialog
  | Raise _ => false
  end.

(** The frames named in [events] carry one timestamp per row. *)
Definition one_timestamp_per_row (events : list event) : Prop :=
  forall row_id, exists formatted_time,
    Forall (eq formatted_time) (timestamps_of_row row_id events).

(** The names in [events] are for rows from [row_id] on. *)
Definition rows_from (row_id : nat) (e : event) : Prop :=
  match e with
  | EvNames r _ _ _ _ => (row_id <= r)%nat
  | _ => True
  end.

(** Three rows in use, the camera of the second one not in the scene. *)
Definition three_rows : list Row :=
  [ Sim.entry "A" "id-1" DEFAULT_PATH_TEXT "Default" "Default";
    Sim.entry "B" "id-2" DEFAULT_PATH_TEXT "Default" "Default";
    Sim.entry "C" "id-3" DEFAULT_PATH_TEXT "Default" "Default" ].

(** The pre-check of [three_rows], as a commit run makes it. *)
Definition three_rows_check : result return_value * St :=
  main_pass (Sim.host Sim.render_ok) false true 0 three_rows
            (before_pre_check (initial_state (Sim.scene [] None))).

(** The end of [main], after the loop over the rows: the panel is closed
    if [check_VFB_settings] opened it, and the outcome is logged and
    returned. *)
Definition conclude (pre_check close_renderSceneDialog : bool) (s2 : St)
  : result return_value * St :=
  let s3 := if close_renderSceneDialog
            then with_world (set_renderSceneDialog_isOpen false (world s2)) s2
            else s2 in
  if negb pre_check && negb (render_queue_canceled s3)
  then (Ok ReturnTrue, add_event (EvLog INFO MsgRenderingDone) s3)
  else if pre_check && negb (python_render_error s3)
  then (Ok (ReturnInt (total_rows_to_render s3)), add_event (EvLog INFO MsgNoErrorsFound) s3)
  else if pre_check && python_render_error s3
  then (Ok ReturnFalse, add_event (EvLog ERROR MsgErrorsFound) s3)
  else (Ok ReturnNone, s3).

(** The timestamps in all the file names allocated in [events]. *)
Fixpoint all_timestamps (events : list event) : list string :=
  match events with
  | [] => []
  | EvNames _ _ formatted_time _ _ :: older => formatted_time :: all_timestamps older
  | _ :: older => all_timestamps older
  end.

(** Two rows of one frame each, and two rows of three frames each. *)
Definition two_rows : list Row :=
  [ Sim.entry "A" "id-1" DEFAULT_PATH_TEXT "Default" "Default";
    Sim.entry "B" "id-3" DEFAULT_PATH_TEXT "Default" "Default" ].

Definition two_long_rows : list Row :=
  [ Sim.entry "A" "id-1" DEFAULT_PATH_TEXT "1:3" "Default";
    Sim.entry "B" "id-3" DEFAULT_PATH_TEXT "1:3" "Default" ].

(** A commit run of [two_rows] in which every render succeeds. *)
Definition two_rows_run : result return_value * St :=
  start_batch_render (Sim.host Sim.render_ok) false false two_rows
                     (initial_state (Sim.scene [] None)).

(** The commit pass of [two_long_rows] when the user cancels every
    render. *)
Definition canceled_pass : result return_value * St :=
  main_pass (Sim.host Sim.render_canceled) false false 2 two_long_rows
            (initial_state (Sim.scene [] (Some []))).

(** Two rows of one frame each, the first with a pixel-aspect override. *)
Definition override_rows : list Row :=
  [ Sim.entry "A" "id-1" DEFAULT_PATH_TEXT "Default" "2.0";
    Sim.entry "B" "id-3" DEFAULT_PATH_TEXT "Default" "Default" ].

(** The first of [override_rows], processed in the commit pass. *)
Definition override_first_entry : result bool * St :=
  process_row (Sim.host Sim.render_ok) false false 0
              (Sim.entry "A" "id-1" DEFAULT_PATH_TEXT "Default" "2.0")
              (initial_state (Sim.scene [] None)).

(** A commit run of [override_rows] in a scene whose pixel aspect is 1.0. *)
Definition override_run : result return_value * St :=
  start_batch_render (Sim.host Sim.render_ok) false false override_rows
                     (initial_state (Sim.scene [] None)).

(** [file_path] is one of the paths that [prevent_duplicate_files] tries
    for [frame] in a run stamped [formatted_time]: its name is
    [{stem}_{frame:04d}_{formatted_time}{suffix}{ext}]. *)
Definition stamped_name (H : Host) (frame : Z) (formatted_time file_path : string) : Prop :=
  exists output_path dupe_count,
    file_path = candidate_path H output_path frame formatted_time dupe_count.

(** The file names in the event, if any, carry its timestamp. *)
Definition names_stamped (H : Host) (e : event) : Prop :=
  match e with
  | EvNames _ frame formatted_time outputfile_exr outputfile_png =>
      stamped_name H frame formatted_time outputfile_exr /\
      stamped_name H frame formatted_time outputfile_png
  | _ => True
  end.

(** A step whose file names carry the timestamp they are recorded with. *)
Definition named_step (H : Host) (s s' : St) : Prop :=
  exists added, adds added s s' /\ Forall (names_stamped H) added.

(** A host like [Sim.host Sim.render_ok] in which region rendering is
    enabled in the frame buffer and every dialog is answered with its
    second button, [No] for a question. *)
Definition declining_host : Host :=
  {| rt_render := Sim.render_ok;
     rt_execute := fun w _ => (w, "0");
     vrayVFBGetRegionEnabled := fun _ => true;
     masterState_GetDescendant := fun _ _ => false;
     masterState_SetCurrentStateSet := fun w _ => w;
     sceneStateMgr_FindSceneState := fun _ _ => false;
     sceneStateMgr_RestoreAllParts := fun w _ => w;
     rt_GetDir := fun _ name => name;
     renderPresets_LoadAll := fun w _ => w;
     vfbLayerMgr_loadLayersFromFile := fun w _ => w;
     dialog_exec := fun w _ _ _ => (w, 2%nat);
     strptime := Sim.parse_stamp;
     os_path_join := Sim.join;
     os_path_split := Sim.split;
     os_path_splitext := Sim.splitext;
     os_path_dirname := fun p => fst (Sim.split p);
     os_path_abspath := fun p => p;
     re_sub_template := fun _ _ _ => inr "re.error";
     saveDialogData_run := fun w => (w, Ok (Some "{}")) |}.

(** A host like [Sim.host Sim.render_ok] in which every render preset
    sets the render size to 640 by 480. *)
Definition resizing_host : Host :=
  {| rt_render := Sim.render_ok;
     rt_execute := fun w _ => (w, "0");
     vrayVFBGetRegionEnabled := fun _ => false;
     masterState_GetDescendant := fun _ _ => false;
     masterState_SetCurrentStateSet := fun w _ => w;
     sceneStateMgr_FindSceneState := fun _ _ => false;
     sceneStateMgr_RestoreAllParts := fun w _ => w;
     rt_GetDir := fun _ name => name;
     renderPresets_LoadAll := fun w _ => set_renderSize 640 480 w;
     vfbLayerMgr_loadLayersFromFile := fun w _ => w;
     dialog_exec := fun w _ _ _ => (w, 1%nat);
     strptime := Sim.parse_stamp;
     os_path_join := Sim.join;
     os_path_split := Sim.split;
     os_path_splitext := Sim.splitext;
     os_path_dirname := fun p => fst (Sim.split p);
     os_path_abspath := fun p => p;
     re_sub_template := fun _ _ _ => inr "re.error";
     saveDialogData_run := fun w => (w, Ok (Some "{}")) |}.

(** A row in use with the render preset [draft.rps] and everything else
    by default. *)
Definition preset_row : Row :=
  {| Use := true; Name := "A"; Camera := "Cam"; Camera_Hidden := Some "id-1";
     Output_Path := DEFAULT_PATH_TEXT; Range := "Default"; Resolution := "Default";
     Pixel_Aspect := "Default"; Scene_State := ""; Render_Preset := "draft.rps";
     Layer_Preset := "" |}.

(** A step in which [rt.render] is not called and no canceled frame is
    counted. *)
Definition idle_step (s s' : St) : Prop :=
  canceled_renders s' = canceled_renders s /\
  exists added, adds added s s' /\ render_calls added = [].

(** A render called for [camera] with [pixel_aspect] and with the width
    and the height that the list [resolution] holds. *)
Definition call_of (camera pixel_aspect : string) (resolution : resolution_value)
           (call : render_call) : Prop :=
  rc_camera call = camera /\ rc_pixelaspect call = pixel_aspect /\
  resolution_item resolution 0 = Ok (rc_outputwidth call) /\
  resolution_item resolution 1 = Ok (rc_outputheight call).

(** A step all of whose render calls satisfy [P]. *)
Definition calls_step (P : render_call -> Prop) (s s' : St) : Prop :=
  exists added, adds added s s' /\ Forall P (render_calls added).

(** The values that the renders of the entry [rowProperties], started in
    the world [w], are called with. *)
Definition call_of_row (rowProperties : Row) (w : World) (call : render_call) : Prop :=
  find_node (objects w) (Camera_Hidden rowProperties) = Some (rc_camera call) /\
  rc_pixelaspect call =
    (if String.eqb (Pixel_Aspect rowProperties) "Default"
     then renderPixelAspect w else Pixel_Aspect rowProperties) /\
  let resolution := fst (get_resolution_disp (Resolution rowProperties)
                                             (renderWidth w) (renderHeight w)) in
  resolution_item resolution 0 = Ok (rc_outputwidth call) /\
  resolution_item resolution 1 = Ok (rc_outputheight call).

(** Every character of the string satisfies [p]. *)
Fixpoint every_char (p : ascii -> bool) (s : string) : bool :=
  match s with
  | EmptyString => true
  | String c s' => p c && every_char p s'
  end.

(** A character that [str] of an integer can hold. *)
Definition is_sign_or_digit (c : ascii) : bool := Ascii.eqb c "-" || PyStr.is_digit c.

(** The fields of a [datetime.datetime] are within their ranges. *)
Definition datetime_in_range (d : datetime) : Prop :=
  1 <= month d <= 12 /\ 1 <= day d <= 31 /\ 0 <= hour d <= 23 /\
  0 <= minute d <= 59 /\ 0 <= second d <= 59.

(** A character that the engine itself writes into a file name, around
    the render name and the extension. *)
Definition is_stamp_char (c : ascii) : bool :=
  is_sign_or_digit c || PyStr.mem_char c "_T. ()".

(** The cell that [move_row] makes of a copied value. *)
Definition cell_of_value (v : entry_value) : table_cell :=
  match v with
  | EntryBool checked => {| cell_item := None; cell_widget := Some checked |}
  | EntryText text => {| cell_item := Some (QTableWidgetItem text); cell_widget := None |}
  end.

(** The row as the engine takes it, for values of the kinds that the
    dialog puts into the table: the state of a check box in the first
    column, or a text counted as true when it is not empty, and texts in
    the other columns. *)
Definition entry_truth (v : entry_value) : bool :=
  match v with
  | EntryBool checked => checked
  | EntryText text => nonempty text
  end.

Definition row_of_values (values : list (entry_value * option string)) : option Row :=
  match values with
  | [(use, _); (EntryText name, _); (EntryText camera, camera_hidden);
     (EntryText output_path, _); (EntryText range, _); (EntryText resolution, _);
     (EntryText pixel_aspect, _); (EntryText scene_state, _);
     (EntryText render_preset, _); (EntryText layer_preset, _)] =>
      Some {| Use := entry_truth use; Name := name; Camera := camera;
              Camera_Hidden := camera_hidden; Output_Path := output_path;
              Range := range; Resolution := resolution; Pixel_Aspect := pixel_aspect;
              Scene_State := scene_state; Render_Preset := render_preset;
              Layer_Preset := layer_preset |}
  | _ => None
  end.

(** The rows of [t], counted from [i], that are not among [rows]. *)
Fixpoint keep_from (i : nat) (rows : list nat) (t : table) : table :=
  match t with
  | [] => []
  | r :: t' =>
      if existsb (Nat.eqb i) rows then keep_from (S i) rows t'
      else r :: keep_from (S i) rows t'
  end.

Definition unselected_rows (selected_rows : list nat) (t : table) : table :=
  keep_from O selected_rows t.

(** A dialog with the rows of [three_rows]-like entries: a check box, and
    items in the other columns, the camera with its hidden id. *)
Definition table_entry (name camera camera_id range : string) : list table_cell :=
  [ {| cell_item := None; cell_widget := Some true |};
    {| cell_item := Some (QTableWidgetItem name); cell_widget := None |};
    {| cell_item := Some (CustomTableWidgetItem camera (Some camera_id));
       cell_widget := None |};
    {| cell_item := Some (QTableWidgetItem DEFAULT_PATH_TEXT); cell_widget := None |};
    {| cell_item := Some (QTableWidgetItem range); cell_widget := None |};
    {| cell_item := Some (QTableWidgetItem "Default"); cell_widget := None |};
    {| cell_item := Some (QTableWidgetItem "Default"); cell_widget := None |};
    {| cell_item := Some (QTableWidgetItem ""); cell_widget := None |};
    {| cell_item := Some (QTableWidgetItem ""); cell_widget := None |};
    {| cell_item := Some (QTableWidgetItem ""); cell_widget := None |} ].

Definition two_entries : Dialog :=
  {| tableWidget := [ table_entry "A" "Cam01" "id-1" "Default";
                      table_entry "B" "Cam03" "id-3" "Default" ];
     system_modified := false |}.

(** The text with every character replaced by the text [f] gives for it. *)
Fixpoint each_char (f : ascii -> string) (s : string) : string :=
  match s with
  | EmptyString => EmptyString
  | String c s' => f c ++ each_char f s'
  end.

(** What [escape_characters] makes of one character: a caret before the
    characters that [cmd] reads as its own, an apostrophe for a double
    quote. *)
Definition escaped_char (c : ascii) : string :=
  if PyStr.mem_char c "^&|<>" then String "^" (String c "")
  else if Ascii.eqb c "034" then "'"
  else String c "".

(** The state of the log functions right after [setup_log]. *)
Definition log_started (verbose : string) (indent : Z) : LogState :=
  {| LOG_VERBOSE_LEVEL := Some verbose; LOG_INDENT_LEVEL := indent;
     pipe_written := []; printed := []; pipe_closed := false |}.

(** The hidden value of an item, [None] for a [QTableWidgetItem]. *)
Definition hidden_of (i : table_item) : option string :=
  match i with
  | QTableWidgetItem _ => None
  | CustomTableWidgetItem _ hidden_value => hidden_value
  end.

(** The cell that [duplicate_row] makes of a cell. *)
Definition duplicated_cell (c : table_cell) : table_cell :=
  match cell_widget c with
  | Some checked => {| cell_item := None; cell_widget := Some checked |}
  | None =>
      match cell_item c with
      | Some i => {| cell_item := Some (CustomTableWidgetItem (item_text i) (hidden_of i));
                     cell_widget := None |}
      | None => empty_cell
      end
  end.

Definition duplicated_row (t : table) (row : nat) : list table_cell :=
  map (fun col => duplicated_cell (cell_at t row col)) (seq O columnCount).

(** A row that [duplicate_row] copies without exception: every cell has
    a check box or an item, and the cell of the camera has an item with a
    hidden value. *)
Definition can_duplicate_cell (col : nat) (c : table_cell) : bool :=
  match cell_widget c, cell_item c with
  | Some _, _ => negb (col =? column "Camera")%nat
  | None, Some i =>
      negb (col =? column "Camera")%nat ||
      match hidden_of i with Some _ => true | None => false end
  | None, None => false
  end.

Definition can_duplicate (t : table) (row : nat) : bool :=
  forallb (fun col => can_duplicate_cell col (cell_at t row col)) (seq O columnCount).

(** * Properties *)

(** ** Frame ranges and their display *)

Lemma step_one_range_display (start stop : Z) :
  get_frame_range_display (PyRange start stop 1) =
  Ok (PyStr.str start ++ "-" ++ PyStr.str stop).
Proof. reflexivity. Qed.

(** The only text that [get_frame_range] hands back is the field value
    [Default], and [get_frame_range_display] raises on it: the loop over
    the frames is not reached with a text. *)
Lemma text_range_is_rejected (frame_range text : string) (s s' : St) :
  get_frame_range frame_range s = (Ok (PyText text), s') ->
  exists msg, get_frame_range_display (PyText text) = Raise (ValueError msg).
Proof.
  unfold get_frame_range, bind, get_world, ret, lift, py_range; intros Hrun.
  destruct (String.eqb frame_range "Default") eqn:Hdefault;
    repeat match type of Hrun with
           | context [if ?c then _ else _] => destruct c
           | context [match ?r with Ok _ => _ | Raise _ => _ end] => destruct r
           end; try discriminate.
  apply String.eqb_eq in Hdefault; subst frame_range.
  inversion Hrun; subst. eexists; reflexivity.
Qed.

(** C4. The field value [1:3] is read as the frames 1, 2, 3, and the
    display string made for it is [1-4]: [get_frame_range_display] writes
    the [stop] of the range, which is one past the last frame. *)
Theorem frame_range_1_3_display (s : St) :
  get_frame_range "1:3" s = (Ok (PyRange 1 4 1), s) /\
  frames_items (PyRange 1 4 1) = [1; 2; 3] /\
  get_frame_range_display (PyRange 1 4 1) = Ok "1-4".
Proof. repeat split. Qed.

(** ** Output paths *)

(** With the marker in the path field the function does return the two
    paths, next to each other in the default directory. *)
Lemma default_output_path_ok (H : Host) (name : string) (s : St) :
  let w := world s in
  let directory := convert_path_to_absolute H w (txtDefaultOutputPath w) in
  os_path_exists w directory = true ->
  get_output_path H DEFAULT_PATH_TEXT name s =
  (Ok (convert_path_to_absolute H w (os_path_join H (txtDefaultOutputPath w) (name ++ ".exr")),
       convert_path_to_absolute H w (os_path_join H (txtDefaultOutputPath w) (name ++ ".png"))),
   s).
Proof.
  intros w directory Hdir.
  unfold get_output_path, bind, get_world, ret, raise; cbn.
  fold w; fold directory; rewrite Hdir; reflexivity.
Qed.

(** C5. With anything else in the path field, [get_output_path] returns
    no path at all: it raises [UnboundLocalError] when it reads
    [output_path_png], whether the directory exists or not. *)
Theorem literal_output_path_raises (H : Host) (output_path name : string) (s : St) :
  String.eqb output_path DEFAULT_PATH_TEXT = false ->
  get_output_path H output_path name s = (Raise (OtherError "UnboundLocalError"), s).
Proof.
  intros Hliteral.
  unfold get_output_path, bind, get_world, raise.
  rewrite Hliteral; reflexivity.
Qed.

Lemma literal_output_path_raises_witness :
  os_path_exists (Sim.scene [] None)
                 (os_path_dirname (Sim.host Sim.render_ok) "C:\out\shot.exr") = true /\
  get_output_path (Sim.host Sim.render_ok) "C:\out\shot.exr" "Cam01"
                  (initial_state (Sim.scene [] None)) =
  (Raise (OtherError "UnboundLocalError"), initial_state (Sim.scene [] None)).
Proof.
  split; [reflexivity | apply literal_output_path_raises; reflexivity].
Defined.

(** ** Render names *)

(** The name [Default] stands for the template [{Camera}]. *)
Lemma default_name_is_camera_template (H : Host) (iv : item_values) :
  iv_Name iv = "Default" ->
  resolve_render_name H iv =
  resolve_render_name H
    (example_values "{Camera}" (iv_Camera iv) (iv_Scene_State iv) (iv_Render_Preset iv)
                    (iv_Layer_Preset iv) (iv_Resolution_Display iv) (iv_Pixel_Aspect iv)).
Proof. unfold resolve_render_name; cbn; intros ->; reflexivity. Qed.

Lemma contains_head (c : ascii) (sub s : string) :
  PyStr.contains (String c sub) s = true -> PyStr.mem_char c s = true.
Proof.
  induction s as [|d s IH]; cbn.
  - discriminate.
  - destruct (Ascii.ascii_dec c d) as [->|Hneq].
    + rewrite Ascii.eqb_refl. reflexivity.
    + rewrite (proj2 (Ascii.eqb_neq c d) Hneq); cbn.
      destruct (Ascii.ascii_dec c d); [contradiction|]. cbn. exact IH.
Qed.

Lemma append_empty (a : string) : a ++ "" = a.
Proof. induction a as [|c a IH]; cbn; [reflexivity | now rewrite IH]. Qed.

Lemma prefix_length (p u : string) :
  String.prefix p u = true -> (String.length p <= String.length u)%nat.
Proof.
  revert u; induction p as [|a p IH]; intros u; [cbn; lia|].
  destruct u as [|b u]; cbn; [discriminate|].
  destruct (ascii_dec a b); [|discriminate]. intros Hp. apply IH in Hp. lia.
Qed.

Lemma prefix_app (p u v : string) :
  String.prefix p u = true -> String.prefix p (u ++ v) = true.
Proof.
  revert u; induction p as [|a p IH]; intros u;
    [intros _; destruct (u ++ v); reflexivity|].
  destruct u as [|b u]; cbn; [discriminate|].
  destruct (ascii_dec a b); [apply IH | discriminate].
Qed.

Lemma prefix_app_inv (p u v : string) :
  String.prefix p (u ++ v) = true ->
  String.prefix p u = true \/ (String.length u < String.length p)%nat.
Proof.
  revert u; induction p as [|a p IH]; intros u; [left; destruct u; reflexivity|].
  destruct u as [|b u]; cbn; [right; lia|].
  destruct (ascii_dec a b); [|discriminate].
  intros Hp. destruct (IH u Hp) as [Hu|Hu]; [left; exact Hu | right; lia].
Qed.

(** No occurrence of the marker [_VRayPhysicalCamera] starts in a text
    and ends in a marker that follows it: the underscore is the first
    character of the marker and is nowhere else in it. *)
Lemma marker_not_astride (u : string) :
  u <> "" ->
  String.prefix "_VRayPhysicalCamera" (u ++ "_VRayPhysicalCamera") = true ->
  String.prefix "_VRayPhysicalCamera" u = true.
Proof.
  intros Hu Hp. destruct (prefix_app_inv _ _ _ Hp) as [Hin|Hshort]; [exact Hin|].
  exfalso. apply prefix_correct in Hp.
  assert (Hget : get (String.length u) "_VRayPhysicalCamera" = Some "_"%char).
  { rewrite <- Hp at 1. rewrite substring_correct1 by exact Hshort.
    rewrite Nat.add_0_r.
    exact (eq_sym (append_correct2 u "_VRayPhysicalCamera" 0)). }
  assert (Hpos : (0 < String.length u)%nat) by (destruct u; [contradiction | cbn; lia]).
  revert Hget Hshort Hpos. generalize (String.length u) as k. intros k.
  do 19 (destruct k as [|k]; [cbn; intros; first [discriminate | lia]|]).
  cbn. intros; lia.
Qed.

(** The marker at the end of a camera name is removed like every other
    occurrence of it. *)
Lemma replace_marker_at_end (c : string) :
  forall skip, (skip <= String.length c)%nat ->
    PyStr.replace_scan (String.prefix "_VRayPhysicalCamera") 19 "" skip
                       (c ++ "_VRayPhysicalCamera") =
    PyStr.replace_scan (String.prefix "_VRayPhysicalCamera") 19 "" skip c.
Proof.
  induction c as [|a c IH]; intros skip Hskip.
  - destruct skip; [reflexivity | cbn in Hskip; lia].
  - cbn [append PyStr.replace_scan]. destruct skip as [|k].
    + destruct (String.prefix "_VRayPhysicalCamera" (String a c)) eqn:Hhere.
      * rewrite (prefix_app _ (String a c) _ Hhere : String.prefix _ (String a (c ++ _)) = true).
        apply prefix_length in Hhere. cbn in Hhere.
        rewrite IH by (cbn; lia). reflexivity.
      * destruct (String.prefix "_VRayPhysicalCamera" (String a (c ++ "_VRayPhysicalCamera")))
          eqn:Hastride.
        -- apply (marker_not_astride (String a c)) in Hastride; [|discriminate].
           rewrite Hastride in Hhere. discriminate.
        -- rewrite IH by lia. reflexivity.
    + apply IH. cbn in Hskip. lia.
Qed.

Lemma replace_absent (old new c : string) :
  PyStr.contains old c = false -> PyStr.replace old new c = c.
Proof.
  unfold PyStr.replace. induction c as [|a c IH]; [reflexivity|].
  cbn [PyStr.contains PyStr.replace_scan]. intros Habsent.
  apply orb_false_iff in Habsent as (Hhere & Hrest).
  rewrite Hhere, (IH Hrest). reflexivity.
Qed.

Lemma lower_keeps_brace (v : string) :
  PyStr.mem_char "{" (PyStr.lower v) = PyStr.mem_char "{" v.
Proof.
  induction v as [|c v IH]; [reflexivity|].
  cbn [PyStr.lower PyStr.mem_char]. rewrite IH. f_equal.
  destruct c as [[] [] [] [] [] [] [] []]; reflexivity.
Qed.

(** A text without opening brace holds no flag. *)
Lemma no_brace_no_flag (flag v : string) :
  PyStr.mem_char "{" v = false ->
  PyStr.contains (String "{" flag) (PyStr.lower v) = false.
Proof.
  intros Hbrace. rewrite <- lower_keeps_brace in Hbrace.
  destruct (PyStr.contains (String "{" flag) (PyStr.lower v)) eqn:Hflag; [|reflexivity].
  apply contains_head in Hflag. rewrite Hflag in Hbrace. discriminate.
Qed.

(** The name [Default] resolves to the camera value, when this value
    holds neither backslash nor brace and is neither empty nor the word
    [default]. *)
Lemma default_name_resolves (H : Host) (iv : item_values) :
  let value := PyStr.replace "_VRayPhysicalCamera" "" (iv_Camera iv) in
  iv_Name iv = "Default" ->
  PyStr.contains backslash value = false ->
  PyStr.mem_char "{" value = false ->
  String.eqb (PyStr.lower value) "default" || String.eqb (PyStr.lower value) "" = false ->
  resolve_render_name H iv = Ok (value, false).
Proof.
  cbv zeta. intros Hname Hliteral Hbrace Hblank.
  unfold resolve_render_name. rewrite Hname. cbn [iv_Name String.eqb Ascii.eqb Bool.eqb].
  unfold replace_flags.
  cbn [iv_Camera iv_Scene_State iv_Render_Preset iv_Layer_Preset iv_Resolution_Display
       iv_Pixel_Aspect substitute_flags].
  set (value := PyStr.replace "_VRayPhysicalCamera" "" (iv_Camera iv)) in *.
  assert (Hfirst : substitute_flag H ("{Camera}", false) ("{Camera}", Some value) =
                   Ok (value, false)).
  { unfold substitute_flag.
    change (PyStr.contains (PyStr.lower "{Camera}") (PyStr.lower "{Camera}")) with true.
    cbv iota. rewrite Hblank. unfold re_sub. rewrite Hliteral.
    unfold PyStr.re_sub_ignorecase. cbn. rewrite append_empty. reflexivity. }
  rewrite Hfirst.
  assert (Hother : forall flag with_value,
            substitute_flag H (value, false) (String "{" flag, with_value) =
            Ok (value, false)).
  { intros flag with_value. unfold substitute_flag.
    change (PyStr.lower (String "{" flag)) with (String "{" (PyStr.lower flag)).
    rewrite (no_brace_no_flag _ value Hbrace). reflexivity. }
  rewrite !Hother. reflexivity.
Qed.

(** C9. The name [Default] resolves as the template [{Camera}] does,
    whatever the camera.  The camera value is the camera name with every
    [_VRayPhysicalCamera] removed: one at the end is removed like any
    other, and a name without it is left as it is.  So the name [Default]
    resolves to the camera name without its [_VRayPhysicalCamera], no
    value blank, when what is left holds neither backslash nor brace and
    is neither empty nor the word [default]; and it passes the validation
    when what is left is a valid file name.  With the camera
    [Cam01_VRayPhysicalCamera] the name [Default] resolves to [Cam01]; the
    name [{Camera}_{Scene State}] with the camera [Cam01] and no scene state
    resolves to [Cam01_] with [blank_values] set.  Both names pass the
    validation. *)
Theorem template_resolution
        (H : Host) (camera render_preset layer_preset resolution_disp pixel_aspect : string)
        (scene_state : option string) (pre_check : bool) (s : St) :
  let value := PyStr.replace "_VRayPhysicalCamera" "" camera in
  let named name := example_values name camera scene_state
                      render_preset layer_preset resolution_disp pixel_aspect in
  let by_default := example_values "Default" "Cam01_VRayPhysicalCamera" scene_state
                      render_preset layer_preset resolution_disp pixel_aspect in
  let two_flags := example_values "{Camera}_{Scene State}" "Cam01" None
                     render_preset layer_preset resolution_disp pixel_aspect in
  resolve_render_name H (named "Default") = resolve_render_name H (named "{Camera}") /\
  PyStr.replace "_VRayPhysicalCamera" "" (camera ++ "_VRayPhysicalCamera") = value /\
  (PyStr.contains "_VRayPhysicalCamera" camera = false -> value = camera) /\
  (PyStr.contains backslash value = false ->
   PyStr.mem_char "{" value = false ->
   String.eqb (PyStr.lower value) "default" || String.eqb (PyStr.lower value) "" = false ->
   resolve_render_name H (named "Default") = Ok (value, false) /\
   (name_is_invalid value = false ->
    get_valid_filename H pre_check (named "Default") s = (Ok value, s))) /\
  resolve_render_name H by_default = Ok ("Cam01", false) /\
  get_valid_filename H pre_check by_default s = (Ok "Cam01", s) /\
  get_and_set_scene_state H "" s = (Ok None, s) /\
  resolve_render_name H two_flags = Ok ("Cam01_", true) /\
  get_valid_filename H false two_flags s = (Ok "Cam01_", s).
Proof.
  cbv zeta. split; [apply default_name_is_camera_template; reflexivity|].
  split; [apply (replace_marker_at_end camera O); lia|].
  split; [apply replace_absent|].
  split; [|repeat split].
  intros Hliteral Hbrace Hblank.
  pose proof (default_name_resolves H
                (example_values "Default" camera scene_state render_preset layer_preset
                                resolution_disp pixel_aspect)
                eq_refl Hliteral Hbrace Hblank) as Hresolved.
  cbn [iv_Camera example_values] in Hresolved.
  split; [exact Hresolved|].
  intros Hvalid. unfold get_valid_filename, bind, lift.
  rewrite Hresolved. cbn. rewrite Hvalid. reflexivity.
Qed.

(** The general part of [template_resolution] at the camera [Cam01]: the
    name [Default] with the camera [Cam01_VRayPhysicalCamera] resolves to
    [Cam01]. *)
Lemma template_resolution_witness :
  PyStr.replace "_VRayPhysicalCamera" "" "Cam01_VRayPhysicalCamera" = "Cam01" /\
  resolve_render_name (Sim.host Sim.render_ok)
    (example_values "Default" "Cam01_VRayPhysicalCamera" None "" "" "1920x1080" "1.0") =
  Ok ("Cam01", false).
Proof.
  destruct (template_resolution (Sim.host Sim.render_ok) "Cam01_VRayPhysicalCamera"
              "" "" "1920x1080" "1.0" None false (initial_state (Sim.scene [] None)))
    as (_ & _ & _ & Hgeneral & _).
  split; [reflexivity|].
  apply Hgeneral; reflexivity.
Defined.

(** Not only at the end: a [_VRayPhysicalCamera] within the camera name
    is removed as well. *)
Lemma marker_within_name_is_removed :
  resolve_render_name (Sim.host Sim.render_ok)
    (example_values "Default" "Cam_VRayPhysicalCamera_01" None "" "" "1920x1080" "1.0") =
  Ok ("Cam_01", false).
Proof. reflexivity. Qed.

(** ** Classification of a render *)

Lemma getmtime_exists (w : World) (path : string) (m : Q) :
  os_path_getmtime w path = Ok m -> os_path_exists w path = true.
Proof.
  unfold os_path_getmtime, os_path_exists.
  destruct (find _ (files w)) as [f|] eqn:Hfind; [intros _ | discriminate].
  apply existsb_exists. exists f.
  apply find_some in Hfind. exact Hfind.
Qed.

(** C1 (as the code has it). When the host reports no cancellation and
    the EXR file exists after the render with a modification time 60
    seconds or more before the current time, [do_render] returns 2, the
    code of a failed render: it logs the time difference as a warning,
    then [Render failed!] and the stale-file message as errors, and saves
    no preview. *)
Theorem stale_output_file_is_failed
        (H : Host) (camera : string) (frame : Z) (outputfile_exr outputfile_png : string)
        (pixel_aspect : string) (image_width image_height : Z) (s : St) (m : Q) :
  let call := {| rc_camera := camera; rc_frame := frame;
                 rc_outputwidth := image_width; rc_outputheight := image_height;
                 rc_pixelaspect := pixel_aspect; rc_outputfile := outputfile_exr |} in
  let after := rendered H call s in
  reported_canceled H call s = false ->
  os_path_getmtime (world after) outputfile_exr = Ok m ->
  (60 <= time_time (world after) - m)%Q ->
  do_render H camera frame outputfile_exr outputfile_png pixel_aspect
            image_width image_height s =
  (Ok 2,
   add_event (EvLog ERROR (MsgText stale_file_message))
     (add_event (EvLog ERROR MsgRenderFailed)
        (add_event (EvLog WARNING (MsgTimeDifference (time_time (world after) - m)%Q))
           after))).
Proof.
  intros call after Hcanceled Hmtime Hold.
  pose proof (getmtime_exists _ _ _ Hmtime) as Hexists.
  apply Qle_bool_iff in Hold.
  unfold do_render, bind, get_world, emit, put_world, check_output_file, lift, log, ret.
  fold call. subst after. unfold rendered, reported_canceled in *.
  destruct (rt_render H (world s) call) as [w' canceled]; cbn in *.
  subst canceled; cbn.
  rewrite Hexists, Hmtime; cbn. rewrite Hold; cbn.
  reflexivity.
Qed.

Lemma stale_output_file_is_failed_witness :
  let H := Sim.host Sim.render_nothing in
  let s := initial_state (Sim.scene [("C:\out\shot.exr", 100%Q)] None) in
  reported_canceled H stale_call s = false /\
  os_path_getmtime (world (rendered H stale_call s)) "C:\out\shot.exr" = Ok 100%Q /\
  fst (do_render H "Cam01" 1 "C:\out\shot.exr" "C:\out\shot.png" "1.0" 1920 1080 s) = Ok 2.
Proof.
  cbv zeta. split; [reflexivity | split; [reflexivity | ]].
  rewrite (stale_output_file_is_failed (Sim.host Sim.render_nothing) "Cam01" 1
             "C:\out\shot.exr" "C:\out\shot.png" "1.0" 1920 1080
             (initial_state (Sim.scene [("C:\out\shot.exr", 100%Q)] None)) 100%Q);
    [reflexivity | reflexivity | reflexivity | vm_compute; discriminate].
Defined.

(** C1 (as stated) fails: the file [C:\out\shot.exr] was written 100
    seconds after the epoch, the render ends at 1005 seconds without
    writing it and without cancellation, and [do_render] returns 2, not 0. *)
Lemma stale_output_file_is_not_success :
  let H := Sim.host Sim.render_nothing in
  let s := initial_state (Sim.scene [("C:\out\shot.exr", 100%Q)] None) in
  let after := rendered H stale_call s in
  reported_canceled H stale_call s = false /\
  os_path_exists (world after) "C:\out\shot.exr" = true /\
  os_path_getmtime (world after) "C:\out\shot.exr" = Ok 100%Q /\
  (60 <= time_time (world after) - 100)%Q /\
  fst (do_render H "Cam01" 1 "C:\out\shot.exr" "C:\out\shot.png" "1.0" 1920 1080 s) = Ok 2 /\
  fst (do_render H "Cam01" 1 "C:\out\shot.exr" "C:\out\shot.png" "1.0" 1920 1080 s) <> Ok 0.
Proof.
  cbv zeta. repeat split; try reflexivity.
  - vm_compute; discriminate.
  - vm_compute; discriminate.
Qed.

(** *** Steps of a computation *)


Lemma bind_raise {A B : Type} (m : M A) (k : A -> M B) (s s' : St) (e : exn) :
  m s = (Raise e, s') -> bind m k s = (Raise e, s').
Proof. unfold bind; intros ->; reflexivity. Qed.

(** *** What the scan of the V-Ray log returns *)













(** *** The other classes of a render *)

Section Classes.

Variable H : Host.
Variables (camera : string) (frame : Z) (outputfile_exr outputfile_png : string).
Variables (pixel_aspect : string) (image_width image_height : Z).

Let call : render_call :=
  {| rc_camera := camera; rc_frame := frame;
     rc_outputwidth := image_width; rc_outputheight := image_height;
     rc_pixelaspect := pixel_aspect; rc_outputfile := outputfile_exr |}.

Let run : M Z :=
  do_render H camera frame outputfile_exr outputfile_png pixel_aspect
            image_width image_height.

(** X4.  Not canceled, the file there and modified less than 60 seconds ago:
    the render is a success. *)
Lemma fresh_output_file_is_success (s : St) (m : Q) :
  reported_canceled H call s = false ->
  os_path_getmtime (world (rendered H call s)) outputfile_exr = Ok m ->
  ~ (60 <= time_time (world (rendered H call s)) - m)%Q ->
  fst (run s) = Ok 0.
Proof.
  intros Hcanceled Hmtime Hfresh.
  pose proof (getmtime_exists _ _ _ Hmtime) as Hexists.
  assert (Hno : Qle_bool 60 (time_time (world (rendered H call s)) - m) = false).
  { destruct (Qle_bool 60 _) eqn:Hle; [|reflexivity].
    apply Qle_bool_iff in Hle. contradiction. }
  subst run. unfold do_render, bind, get_world, emit, put_world, check_output_file, lift,
    log, ret, execute.
  fold call. unfold rendered, reported_canceled in *.
  destruct (rt_render H (world s) call) as [w' canceled]; cbn in *.
  subst canceled; cbn.
  rewrite Hexists, Hmtime; cbn. rewrite Hno; cbn.
  destruct (rt_execute H w' "vfbControl #setchannel 0") as [w1 v1]; cbn.
  destruct (rt_execute H w1 _) as [w2 v2]; reflexivity.
Qed.

(** X5.  Not canceled and no file: the render has failed. *)
Lemma missing_output_file_is_failed (s : St) :
  reported_canceled H call s = false ->
  os_path_exists (world (rendered H call s)) outputfile_exr = false ->
  fst (run s) = Ok 2.
Proof.
  intros Hcanceled Hmissing.
  subst run. unfold do_render, bind, get_world, emit, put_world, check_output_file, lift,
    log, ret.
  fold call. unfold rendered, reported_canceled in *.
  destruct (rt_render H (world s) call) as [w' canceled]; cbn in *.
  subst canceled; cbn. rewrite Hmissing; reflexivity.
Qed.

(** Canceled, and no error line in the V-Ray log since the render
    started: the render counts as canceled. *)
Lemma canceled_without_logged_error (s : St) (lines : list string) :
  reported_canceled H call s = true ->
  vraylog (world (rendered H call s)) = Some lines ->
  scan_log H (clock (world s)) lines = Ok None ->
  fst (run s) = Ok 1.
Proof.
  intros Hcanceled Hlog Hscan.
  subst run. unfold do_render, bind, get_world, emit, put_world, were_there_render_errors,
    lift, log, ret.
  fold call. unfold rendered, reported_canceled in *.
  destruct (rt_render H (world s) call) as [w' canceled]; cbn in *.
  subst canceled; cbn. rewrite Hlog, Hscan; reflexivity.
Qed.

End Classes.

(** ** Names that do not collide *)

Lemma append_length (a b : string) :
  String.length (a ++ b) = (String.length a + String.length b)%nat.
Proof. induction a as [|c a IH]; cbn; [reflexivity | now rewrite IH]. Qed.

Lemma append_inv_head (a b c : string) : a ++ b = a ++ c -> b = c.
Proof.
  induction a as [|x a IH]; cbn; [trivial|].
  intros Heq; injection Heq as Heq; auto.
Qed.

Lemma append_inv_tail (a b c : string) : a ++ c = b ++ c -> a = b.
Proof.
  revert b; induction a as [|x a IH]; intros [|y b] Heq; cbn in Heq.
  - reflexivity.
  - apply (f_equal String.length) in Heq; cbn in Heq.
    rewrite append_length in Heq; lia.
  - apply (f_equal String.length) in Heq; cbn in Heq.
    rewrite append_length in Heq; lia.
  - injection Heq as -> Heq. f_equal; auto.
Qed.

Lemma to_uint_not_nil (n : nat) : Nat.to_uint n <> Decimal.Nil.
Proof.
  intros Hnil. pose proof (DecimalNat.Unsigned.of_to n) as Hback.
  rewrite Hnil in Hback; cbn in Hback; subst n. discriminate Hnil.
Qed.

Lemma str_nat_inj (n m : nat) : PyStr.str_nat n = PyStr.str_nat m -> n = m.
Proof.
  unfold PyStr.str_nat; intros Heq.
  apply (f_equal NilZero.uint_of_string) in Heq.
  rewrite !NilZero.usu in Heq by apply to_uint_not_nil.
  injection Heq as Heq. apply DecimalNat.Unsigned.to_uint_inj, Heq.
Qed.

Lemma dupe_count_str_inj (n m : nat) : dupe_count_str n = dupe_count_str m -> n = m.
Proof.
  destruct n as [|n], m as [|m]; cbn - [PyStr.str_nat]; try discriminate; [reflexivity|].
  intros Heq; injection Heq as Heq.
  apply append_inv_tail in Heq. apply str_nat_inj, Heq.
Qed.

(** Two names that differ in the number only are different. *)
Lemma numbered_inj (before after : string) (n m : nat) :
  before ++ dupe_count_str n ++ after = before ++ dupe_count_str m ++ after -> n = m.
Proof.
  intros Heq. apply append_inv_head, append_inv_tail in Heq.
  apply dupe_count_str_inj, Heq.
Qed.

(** *** The loop of [prevent_duplicate_files] *)

Lemma probe_some (taken : string -> bool) (path_at : nat -> string)
      (fuel first found : nat) :
  probe taken path_at fuel first = Some found ->
  (first <= found)%nat /\ taken (path_at found) = false /\
  forall n, (first <= n < found)%nat -> taken (path_at n) = true.
Proof.
  revert first; induction fuel as [|fuel IH]; intros first; cbn; [discriminate|].
  destruct (taken (path_at first)) eqn:Htaken.
  - intros Hrest. destruct (IH _ Hrest) as (Hle & Hfree & Hbelow).
    repeat split; [lia | exact Hfree |].
    intros n Hn. destruct (Nat.eq_dec n first) as [->|Hneq]; [exact Htaken|].
    apply Hbelow; lia.
  - intros Hfound; injection Hfound as <-.
    repeat split; [lia | exact Htaken | intros n Hn; lia].
Qed.

Lemma probe_none (taken : string -> bool) (path_at : nat -> string) (fuel first : nat) :
  probe taken path_at fuel first = None ->
  forall n, (first <= n < first + fuel)%nat -> taken (path_at n) = true.
Proof.
  revert first; induction fuel as [|fuel IH]; intros first; cbn; [intros _ n Hn; lia|].
  destruct (taken (path_at first)) eqn:Htaken; [|discriminate].
  intros Hrest n Hn. destruct (Nat.eq_dec n first) as [->|Hneq]; [exact Htaken|].
  apply (IH _ Hrest); lia.
Qed.

(** There are no more names taken than there are files: when the paths
    tried differ from one another, one of the first [length files + 1] is
    free, and the loop finds it. *)
Lemma probe_finds_free_name (w : World) (path_at : nat -> string) :
  (forall i j, path_at i = path_at j -> i = j) ->
  exists found, probe (os_path_exists w) path_at (probe_fuel w) O = Some found.
Proof.
  intros Hdistinct.
  destruct (probe (os_path_exists w) path_at (probe_fuel w) O) as [found|] eqn:Hprobe;
    [exists found; reflexivity | exfalso].
  pose proof (probe_none _ _ _ _ Hprobe) as Hall.
  assert (Hincl : incl (map path_at (seq O (probe_fuel w))) (map fst (files w))).
  { intros path Hin. apply in_map_iff in Hin as (n & <- & Hn).
    apply in_seq in Hn. specialize (Hall n Hn).
    unfold os_path_exists in Hall. apply existsb_exists in Hall as (f & Hf & Heq).
    apply String.eqb_eq in Heq. rewrite <- Heq. apply in_map, Hf. }
  apply NoDup_incl_length in Hincl.
  - rewrite !length_map, length_seq in Hincl. unfold probe_fuel in Hincl. lia.
  - apply Injective_map_NoDup; [exact Hdistinct | apply seq_NoDup].
Qed.

(** C8 (as the code has it). The name allocated for a frame is
    [{stem}_{frame:04d}_{run_timestamp}{suffix}{ext}] in the directory of
    the output path, the suffix empty when that name is free and [ (N)]
    otherwise, N the least number from 1 on whose name is free at the time
    of the request: the names of all smaller numbers exist, the one
    returned does not.  The request creates no file and leaves the state
    as it was. *)
Theorem duplicate_names_are_numbered
        (H : Host) (output_path : string) (frame : Z) (formatted_time : string) (s : St) :
  let path_at := candidate_path H output_path frame formatted_time in
  (forall i j, path_at i = path_at j -> i = j) ->
  exists dupe_count,
    prevent_duplicate_files H false output_path frame formatted_time s =
      (Ok (path_at dupe_count, snd (os_path_split H (path_at dupe_count))), s) /\
    path_at dupe_count =
      os_path_join H (fst (os_path_split H output_path))
        (fst (os_path_splitext H (snd (os_path_split H output_path))) ++ "_" ++
         PyStr.format_04d frame ++ "_" ++ formatted_time ++
         match dupe_count with
         | O => ""
         | S _ => " (" ++ PyStr.str_nat dupe_count ++ ")"
         end ++
         snd (os_path_splitext H (snd (os_path_split H output_path)))) /\
    os_path_exists (world s) (path_at dupe_count) = false /\
    forall n, (n < dupe_count)%nat -> os_path_exists (world s) (path_at n) = true.
Proof.
  intros path_at Hdistinct.
  destruct (probe_finds_free_name (world s) path_at Hdistinct) as (found & Hprobe).
  destruct (probe_some _ _ _ _ _ Hprobe) as (_ & Hfree & Hbelow).
  exists found. repeat split.
  - unfold prevent_duplicate_files, bind, get_world, ret. fold path_at.
    rewrite Hprobe. destruct (os_path_split H (path_at found)); reflexivity.
  - subst path_at. unfold candidate_path, numbered_name, dupe_count_str.
    destruct (os_path_split H output_path) as [directory file_name]; cbn [fst snd].
    destruct (os_path_splitext H file_name); reflexivity.
  - exact Hfree.
  - intros n Hn. apply Hbelow; lia.
Qed.

Lemma shot_paths_distinct (i j : nat) :
  candidate_path (Sim.host Sim.render_ok) "C:\out\shot.exr" 1 "24-01-01T00.00.00" i =
  candidate_path (Sim.host Sim.render_ok) "C:\out\shot.exr" 1 "24-01-01T00.00.00" j ->
  i = j.
Proof.
  intros Heq. apply (numbered_inj "C:\out\shot_0001_24-01-01T00.00.00" ".exr"). exact Heq.
Qed.

Lemma duplicate_names_are_numbered_witness :
  exists dupe_count,
    fst (request_shot ["C:\out\shot_0001_24-01-01T00.00.00.exr";
                       "C:\out\shot_0001_24-01-01T00.00.00 (1).exr"]) =
    Ok (candidate_path (Sim.host Sim.render_ok) "C:\out\shot.exr" 1 "24-01-01T00.00.00"
                       dupe_count,
        snd (Sim.split (candidate_path (Sim.host Sim.render_ok) "C:\out\shot.exr" 1
                                       "24-01-01T00.00.00" dupe_count))).
Proof.
  destruct (duplicate_names_are_numbered (Sim.host Sim.render_ok) "C:\out\shot.exr" 1
              "24-01-01T00.00.00"
              (initial_state
                 (Sim.scene (map (fun path => (path, 0%Q))
                                 ["C:\out\shot_0001_24-01-01T00.00.00.exr";
                                  "C:\out\shot_0001_24-01-01T00.00.00 (1).exr"]) None))
              shot_paths_distinct) as (dupe_count & Hrun & _).
  exists dupe_count. unfold request_shot. rewrite Hrun. reflexivity.
Defined.

(** The examples of the duplicate avoidance: with the first name taken
    the request yields the name numbered 1, and with that one taken as
    well the name numbered 2. *)
Lemma duplicate_names_examples :
  allocated (request_shot []) = Some "shot_0001_24-01-01T00.00.00.exr" /\
  allocated (request_shot ["C:\out\shot_0001_24-01-01T00.00.00.exr"]) =
    Some "shot_0001_24-01-01T00.00.00 (1).exr" /\
  allocated (request_shot ["C:\out\shot_0001_24-01-01T00.00.00.exr";
                           "C:\out\shot_0001_24-01-01T00.00.00 (1).exr"]) =
    Some "shot_0001_24-01-01T00.00.00 (2).exr".
Proof. repeat split. Qed.

(** C8 (as stated) fails in its last example: the request writes nothing,
    so the same request made again in the state the first one left yields
    the name numbered 1 again, not 2. *)
Lemma repeated_request_yields_same_name :
  let first := request_shot ["C:\out\shot_0001_24-01-01T00.00.00.exr"] in
  let again := prevent_duplicate_files (Sim.host Sim.render_ok) false "C:\out\shot.exr" 1
                 "24-01-01T00.00.00" (snd first) in
  allocated first = Some "shot_0001_24-01-01T00.00.00 (1).exr" /\
  allocated again = Some "shot_0001_24-01-01T00.00.00 (1).exr" /\
  allocated again <> Some "shot_0001_24-01-01T00.00.00 (2).exr".
Proof. cbv zeta. repeat split. vm_compute. discriminate. Qed.

(** ** Steps of the engine *)

Section Steps.

Variable R : St -> St -> Prop.
Hypothesis R_refl : forall s, R s s.
Hypothesis R_trans : forall s1 s2 s3, R s1 s2 -> R s2 s3 -> R s1 s3.

Lemma steps_ret {A : Type} (a : A) : steps R (ret a).
Proof. intros s; apply R_refl. Qed.

Lemma steps_raise {A : Type} (e : exn) : steps R (@raise A e).
Proof. intros s; apply R_refl. Qed.

Lemma steps_lift {A : Type} (r : result A) : steps R (lift r).
Proof. intros s; apply R_refl. Qed.

Lemma steps_get_world : steps R get_world.
Proof. intros s; apply R_refl. Qed.

Lemma steps_get_state : steps R get_state.
Proof. intros s; apply R_refl. Qed.

Lemma steps_bind {A B : Type} (m : M A) (k : A -> M B) :
  steps R m -> (forall a, steps R (k a)) -> steps R (bind m k).
Proof.
  intros Hm Hk s. unfold bind. specialize (Hm s).
  destruct (m s) as [[a|e] s1]; cbn in *; [|exact Hm].
  eapply R_trans; [exact Hm | apply Hk].
Qed.

Lemma steps_reraise_after {A : Type} (m : M A) (handler : M unit) :
  steps R m -> steps R handler -> steps R (reraise_after m handler).
Proof.
  intros Hm Hh s. unfold reraise_after. specialize (Hm s).
  destruct (m s) as [[a|[msg|kind]] s1]; cbn in *; try exact Hm.
  specialize (Hh s1). destruct (handler s1) as [[u|e] s2]; cbn in *;
    eapply R_trans; eauto.
Qed.

End Steps.

Lemma adds_nil (s : St) : adds [] s s.
Proof. reflexivity. Qed.

Lemma adds_app (l1 l2 : list event) (s1 s2 s3 : St) :
  adds l1 s1 s2 -> adds l2 s2 s3 -> adds (l2 ++ l1) s1 s3.
Proof. unfold adds; intros H1 H2. rewrite H2, H1, app_assoc. reflexivity. Qed.

Lemma same_tallies_refl (s : St) : same_tallies s s.
Proof. repeat split. Qed.

Lemma same_tallies_trans (s1 s2 s3 : St) :
  same_tallies s1 s2 -> same_tallies s2 s3 -> same_tallies s1 s3.
Proof. unfold same_tallies; intuition congruence. Qed.

Lemma quiet_refl (s : St) : quiet_step s s.
Proof.
  split; [apply same_tallies_refl | split; [reflexivity|]].
  exists []; split; [apply adds_nil | constructor].
Qed.

Lemma quiet_trans (s1 s2 s3 : St) : quiet_step s1 s2 -> quiet_step s2 s3 -> quiet_step s1 s3.
Proof.
  intros (Ht1 & Hc1 & l1 & Ha1 & Hl1) (Ht2 & Hc2 & l2 & Ha2 & Hl2).
  split; [eapply same_tallies_trans; eauto | split; [congruence|]].
  exists (l2 ++ l1)%list; split; [eapply adds_app; eauto | apply Forall_app; auto].
Qed.

Lemma reading_refl (s : St) : reading_step s s.
Proof. split; [apply quiet_refl | reflexivity]. Qed.

Lemma reading_trans (s1 s2 s3 : St) :
  reading_step s1 s2 -> reading_step s2 s3 -> reading_step s1 s3.
Proof.
  intros (Hq1 & Hw1) (Hq2 & Hw2). split; [eapply quiet_trans; eauto | congruence].
Qed.

Lemma reading_is_quiet {A : Type} (m : M A) : steps reading_step m -> steps quiet_step m.
Proof. intros Hm s; apply Hm. Qed.

Lemma quiet_log (lvl : level) (msg : message) : steps quiet_step (log lvl msg).
Proof.
  intros s; cbn. split; [repeat split | split; [reflexivity|]].
  exists [EvLog lvl msg]; split; [reflexivity | repeat constructor].
Qed.

Lemma reading_log (lvl : level) (msg : message) : steps reading_step (log lvl msg).
Proof. intros s; split; [apply quiet_log | reflexivity]. Qed.

Lemma quiet_put_world (w : World) : steps quiet_step (put_world w).
Proof.
  intros s; cbn. split; [repeat split | split; [reflexivity|]].
  exists []; split; [reflexivity | constructor].
Qed.

(** Taking a computation apart, for a relation [R] with the two laws;
    [known] closes the parts that lemmas speak of. *)
Ltac step_apart refl trans known :=
  repeat first
    [ known
    | assumption
    | apply (steps_ret _ refl)
    | apply (steps_raise _ refl)
    | apply (steps_lift _ refl)
    | apply (steps_get_world _ refl)
    | apply (steps_get_state _ refl)
    | apply (steps_bind _ trans); [|intros ?]
    | apply (steps_reraise_after _ trans)
    | progress cbv zeta
    | match goal with
      | |- steps _ (if ?c then _ else _) => destruct c
      | |- steps _ (match ?x with _ => _ end) => destruct x
      end ].

Ltac quiet :=
  step_apart quiet_refl quiet_trans
             ltac:(first [ apply quiet_log | apply quiet_put_world ]).

Ltac reading :=
  step_apart reading_refl reading_trans ltac:(apply reading_log).

Lemma reading_get_item_by_id (unique_id : option string) :
  steps reading_step (get_item_by_id unique_id).
Proof. unfold get_item_by_id. reading. Qed.

Lemma reading_get_frame_range (frame_range : string) :
  steps reading_step (get_frame_range frame_range).
Proof. unfold get_frame_range. reading. Qed.

Lemma quiet_warn (H : Host) (title text : string) (buttons : list (string * bool)) :
  steps quiet_step (warn_render_settings_open H title text buttons).
Proof. unfold warn_render_settings_open. quiet. Qed.

Lemma quiet_get_pixel_aspect (pixel_aspect : string) :
  steps quiet_step (get_pixel_aspect pixel_aspect).
Proof. unfold get_pixel_aspect. quiet. Qed.

Lemma quiet_get_and_set_scene_state (H : Host) (scene_state_disp : string) :
  steps quiet_step (get_and_set_scene_state H scene_state_disp).
Proof. unfold get_and_set_scene_state. quiet. Qed.

Lemma quiet_get_and_set_render_preset (H : Host) (preset_disp : string) :
  steps quiet_step (get_and_set_render_preset H preset_disp).
Proof. unfold get_and_set_render_preset. quiet. Qed.

Lemma quiet_get_and_set_layer_preset (H : Host) (layer_preset_disp : string) :
  steps quiet_step (get_and_set_layer_preset H layer_preset_disp).
Proof. unfold get_and_set_layer_preset. quiet. Qed.

Lemma quiet_get_valid_filename (H : Host) (pre_check : bool) (iv : item_values) :
  steps quiet_step (get_valid_filename H pre_check iv).
Proof.
  unfold get_valid_filename. pose proof (quiet_warn H). quiet.
Qed.

Lemma quiet_get_output_path (H : Host) (output_path name : string) :
  steps quiet_step (get_output_path H output_path name).
Proof. unfold get_output_path. quiet. Qed.

Lemma quiet_prevent_duplicate_files (H : Host) (pre_check : bool) (output_path : string)
      (frame : Z) (formatted_time : string) :
  steps quiet_step (prevent_duplicate_files H pre_check output_path frame formatted_time).
Proof.
  unfold prevent_duplicate_files. pose proof (quiet_warn H). quiet.
Qed.

Lemma quiet_execute (H : Host) (command : string) : steps quiet_step (execute H command).
Proof. unfold execute. quiet. Qed.

Lemma quiet_check_VFB_settings (H : Host) (pre_check : bool) :
  steps quiet_step (check_VFB_settings H pre_check).
Proof.
  unfold check_VFB_settings, renderSceneDialog_open.
  pose proof (quiet_warn H). pose proof (quiet_execute H). quiet.
Qed.

Lemma quiet_saveDialogData (H : Host) : steps quiet_step (saveDialogData H).
Proof. unfold saveDialogData. quiet. Qed.

Lemma quiet_main_start (H : Host) (pre_check : bool) :
  steps quiet_step (main_start H pre_check).
Proof.
  unfold main_start.
  pose proof (quiet_saveDialogData H). pose proof (quiet_check_VFB_settings H pre_check).
  quiet.
Qed.

Lemma quiet_were_there_render_errors (H : Host) (time_of_render : datetime) :
  steps quiet_step (were_there_render_errors H time_of_render).
Proof. unfold were_there_render_errors. quiet. Qed.

Lemma quiet_check_output_file (outputfile_exr : string) :
  steps quiet_step (check_output_file outputfile_exr).
Proof. unfold check_output_file. quiet. Qed.

(** ** Renders and the limit on canceled frames *)

Lemma canceled_count_app (l2 l1 : list event) :
  canceled_count (l2 ++ l1) = canceled_count l2 + canceled_count l1.
Proof.
  induction l2 as [|e l2 IH]; cbn; [reflexivity|].
  destruct e; cbn; rewrite IH; try reflexivity. lia.
Qed.

Lemma calls_below_limit_app (already : Z) (l2 l1 : list event) :
  calls_below_limit already (l2 ++ l1) =
  calls_below_limit (already + canceled_count l1) l2 && calls_below_limit already l1.
Proof.
  induction l2 as [|e l2 IH]; cbn; [reflexivity|].
  destruct e; cbn; rewrite IH; try reflexivity.
  rewrite canceled_count_app, andb_assoc.
  replace (already + canceled_count l1 + canceled_count l2)
    with (already + (canceled_count l2 + canceled_count l1)) by lia.
  reflexivity.
Qed.

Lemma log_is_inert (l : list event) : Forall is_log l -> Forall is_inert l.
Proof. apply Forall_impl. intros [] He; cbn in *; tauto. Qed.

Lemma log_is_of_entry (row_id : nat) (formatted_time : string) (l : list event) :
  Forall is_log l -> Forall (of_entry row_id formatted_time) l.
Proof. apply Forall_impl. intros [] He; cbn in *; tauto. Qed.

Lemma inert_canceled_count (l : list event) : Forall is_inert l -> canceled_count l = 0.
Proof.
  induction 1 as [|e l He _ IH]; cbn; [reflexivity|].
  destruct e; cbn in *; tauto.
Qed.

Lemma inert_calls_below_limit (already : Z) (l : list event) :
  Forall is_inert l -> calls_below_limit already l = true.
Proof.
  induction 1 as [|e l He _ IH]; cbn; [reflexivity|].
  destruct e; cbn in *; tauto.
Qed.

Lemma inert_render_calls (l : list event) : Forall is_inert l -> render_calls l = [].
Proof.
  induction 1 as [|e l He _ IH]; cbn; [reflexivity|].
  destruct e; cbn in *; tauto.
Qed.

Section Stretches.

Variables (pre_check : bool) (row_id : nat) (formatted_time : string).

Lemma stretch_quiet (s s' : St) :
  quiet_step s s' ->
  exists added, entry_stretch pre_check row_id formatted_time added s s' /\
                Forall is_log added.
Proof.
  intros (Htallies & Hcanceled & added & Hadds & Hlogs).
  exists added; split; [|exact Hlogs].
  repeat split; try apply Htallies; auto using log_is_of_entry, log_is_inert.
  rewrite (inert_canceled_count added) by auto using log_is_inert. lia.
Qed.

Lemma stretch_app (l1 l2 : list event) (s1 s2 s3 : St) :
  entry_stretch pre_check row_id formatted_time l1 s1 s2 ->
  entry_stretch pre_check row_id formatted_time l2 s2 s3 ->
  entry_stretch pre_check row_id formatted_time (l2 ++ l1) s1 s3.
Proof.
  intros (Ht1 & Ha1 & He1 & Hc1 & Hp1) (Ht2 & Ha2 & He2 & Hc2 & Hp2).
  repeat split; try (destruct Ht1 as (? & ? & ? & ?), Ht2 as (? & ? & ? & ?); congruence).
  - eapply adds_app; eauto.
  - apply Forall_app; auto.
  - rewrite canceled_count_app; lia.
  - intros Hpre. apply Forall_app; auto.
Qed.

Lemma within_limit_logs {A : Type} (added : list event) (s : St) (r : result A) (s' : St) :
  Forall is_log added -> canceled_renders s' = canceled_renders s ->
  within_limit pre_check added s r s'.
Proof.
  intros Hlogs Hsame Hbelow. split; [|left; lia].
  apply inert_calls_below_limit, log_is_inert, Hlogs.
Qed.

(** A stretch below the limit, then one from where it ended below the
    limit. *)
Lemma within_limit_app {A B : Type} (l1 l2 : list event) (s1 s2 s3 : St)
      (r1 : result A) (r2 : result B) :
  canceled_renders s2 = canceled_renders s1 + canceled_count l1 ->
  canceled_renders s2 < max_canceled_before_exit ->
  within_limit pre_check l1 s1 r1 s2 ->
  within_limit pre_check l2 s2 r2 s3 ->
  within_limit pre_check (l2 ++ l1) s1 r2 s3.
Proof.
  intros Hcount Hmid H1 H2 Hbelow.
  destruct (H1 Hbelow) as (Hcalls1 & _). destruct (H2 Hmid) as (Hcalls2 & Hend).
  split; [|exact Hend].
  rewrite calls_below_limit_app, Hcalls1, <- Hcount, Hcalls2. reflexivity.
Qed.

End Stretches.

(** *** One render *)

Lemma work_is_of_entry (row_id : nat) (formatted_time : string) (l : list event) :
  Forall is_work l -> Forall (of_entry row_id formatted_time) l.
Proof. apply Forall_impl. intros [] He; cbn in *; tauto. Qed.

Lemma log_is_work (l : list event) : Forall is_log l -> Forall is_work l.
Proof. apply Forall_impl. intros [] He; cbn in *; tauto. Qed.

Lemma attempt_refl (s : St) : attempt_step s s.
Proof.
  split; [apply same_tallies_refl | split; [reflexivity|]].
  exists []; repeat split; constructor.
Qed.

Lemma attempt_trans (s1 s2 s3 : St) :
  attempt_step s1 s2 -> attempt_step s2 s3 -> attempt_step s1 s3.
Proof.
  intros (Ht1 & Hc1 & l1 & Ha1 & Hw1 & Hn1 & Hb1) (Ht2 & Hc2 & l2 & Ha2 & Hw2 & Hn2 & Hb2).
  split; [eapply same_tallies_trans; eauto | split; [congruence|]].
  exists (l2 ++ l1)%list; repeat split.
  - eapply adds_app; eauto.
  - apply Forall_app; auto.
  - rewrite canceled_count_app; lia.
  - intros already Hbelow. rewrite calls_below_limit_app, Hn1, Z.add_0_r, Hb1, Hb2 by lia.
    reflexivity.
Qed.

Lemma attempt_of_quiet {A : Type} (m : M A) : steps quiet_step m -> steps attempt_step m.
Proof.
  intros Hm s. destruct (Hm s) as (Ht & Hc & added & Ha & Hlogs).
  split; [exact Ht | split; [exact Hc|]].
  exists added; repeat split; auto using log_is_work.
  - apply inert_canceled_count, log_is_inert, Hlogs.
  - intros already _. apply inert_calls_below_limit, log_is_inert, Hlogs.
Qed.

Lemma attempt_call (call : render_call) : steps attempt_step (emit (EvRenderCall call)).
Proof.
  intros s; cbn. split; [repeat split | split; [reflexivity|]].
  exists [EvRenderCall call]; repeat split.
  - repeat constructor.
  - intros already Hbelow; cbn. rewrite Z.add_0_r, andb_true_r. apply Z.ltb_lt, Hbelow.
Qed.

Ltac attempt :=
  step_apart attempt_refl attempt_trans
             ltac:(first [ apply attempt_call
                         | apply attempt_of_quiet;
                           first [ apply quiet_log | apply quiet_put_world
                                 | apply quiet_execute | apply quiet_check_output_file
                                 | apply quiet_were_there_render_errors ] ]).

Lemma attempt_do_render (H : Host) (camera : string) (frame : Z)
      (outputfile_exr outputfile_png pixel_aspect : string) (image_width image_height : Z) :
  steps attempt_step (do_render H camera frame outputfile_exr outputfile_png pixel_aspect
                                image_width image_height).
Proof. unfold do_render. attempt. Qed.

Lemma limit_not_reached (s : St) :
  cancel_limit_reached s = false <-> canceled_renders s < max_canceled_before_exit.
Proof.
  unfold cancel_limit_reached, max_canceled_before_exit; cbn.
  rewrite Z.leb_gt. reflexivity.
Qed.

(** [render_frame] calls [rt.render] at most once, and counts the frame
    when the result is 1. *)
Lemma stretches_render_frame (H : Host) (DEBUG_disable_rendering : bool)
      (row_id : nat) (formatted_time camera : string) (resolution : resolution_value)
      (pixel_aspect : string) (frame : Z) (outputfile_exr outputfile_png full_filename : string) :
  stretches false row_id formatted_time
            (render_frame H DEBUG_disable_rendering camera resolution pixel_aspect frame
                          outputfile_exr outputfile_png full_filename).
Proof.
  intros s. unfold render_frame.
  set (attempt_part :=
         (if negb DEBUG_disable_rendering
          then (image_width <- lift (resolution_item resolution 0) ;;
                image_height <- lift (resolution_item resolution 1) ;;
                do_render H camera frame outputfile_exr outputfile_png pixel_aspect
                          image_width image_height)%M
          else ret 0)).
  assert (Hattempt : steps attempt_step
                       (log INFO (MsgRenderingFrame frame full_filename) ;; attempt_part)%M).
  { subst attempt_part. pose proof (attempt_do_render H) as Hdo. attempt. }
  specialize (Hattempt s).
  change ((log INFO (MsgRenderingFrame frame full_filename) ;;
           render_result <- attempt_part ;;
           emit (EvRenderResult render_result) ;;
           (if render_result =? 1 then modify count_canceled_render else ret tt))%M s)
    with (match (log INFO (MsgRenderingFrame frame full_filename) ;; attempt_part)%M s with
          | (Ok render_result, s1) =>
              (emit (EvRenderResult render_result) ;;
               (if render_result =? 1 then modify count_canceled_render else ret tt))%M s1
          | (Raise e, s1) => (Raise e, s1)
          end).
  destruct ((log INFO (MsgRenderingFrame frame full_filename) ;; attempt_part)%M s)
    as [[render_result|e] s1]; cbn [snd] in Hattempt;
    destruct Hattempt as (Ht & Hc & added & Ha & Hw & Hn & Hb).
  - exists (EvRenderResult render_result :: added).
    unfold bind, emit, ret, modify.
    destruct (render_result =? 1) eqn:Hone; cbn [fst snd];
      (split; [repeat split; try apply Ht; cbn; try discriminate;
               [ unfold adds in *; cbn; rewrite Ha; reflexivity
               | constructor; [exact I | apply work_is_of_entry, Hw]
               | rewrite Hone, Hn; lia ]
              | intros Hbelow; cbn; split; [apply Hb, Hbelow | right; eauto] ]).
  - exists added; cbn [fst snd]. split.
    + repeat split; try apply Ht; auto using work_is_of_entry; [lia | discriminate].
    + intros Hbelow. split; [apply Hb, Hbelow | left; lia].
Qed.

(** *** The frames of one entry *)

Section Frames.

Variables (pre_check : bool) (row_id : nat) (formatted_time : string).

Lemma calm_refl (s : St) : calm_step row_id formatted_time s s.
Proof.
  split; [apply same_tallies_refl | split; [reflexivity|]].
  exists []; repeat split; constructor.
Qed.

Lemma calm_trans (s1 s2 s3 : St) :
  calm_step row_id formatted_time s1 s2 -> calm_step row_id formatted_time s2 s3 ->
  calm_step row_id formatted_time s1 s3.
Proof.
  intros (Ht1 & Hc1 & l1 & Ha1 & Hi1 & He1) (Ht2 & Hc2 & l2 & Ha2 & Hi2 & He2).
  split; [eapply same_tallies_trans; eauto | split; [congruence|]].
  exists (l2 ++ l1)%list; repeat split;
    [eapply adds_app; eauto | apply Forall_app; auto | apply Forall_app; auto].
Qed.

Lemma calm_of_quiet {A : Type} (m : M A) :
  steps quiet_step m -> steps (calm_step row_id formatted_time) m.
Proof.
  intros Hm s. destruct (Hm s) as (Ht & Hc & added & Ha & Hlogs).
  split; [exact Ht | split; [exact Hc|]].
  exists added; auto using log_is_inert, log_is_of_entry.
Qed.

Lemma calm_names (frame : Z) (outputfile_exr outputfile_png : string) :
  steps (calm_step row_id formatted_time)
        (emit (EvNames row_id frame formatted_time outputfile_exr outputfile_png)).
Proof.
  intros s; cbn. split; [repeat split | split; [reflexivity|]].
  exists [EvNames row_id frame formatted_time outputfile_exr outputfile_png].
  split; [reflexivity | split; repeat constructor].
Qed.

Lemma stretches_calm {A : Type} (m : M A) :
  steps (calm_step row_id formatted_time) m -> stretches pre_check row_id formatted_time m.
Proof.
  intros Hm s. destruct (Hm s) as (Ht & Hc & added & Ha & Hi & He).
  exists added; split.
  - repeat split; try apply Ht; auto.
    rewrite (inert_canceled_count added Hi); lia.
  - intros Hbelow. split; [apply inert_calls_below_limit, Hi | left; lia].
Qed.

Lemma stretches_bind_calm {A B : Type} (m : M A) (k : A -> M B) :
  steps (calm_step row_id formatted_time) m ->
  (forall a, stretches pre_check row_id formatted_time (k a)) ->
  stretches pre_check row_id formatted_time (bind m k).
Proof.
  intros Hm Hk s. unfold bind.
  pose proof (stretches_calm m Hm s) as (l1 & Hstretch1 & Hlimit1).
  destruct (Hm s) as (_ & Hsame & _).
  destruct (m s) as [[a|e] s1]; cbn [fst snd] in *.
  - destruct (Hk a s1) as (l2 & Hstretch2 & Hlimit2).
    exists (l2 ++ l1)%list; split; [eapply stretch_app; eauto|].
    intros Hbelow.
    apply (within_limit_app pre_check l1 l2 s s1 _ (Ok a) _); auto; try lia.
    apply Hstretch1.
  - exists l1; split; [exact Hstretch1|].
    intros Hbelow. destruct (Hlimit1 Hbelow) as (Hcalls & Hend).
    split; [exact Hcalls|]. destruct Hend as [Hend | (_ & a & Ha)]; [left; exact Hend|].
    discriminate.
Qed.

(** The test at the end of the loop body, and the next turn if any. *)
Lemma stretches_then_checked {A : Type} (m : M A) (next : M unit) :
  stretches pre_check row_id formatted_time m ->
  stretches pre_check row_id formatted_time next ->
  stretches pre_check row_id formatted_time
            (m ;; s <- get_state ;; if cancel_limit_reached s then ret tt else next)%M.
Proof.
  intros Hm Hnext s. unfold bind, get_state, ret.
  destruct (Hm s) as (l1 & Hstretch1 & Hlimit1).
  destruct (m s) as [[a|e] s1]; cbn [fst snd] in *.
  - destruct (cancel_limit_reached s1) eqn:Hreached; cbn [fst snd].
    + exists l1; split; [exact Hstretch1|].
      intros Hbelow. destruct (Hlimit1 Hbelow) as (Hcalls & Hend).
      split; [exact Hcalls|]. destruct Hend as [Hend | (Hcommit & _)]; [left | right]; eauto.
    + apply limit_not_reached in Hreached.
      destruct (Hnext s1) as (l2 & Hstretch2 & Hlimit2).
      exists (l2 ++ l1)%list; split; [eapply stretch_app; eauto|].
      intros Hbelow.
      apply (within_limit_app pre_check l1 l2 s s1 _ (Ok a) _); auto.
      apply Hstretch1.
  - exists l1; split; [exact Hstretch1|].
    intros Hbelow. destruct (Hlimit1 Hbelow) as (Hcalls & Hend).
    split; [exact Hcalls|]. destruct Hend as [Hend | (_ & a & Ha)]; [left; exact Hend|].
    discriminate.
Qed.

End Frames.

Lemma stretches_frames_loop (H : Host) (DEBUG_disable_rendering pre_check : bool)
      (row_id : nat) (camera : string) (resolution : resolution_value)
      (pixel_aspect output_path_exr output_path_png formatted_time : string)
      (frame_list : list Z) :
  stretches pre_check row_id formatted_time
            (frames_loop H DEBUG_disable_rendering pre_check row_id camera resolution
                         pixel_aspect output_path_exr output_path_png formatted_time
                         frame_list).
Proof.
  induction frame_list as [|frame rest IH]; cbn [frames_loop].
  - apply stretches_calm, steps_ret, calm_refl.
  - apply stretches_bind_calm;
      [apply calm_of_quiet, quiet_prevent_duplicate_files | intros [outputfile_exr full_filename]].
    apply stretches_bind_calm;
      [apply calm_of_quiet, quiet_prevent_duplicate_files | intros [outputfile_png unused]].
    apply stretches_bind_calm; [apply calm_names | intros _].
    apply stretches_then_checked; [|exact IH].
    destruct pre_check; cbn [negb].
    + apply stretches_calm, steps_ret, calm_refl.
    + apply stretches_render_frame.
Qed.

(** *** One entry *)

Lemma returns_only_ret {A : Type} (P : A -> Prop) (a : A) : P a -> returns_only P (ret a).
Proof. intros Ha s b Hb; cbn in Hb. injection Hb as <-. exact Ha. Qed.

Lemma returns_only_raise {A : Type} (P : A -> Prop) (e : exn) : returns_only P (raise e).
Proof. intros s b Hb; discriminate. Qed.

Lemma returns_only_bind {A B : Type} (P : B -> Prop) (m : M A) (k : A -> M B) :
  (forall a, returns_only P (k a)) -> returns_only P (bind m k).
Proof.
  intros Hk s b. unfold bind. destruct (m s) as [[a|e] s1]; [apply Hk | discriminate].
Qed.

Ltac returns :=
  repeat first
    [ apply returns_only_raise
    | apply returns_only_ret
    | apply returns_only_bind; intros ?
    | progress cbv zeta
    | match goal with
      | |- returns_only _ (if ?c then _ else _) => destruct c
      | |- returns_only _ (match ?x with _ => _ end) => destruct x
      end ].

Lemma no_value_error_ret {A : Type} (a : A) : no_value_error (ret a).
Proof. intros s msg; discriminate. Qed.

Lemma no_value_error_bind {A B : Type} (m : M A) (k : A -> M B) :
  no_value_error m -> (forall a, no_value_error (k a)) -> no_value_error (bind m k).
Proof.
  intros Hm Hk s msg. unfold bind. specialize (Hm s msg).
  destruct (m s) as [[a|e] s1]; cbn in *; [apply Hk|].
  intros Heq; apply Hm; injection Heq as ->; reflexivity.
Qed.

Lemma no_value_error_warn (H : Host) (title text : string) (buttons : list (string * bool)) :
  no_value_error (warn_render_settings_open H title text buttons).
Proof.
  intros s msg. unfold warn_render_settings_open, bind, get_world, put_world, log, ret, raise.
  cbn. destruct (dialog_exec H (world s) title text (map fst buttons)) as [w' [|i]]; cbn;
    [discriminate|].
  destruct (nth_error buttons i) as [[key value]|]; cbn; discriminate.
Qed.

Lemma no_value_error_prevent_duplicate_files (H : Host) (pre_check : bool)
      (output_path : string) (frame : Z) (formatted_time : string) :
  no_value_error (prevent_duplicate_files H pre_check output_path frame formatted_time).
Proof.
  unfold prevent_duplicate_files.
  apply no_value_error_bind; [intros s msg; discriminate | intros w].
  destruct (probe _ _ _ _); [|intros s msg; discriminate].
  destruct (os_path_split H _).
  apply no_value_error_bind; [|intros _; apply no_value_error_ret].
  destruct (pre_check && _); [|apply no_value_error_ret].
  apply no_value_error_bind; [apply no_value_error_warn | intros _; apply no_value_error_ret].
Qed.

(** In the pre-check, the loop over the frames raises no [ValueError]. *)
Lemma no_value_error_check_frames (H : Host) (DEBUG_disable_rendering : bool) (row_id : nat)
      (camera : string) (resolution : resolution_value)
      (pixel_aspect output_path_exr output_path_png formatted_time : string)
      (frame_list : list Z) :
  no_value_error (frames_loop H DEBUG_disable_rendering true row_id camera resolution
                              pixel_aspect output_path_exr output_path_png formatted_time
                              frame_list).
Proof.
  induction frame_list as [|frame rest IH]; cbn [frames_loop negb].
  - apply no_value_error_ret.
  - apply no_value_error_bind;
      [apply no_value_error_prevent_duplicate_files | intros [outputfile_exr full_filename]].
    apply no_value_error_bind;
      [apply no_value_error_prevent_duplicate_files | intros [outputfile_png unused]].
    apply no_value_error_bind; [intros s msg; discriminate | intros _].
    apply no_value_error_bind; [apply no_value_error_ret | intros _].
    apply no_value_error_bind; [intros s msg; discriminate | intros s1].
    destruct (cancel_limit_reached s1); [apply no_value_error_ret | exact IH].
Qed.

Section Entry.

Variable H : Host.
Variable DEBUG_disable_rendering : bool.

(** The first half of the body logs and counts the row in the pre-check;
    the sizes it keeps are those of the world it started in. *)
Lemma prepare_row_step (pre_check : bool) (row_id : nat) (rowProperties : Row) (s : St) :
  let r := fst (prepare_row H pre_check row_id rowProperties s) in
  let s' := snd (prepare_row H pre_check row_id rowProperties s) in
  (exists added, adds added s s' /\ Forall is_log added) /\
  total_rows_to_render s' = total_rows_to_render s + (if pre_check then 1 else 0) /\
  rendered_rows s' = rendered_rows s /\
  python_render_error s' = python_render_error s /\
  render_queue_canceled s' = render_queue_canceled s /\
  canceled_renders s' = canceled_renders s /\
  forall p, r = Ok p ->
            p_original_renderWidth p = renderWidth (world s) /\
            p_original_renderHeight p = renderHeight (world s).
Proof.
  cbv zeta. unfold prepare_row.
  set (announce := (if pre_check
                    then (log INFO (MsgChecking (S row_id) (Name rowProperties)) ;;
                          modify count_row_to_render)%M
                    else ret tt)).
  set (camera_id := Camera_Hidden rowProperties).
  match goal with
  | |- context [bind announce ?k] => set (rest := k tt)
  end.
  assert (Hrest : steps quiet_step rest).
  { subst rest.
    step_apart quiet_refl quiet_trans
               ltac:(first [ apply quiet_log | apply quiet_put_world
                           | apply quiet_get_pixel_aspect
                           | apply quiet_get_and_set_scene_state
                           | apply quiet_get_and_set_render_preset
                           | apply quiet_get_and_set_layer_preset
                           | apply quiet_get_valid_filename
                           | apply quiet_get_output_path
                           | apply reading_is_quiet; first [ apply reading_get_item_by_id
                                                           | apply reading_get_frame_range ]
                           | apply reading_is_quiet, steps_reraise_after;
                             [ apply reading_trans | apply reading_get_item_by_id
                             | apply reading_log ] ]). }
  assert (Hsizes : forall s0, world s0 = world s ->
            forall p, fst (rest s0) = Ok p ->
                      p_original_renderWidth p = renderWidth (world s) /\
                      p_original_renderHeight p = renderHeight (world s)).
  { intros s0 Hworld p. subst rest. unfold bind at 1.
    pose proof (steps_reraise_after _ reading_trans _ _
                  (reading_get_item_by_id camera_id)
                  (reading_log ERROR (MsgCouldntFindCamera camera_id)) s0) as (_ & Hw1).
    destruct (reraise_after (get_item_by_id camera_id) _ s0) as [[camera|e] s1];
      [|discriminate].
    unfold bind at 1.
    pose proof (reading_get_frame_range (Range rowProperties) s1) as (_ & Hw2).
    destruct (get_frame_range (Range rowProperties) s1) as [[frame_range|e] s2];
      [|discriminate].
    unfold bind at 1, lift at 1.
    destruct (get_frame_range_display frame_range) as [frame_range_disp|e]; [|discriminate].
    cbn [snd] in Hw1, Hw2. replace (world s) with (world s2) by congruence.
    unfold bind at 1. change (get_world s2) with (Ok (world s2), s2). cbv beta iota.
    generalize (world s2); intros w Hp.
    refine ((_ : returns_only (fun p => p_original_renderWidth p = renderWidth w /\
                                        p_original_renderHeight p = renderHeight w) _)
              s2 p Hp).
    returns. split; reflexivity. }
  clearbody rest.
  set (s0 := if pre_check
             then count_row_to_render
                    (add_event (EvLog INFO (MsgChecking (S row_id) (Name rowProperties))) s)
             else s).
  assert (Hrun : (announce ;; rest)%M s = rest s0)
    by (subst announce s0; destruct pre_check; reflexivity).
  rewrite Hrun. specialize (Hrest s0).
  assert (Hworld : world s0 = world s) by (subst s0; destruct pre_check; reflexivity).
  specialize (Hsizes s0 Hworld).
  destruct (rest s0) as [r s']; cbn [fst snd] in *.
  destruct Hrest as ((Htotal & Hrendered & Herror & Hqueue) & Hcanceled & added & Hadds & Hlogs).
  subst s0; destruct pre_check; cbn in Htotal, Hrendered, Herror, Hqueue, Hcanceled.
  - split; [|repeat split; try assumption; try lia; eapply Hsizes; eassumption].
    exists (added ++ [EvLog INFO (MsgChecking (S row_id) (Name rowProperties))])%list.
    split; [unfold adds in *; rewrite Hadds, <- app_assoc; reflexivity|].
    apply Forall_app; split; [exact Hlogs | repeat constructor].
  - split; [|repeat split; try assumption; try lia; eapply Hsizes; eassumption].
    exists added; split; assumption.
Qed.

(** The second half counts the row, renders its frames, puts the render
    sizes back and, at the limit of canceled frames, cancels the queue. *)
Lemma render_row_step (pre_check : bool) (row_id : nat) (p : prepared) (s : St) :
  let r := fst (render_row H DEBUG_disable_rendering pre_check row_id p s) in
  let s' := snd (render_row H DEBUG_disable_rendering pre_check row_id p s) in
  exists formatted_time added,
    adds added s s' /\
    Forall (of_entry row_id formatted_time) added /\
    (pre_check = true -> Forall is_inert added) /\
    python_render_error s' = python_render_error s /\
    total_rows_to_render s' = total_rows_to_render s /\
    rendered_rows s' = rendered_rows s + 1 /\
    canceled_renders s' = canceled_renders s + canceled_count added /\
    (canceled_renders s < max_canceled_before_exit ->
     calls_below_limit (canceled_renders s) added = true /\
     match r with
     | Ok true =>
         pre_check = false /\ max_canceled_before_exit <= canceled_renders s' /\
         render_queue_canceled s' = true /\
         hd_error added = Some (EvLog WARNING MsgCanceledRenderQueue)
     | _ =>
         canceled_renders s' < max_canceled_before_exit /\
         render_queue_canceled s' = render_queue_canceled s
     end) /\
    (forall b, r = Ok b ->
               renderWidth (world s') = p_original_renderWidth p /\
               renderHeight (world s') = p_original_renderHeight p) /\
    (pre_check = true -> forall msg, r <> Raise (ValueError msg)).
Proof.
  cbv zeta.
  set (s2 := if negb pre_check
             then add_event (EvLog INFO (MsgRendering (S row_id)
                                           (rendered_rows (count_rendered_row s))
                                           (total_rows_to_render (count_rendered_row s))
                                           (p_name p)))
                            (count_rendered_row s)
             else count_rendered_row s).
  set (formatted_time := strftime_run (clock (world s2))).
  set (loop := frames_loop H DEBUG_disable_rendering pre_check row_id (p_camera p)
                           (p_resolution p) (p_pixel_aspect p) (p_output_path_exr p)
                           (p_output_path_png p) formatted_time
                           (frames_items (p_frame_range p))).
  set (finish := fun s3 : St =>
         let s4 := with_world (set_renderSize (p_original_renderWidth p)
                                              (p_original_renderHeight p) (world s3)) s3 in
         if cancel_limit_reached s4 && negb pre_check
         then (Ok true, add_event (EvLog WARNING MsgCanceledRenderQueue)
                                  (set_render_queue_canceled s4))
         else (Ok false, s4)).
  assert (Hrun : forall rest,
            rest = render_row H DEBUG_disable_rendering pre_check row_id p s ->
            rest = match loop s2 with
                   | (Ok _, s3) => finish s3
                   | (Raise e, s3) => (Raise e, s3)
                   end).
  { intros rest ->. unfold render_row, bind, modify, get_state, get_world, put_world, log, ret.
    subst loop finish formatted_time s2. destruct pre_check; cbn [negb];
      destruct (frames_loop _ _ _ _ _ _ _ _ _ _ _ _) as [[[]|e0] s3];
      try reflexivity;
      destruct (cancel_limit_reached _); reflexivity. }
  rewrite (Hrun _ eq_refl). clear Hrun.
  destruct (stretches_frames_loop H DEBUG_disable_rendering pre_check row_id (p_camera p)
              (p_resolution p) (p_pixel_aspect p) (p_output_path_exr p)
              (p_output_path_png p) formatted_time (frames_items (p_frame_range p)) s2)
    as (l3 & ((Ht & Hr & He & Hq) & Ha & Hentry & Hcount & Hinert) & Hlimit).
  fold loop in Ht, Hr, He, Hq, Ha, Hcount, Hlimit.
  assert (Hno : pre_check = true -> forall msg, fst (loop s2) <> Raise (ValueError msg)).
  { intros -> msg. apply no_value_error_check_frames. }
  set (prefix := if negb pre_check
                 then [EvLog INFO (MsgRendering (S row_id)
                                     (rendered_rows (count_rendered_row s))
                                     (total_rows_to_render (count_rendered_row s))
                                     (p_name p))]
                 else []).
  assert (Hs2 : adds prefix s s2 /\ Forall is_log prefix /\
                total_rows_to_render s2 = total_rows_to_render s /\
                rendered_rows s2 = rendered_rows s + 1 /\
                python_render_error s2 = python_render_error s /\
                render_queue_canceled s2 = render_queue_canceled s /\
                canceled_renders s2 = canceled_renders s).
  { subst s2 prefix; destruct pre_check; cbn; repeat split; repeat constructor. }
  destruct Hs2 as (Ha2 & Hl2 & Ht2 & Hr2 & He2 & Hq2 & Hc2).
  assert (Hprefix0 : canceled_count prefix = 0)
    by (apply inert_canceled_count, log_is_inert, Hl2).
  assert (Hcalls : canceled_renders s < max_canceled_before_exit ->
                   calls_below_limit (canceled_renders s) (l3 ++ prefix) = true).
  { intros Hbelow. rewrite calls_below_limit_app, Hprefix0, Z.add_0_r.
    rewrite (inert_calls_below_limit _ prefix) by (apply log_is_inert, Hl2).
    rewrite andb_true_r, <- Hc2. apply Hlimit. lia. }
  clearbody loop s2 prefix formatted_time.
  assert (Happ : forall s3, adds l3 s2 s3 -> adds (l3 ++ prefix) s s3)
    by (intros s3 Hs3; eapply adds_app; eauto).
  assert (Hof : Forall (of_entry row_id formatted_time) (l3 ++ prefix))
    by (apply Forall_app; auto using log_is_of_entry).
  assert (Hin : pre_check = true -> Forall is_inert (l3 ++ prefix))
    by (intros Hpre; apply Forall_app; auto using log_is_inert).
  assert (Hsum : canceled_count (l3 ++ prefix) = canceled_count l3)
    by (rewrite canceled_count_app; lia).
  destruct (loop s2) as [[[]|e] s3]; cbn [fst snd] in *.
  - (* the loop over the frames ended *)
    subst finish; cbv beta zeta.
    set (s4 := with_world _ s3).
    assert (Hs4 : adds (l3 ++ prefix) s s4 /\
                  total_rows_to_render s4 = total_rows_to_render s /\
                  rendered_rows s4 = rendered_rows s + 1 /\
                  python_render_error s4 = python_render_error s /\
                  render_queue_canceled s4 = render_queue_canceled s /\
                  canceled_renders s4 = canceled_renders s + canceled_count (l3 ++ prefix) /\
                  renderWidth (world s4) = p_original_renderWidth p /\
                  renderHeight (world s4) = p_original_renderHeight p /\
                  cancel_limit_reached s4 = cancel_limit_reached s3).
    { subst s4; cbn. repeat split; try congruence; try lia. apply Happ, Ha. }
    destruct Hs4 as (Ha4 & Ht4 & Hr4 & He4 & Hq4 & Hc4 & Hw4 & Hh4 & Hl4).
    clearbody s4.
    destruct (cancel_limit_reached s4 && negb pre_check) eqn:Hstop; cbn [fst snd].
    + apply andb_prop in Hstop as (Hreached & Hcommit).
      apply negb_true_iff in Hcommit.
      assert (Hover : max_canceled_before_exit <= canceled_renders s4).
      { destruct (Z.lt_ge_cases (canceled_renders s4) max_canceled_before_exit) as [Hlt|Hge];
          [|exact Hge].
        apply limit_not_reached in Hlt. congruence. }
      exists formatted_time, (EvLog WARNING MsgCanceledRenderQueue :: l3 ++ prefix)%list.
      split; [unfold adds in *; cbn; rewrite Ha4; reflexivity|].
      split; [constructor; [exact I | exact Hof]|].
      split; [intros Hpre; congruence|].
      split; [exact He4|]. split; [exact Ht4|]. split; [exact Hr4|].
      split; [exact Hc4|].
      split; [intros Hbelow; split; [apply Hcalls, Hbelow | repeat split; assumption]|].
      split; [intros b _; split; assumption | intros _ msg; discriminate].
    + exists formatted_time, (l3 ++ prefix)%list.
      split; [exact Ha4|]. split; [exact Hof|]. split; [exact Hin|].
      split; [exact He4|]. split; [exact Ht4|]. split; [exact Hr4|].
      split; [exact Hc4|].
      split; [|split; [intros b _; split; assumption | intros _ msg; discriminate]].
      intros Hbelow; split; [apply Hcalls, Hbelow | split; [|exact Hq4]].
      apply andb_false_iff in Hstop as [Hfree | Hcheck].
      * apply limit_not_reached in Hfree. exact Hfree.
      * apply negb_false_iff in Hcheck.
        rewrite Hsum, (inert_canceled_count l3 (Hinert Hcheck)) in Hc4. lia.
  - (* the loop over the frames raised *)
    exists formatted_time, (l3 ++ prefix)%list.
    split; [apply Happ, Ha|]. split; [exact Hof|]. split; [exact Hin|].
    split; [congruence|]. split; [congruence|]. split; [congruence|].
    split; [rewrite Hsum; lia|].
    split; [|split; [intros b Hb; discriminate|]];
      [|intros Hpre msg Heq; apply (Hno Hpre msg); injection Heq as ->; reflexivity].
    intros Hbelow; split; [apply Hcalls, Hbelow | split; [|congruence]].
    assert (Hbelow2 : canceled_renders s2 < max_canceled_before_exit) by lia.
    destruct (Hlimit Hbelow2) as (_ & [Hend | (_ & a & Habs)]); [exact Hend | discriminate].
Qed.

End Entry.

(** One turn of the loop over the rows. *)
Lemma process_row_run (H : Host) (DEBUG_disable_rendering pre_check : bool)
      (row_id : nat) (rowProperties : Row) (s : St) :
  entry_run pre_check row_id (Use rowProperties) s
            (fst (process_row H DEBUG_disable_rendering pre_check row_id rowProperties s))
            (snd (process_row H DEBUG_disable_rendering pre_check row_id rowProperties s)).
Proof.
  unfold process_row, entry_run. destruct (Use rowProperties); cbn [andb].
  - unfold bind.
    pose proof (prepare_row_step H pre_check row_id rowProperties s) as Hprepare.
    cbv zeta in Hprepare.
    destruct (prepare_row H pre_check row_id rowProperties s) as [[p|e] s1];
      cbn [fst snd] in *;
      destruct Hprepare as ((l1 & Ha1 & Hl1) & Ht1 & Hr1 & He1 & Hq1 & Hc1 & Hsizes).
    + pose proof (render_row_step H DEBUG_disable_rendering pre_check row_id p s1) as Hrender.
      cbv zeta in Hrender.
      destruct (render_row H DEBUG_disable_rendering pre_check row_id p s1) as [r s2];
        cbn [fst snd] in *.
      destruct Hrender as (formatted_time & l2 & Ha2 & Ho2 & Hi2 & He2 & Ht2 & Hr2 & Hc2 &
                           Hlimit & Hrestored & Hno).
      destruct (Hsizes p eq_refl) as (Hwidth & Hheight).
      assert (Hzero : canceled_count l1 = 0)
        by (apply inert_canceled_count, log_is_inert, Hl1).
      exists formatted_time, (l2 ++ l1)%list.
      split; [eapply adds_app; eauto|].
      split; [apply Forall_app; auto using log_is_of_entry|].
      split; [intros Hpre; apply Forall_app; auto using log_is_inert|].
      split; [congruence|]. split; [lia|].
      split; [rewrite canceled_count_app; lia|].
      split; [|split].
      * intros Hbelow. rewrite <- Hc1 in Hbelow. destruct (Hlimit Hbelow) as (Hcalls & Hend).
        split.
        -- rewrite calls_below_limit_app, Hzero, Z.add_0_r, <- Hc1, Hcalls.
           apply inert_calls_below_limit, log_is_inert, Hl1.
        -- destruct r as [[|]|e]; [ | rewrite <- Hq1; exact Hend | rewrite <- Hq1; exact Hend].
           destruct Hend as (Hcommit & Hover & Hqueue & Hhead).
           repeat split; try assumption.
           destruct l2; [discriminate | exact Hhead].
      * intros b Hb. destruct (Hrestored b Hb) as (Hw & Hh).
        repeat split; [lia | congruence | congruence].
      * intros Hpre msg Hmsg. exfalso. apply (Hno Hpre msg Hmsg).
    + exists "", l1.
      split; [exact Ha1|]. split; [apply log_is_of_entry, Hl1|].
      split; [intros _; apply log_is_inert, Hl1|].
      split; [exact He1|]. split; [exact Ht1|].
      split; [rewrite (inert_canceled_count l1) by (apply log_is_inert, Hl1); lia|].
      split; [|split; [intros b Hb; discriminate | intros _ msg _; exact Hr1]].
      intros Hbelow. split; [apply inert_calls_below_limit, log_is_inert, Hl1|].
      split; [lia | exact Hq1].
  - exists "", []. cbn.
    split; [reflexivity|]. split; [constructor|]. split; [constructor|].
    repeat split; try lia; discriminate.
Qed.

(** ** The loop over the rows *)

Lemma rows_loop_cons (H : Host) (DEBUG_disable_rendering pre_check : bool) (row_id : nat)
      (rowProperties : Row) (rest : list Row) (s : St) :
  rows_loop H DEBUG_disable_rendering pre_check row_id (rowProperties :: rest) s =
  match process_row H DEBUG_disable_rendering pre_check row_id rowProperties s with
  | (Ok true, s') => (Ok tt, s')
  | (Ok false, s') => rows_loop H DEBUG_disable_rendering pre_check (S row_id) rest s'
  | (Raise (ValueError msg), s') =>
      rows_loop H DEBUG_disable_rendering pre_check (S row_id) rest
                (set_python_render_error (add_event (EvLog ERROR (MsgText msg)) s'))
  | (Raise e, s') => (Raise e, s')
  end.
Proof. reflexivity. Qed.

Lemma count_where_cons {A : Type} (p : A -> bool) (a : A) (l : list A) :
  count_where p (a :: l) = (if p a then 1 else 0) + count_where p l.
Proof. unfold count_where; cbn. destruct (p a); cbn [List.length]; lia. Qed.

(** *** The pre-check goes through all the rows *)

Lemma check_rows_tally (H : Host) (DEBUG_disable_rendering : bool) (rows : list Row) :
  forall (row_id : nat) (s : St),
    let run := rows_loop H DEBUG_disable_rendering true row_id rows s in
    let results := outcomes H DEBUG_disable_rendering true row_id rows s in
    fst run = Ok tt ->
    List.length results = List.length rows /\
    total_rows_to_render (snd run) = total_rows_to_render s + rows_in_use rows /\
    rendered_rows (snd run) = rendered_rows s + count_where is_validated results /\
    python_render_error (snd run) = python_render_error s || existsb is_failed results.
Proof.
  induction rows as [|rowProperties rest IH]; intros row_id s; cbv zeta.
  - cbn. intros _. unfold rows_in_use, count_where; cbn.
    rewrite orb_false_r. repeat split; lia.
  - rewrite rows_loop_cons. cbn [outcomes].
    pose proof (process_row_run H DEBUG_disable_rendering true row_id rowProperties s)
      as (formatted_time & added & _ & _ & _ & Herror & Htotal & _ & _ & Hok & Hfailed).
    unfold rows_in_use. rewrite count_where_cons. fold (rows_in_use rest).
    destruct (process_row H DEBUG_disable_rendering true row_id rowProperties s)
      as [[[|]|[msg|kind]] s1] eqn:Hrow; cbn [fst snd] in *.
    + (* a pre-check does not leave the loop *)
      exfalso.
      unfold process_row in Hrow. destruct (Use rowProperties); [|discriminate].
      unfold bind in Hrow.
      destruct (prepare_row H true row_id rowProperties s) as [[p|e] s0]; [|discriminate].
      revert Hrow. unfold render_row, bind, modify, get_state, get_world, put_world, log, ret.
      cbn [negb]. destruct (frames_loop _ _ _ _ _ _ _ _ _ _ _ _) as [[[]|e] s3];
        [|discriminate].
      rewrite andb_false_r. discriminate.
    + intros Hrest. destruct (IH (S row_id) s1 Hrest) as (Hlen & Ht & Hr & He).
      destruct (Hok false eq_refl) as (Hrendered & _).
      rewrite andb_true_r in Htotal.
      split; [cbn [List.length]; congruence|].
      split; [rewrite Ht, Htotal; lia|].
      split.
      * rewrite Hr, Hrendered, count_where_cons.
        destruct (Use rowProperties); cbn [is_validated]; lia.
      * rewrite He, Herror. cbn [existsb].
        destruct (Use rowProperties); cbn [is_failed orb]; reflexivity.
    + intros Hrest.
      destruct (IH (S row_id)
                   (set_python_render_error (add_event (EvLog ERROR (MsgText msg)) s1)) Hrest)
        as (Hlen & Ht & Hr & He).
      cbn [total_rows_to_render rendered_rows python_render_error set_python_render_error
           add_event] in Ht, Hr, He.
      rewrite andb_true_r in Htotal.
      assert (Hused : Use rowProperties = true).
      { destruct (Use rowProperties) eqn:Huse; [reflexivity|].
        unfold process_row in Hrow. rewrite Huse in Hrow. discriminate. }
      rewrite Hused in *.
      split; [cbn [List.length]; congruence|].
      split; [rewrite Ht, Htotal; lia|].
      split.
      * rewrite Hr, (Hfailed eq_refl msg eq_refl), count_where_cons. cbn [is_validated]. lia.
      * rewrite He. cbn [existsb is_failed]. rewrite orb_true_r. reflexivity.
    + discriminate.
Qed.

Lemma main_pass_check (H : Host) (DEBUG_disable_rendering : bool) (rows : list Row) (s : St) :
  main_pass H DEBUG_disable_rendering true 0 rows s =
  match main_start H true (enter_main 0 s) with
  | (Ok (true, close_renderSceneDialog), s1) =>
      match rows_loop H DEBUG_disable_rendering true O rows s1 with
      | (Ok _, s2) =>
          let s3 := if close_renderSceneDialog
                    then with_world (set_renderSceneDialog_isOpen false (world s2)) s2
                    else s2 in
          if python_render_error s3
          then (Ok ReturnFalse, add_event (EvLog ERROR MsgErrorsFound) s3)
          else (Ok (ReturnInt (total_rows_to_render s3)),
                add_event (EvLog INFO MsgNoErrorsFound) s3)
      | (Raise e, s2) => (Raise e, s2)
      end
  | (Ok (false, _), s1) => (Ok ReturnNone, s1)
  | (Raise e, s1) => (Raise e, s1)
  end.
Proof.
  unfold main_pass, main_start, bind, modify. cbn [fst snd].
  destruct (saveDialogData H (enter_main 0 s)) as [[[]|e0] s0]; [|reflexivity].
  destruct (check_VFB_settings H true s0) as [[[[|] close]|e] s1];
    cbn [negb]; try reflexivity.
  destruct (rows_loop H DEBUG_disable_rendering true O rows s1) as [[[]|e] s2];
    [|reflexivity].
  unfold renderSceneDialog_cancel, bind, get_world, put_world, get_state, ret, log.
  destruct close; cbn [negb andb]; cbv zeta;
    match goal with |- context [python_render_error ?st] =>
      destruct (python_render_error st) eqn:Herr end;
    cbn in Herr |- *; rewrite ?Herr; reflexivity.
Qed.

(** C2 (as the code has it). A pre-check that runs to its end goes
    through every row: a row that fails validation with a [ValueError] sets
    the error flag and the loop goes on with the next row.  The counter
    [total_rows_to_render] counts every row in use, those that failed
    included; the rows that validated are counted by [rendered_rows].  With
    the error flag set the pre-check returns [False], and the commit run
    that made it returns without a commit pass. *)
Theorem pre_check_is_exhaustive (H : Host) (DEBUG_disable_rendering : bool)
        (rows : list Row) (s0 : St) :
  let s := before_pre_check s0 in
  let results := checked_rows H DEBUG_disable_rendering rows s in
  let run := main_pass H DEBUG_disable_rendering true 0 rows s in
  (exists value, fst run = Ok value /\ value <> ReturnNone) ->
  List.length results = List.length rows /\
  total_rows_to_render (snd run) = rows_in_use rows /\
  rendered_rows (snd run) = count_where is_validated results /\
  python_render_error (snd run) = existsb is_failed results /\
  fst run = Ok (if existsb is_failed results
                then ReturnFalse else ReturnInt (rows_in_use rows)) /\
  (existsb is_failed results = true ->
   start_batch_render H DEBUG_disable_rendering false rows s0 = (Ok ReturnNone, snd run)).
Proof.
  cbv zeta. intros (value & Hvalue & Hsome).
  unfold start_batch_render, checked_rows. cbn [negb]. unfold bind at 1.
  change (log INFO MsgStartingPreCheck s0) with (Ok tt, before_pre_check s0).
  cbv beta iota. unfold bind at 1.
  set (s := before_pre_check s0) in *.
  rewrite main_pass_check in *.
  destruct (main_start H true (enter_main 0 s)) as [[[[|] close]|e] s1] eqn:Hcheck;
    cbn [fst snd] in *; try discriminate;
    [|injection Hvalue as <-; contradiction].
  pose proof (quiet_main_start H true (enter_main 0 s)) as Hquiet.
  rewrite Hcheck in Hquiet; cbn [snd] in Hquiet.
  destruct Hquiet as ((Ht1 & Hr1 & He1 & _) & _ & _).
  cbn in Ht1, Hr1, He1.
  pose proof (check_rows_tally H DEBUG_disable_rendering rows O s1) as Htally.
  cbv zeta in Htally.
  destruct (rows_loop H DEBUG_disable_rendering true O rows s1) as [[[]|e] s2];
    cbn [fst snd] in *; [|discriminate].
  destruct (Htally eq_refl) as (Hlen & Ht & Hr & He).
  rewrite Ht1 in Ht. rewrite Hr1 in Hr. rewrite He1 in He. cbn [orb] in He.
  set (results := outcomes H DEBUG_disable_rendering true O rows s1) in *.
  assert (Hs3 : forall s3,
            s3 = (if close
                  then with_world (set_renderSceneDialog_isOpen false (world s2)) s2
                  else s2) ->
            total_rows_to_render s3 = rows_in_use rows /\
            rendered_rows s3 = count_where is_validated results /\
            python_render_error s3 = existsb is_failed results).
  { intros s3 ->. destruct close; cbn; repeat split; lia || congruence. }
  cbv zeta. specialize (Hs3 _ eq_refl).
  destruct Hs3 as (Ht3 & Hr3 & He3). revert Ht3 Hr3 He3.
  generalize (if close
              then with_world (set_renderSceneDialog_isOpen false (world s2)) s2
              else s2) as s3.
  intros s3 Ht3 Hr3 He3. rewrite <- He3.
  destruct (python_render_error s3) eqn:Herr; cbn [fst snd];
    (split; [exact Hlen|]); cbn; rewrite ?Ht3, ?Hr3, ?Herr;
    repeat split; try reflexivity; try discriminate.
Qed.

Lemma pre_check_is_exhaustive_witness :
  map is_validated
      (checked_rows (Sim.host Sim.render_ok) false three_rows
                    (before_pre_check (initial_state (Sim.scene [] None)))) =
    [true; false; true] /\
  map is_failed
      (checked_rows (Sim.host Sim.render_ok) false three_rows
                    (before_pre_check (initial_state (Sim.scene [] None)))) =
    [false; true; false] /\
  total_rows_to_render (snd three_rows_check) = 3 /\
  rendered_rows (snd three_rows_check) = 2 /\
  python_render_error (snd three_rows_check) = true /\
  fst three_rows_check = Ok ReturnFalse /\
  start_batch_render (Sim.host Sim.render_ok) false false three_rows
                     (initial_state (Sim.scene [] None)) =
    (Ok ReturnNone, snd three_rows_check).
Proof.
  destruct (pre_check_is_exhaustive (Sim.host Sim.render_ok) false three_rows
              (initial_state (Sim.scene [] None)))
    as (_ & Htotal & Hrendered & Herror & Hvalue & Hcommit).
  - exists ReturnFalse. split; [reflexivity | discriminate].
  - split; [reflexivity|]. split; [reflexivity|].
    split; [exact Htotal|].
    split; [exact Hrendered|].
    split; [exact Herror|].
    split; [exact Hvalue | apply Hcommit; reflexivity].
Defined.

(** C2 (as stated) fails in what the counter counts: in the pre-check of
    [three_rows] two rows validate, and [total_rows_to_render], the counter
    that the pre-check returns when it finds no error, stands at three. *)
Lemma would_render_counter_counts_failed_rows :
  let results := checked_rows (Sim.host Sim.render_ok) false three_rows
                   (before_pre_check (initial_state (Sim.scene [] None))) in
  map is_validated results = [true; false; true] /\
  count_where is_validated results = 2 /\
  total_rows_to_render (snd three_rows_check) = 3 /\
  total_rows_to_render (snd three_rows_check) <> count_where is_validated results.
Proof. cbv zeta. repeat split. vm_compute. discriminate. Qed.

(** A pre-check does not run to its end when a row raises another
    exception than [ValueError]: after a row whose camera is not in the
    scene, a row with a literal output path ends the pre-check with the
    [UnboundLocalError] of [get_output_path], and the row after it is not
    read. *)
Lemma literal_path_ends_the_pre_check :
  let rows := [ Sim.entry "B" "id-2" DEFAULT_PATH_TEXT "Default" "Default";
                Sim.entry "A" "id-1" "C:\out\shot.exr" "Default" "Default";
                Sim.entry "C" "id-3" DEFAULT_PATH_TEXT "Default" "Default" ] in
  let run := main_pass (Sim.host Sim.render_ok) false true 0 rows
               (before_pre_check (initial_state (Sim.scene [] None))) in
  fst run = Raise (OtherError "UnboundLocalError") /\
  python_render_error (snd run) = true /\
  total_rows_to_render (snd run) = 2.
Proof. cbv zeta. repeat split; vm_compute; reflexivity. Qed.

(** ** The whole pass *)

Lemma main_pass_eq (H : Host) (DEBUG_disable_rendering pre_check : bool) (total : Z)
      (rows : list Row) (s : St) :
  main_pass H DEBUG_disable_rendering pre_check total rows s =
  match main_start H pre_check (enter_main total s) with
  | (Ok (true, close_renderSceneDialog), s1) =>
      match rows_loop H DEBUG_disable_rendering pre_check O rows s1 with
      | (Ok _, s2) => conclude pre_check close_renderSceneDialog s2
      | (Raise e, s2) => (Raise e, s2)
      end
  | (Ok (false, _), s1) => (Ok ReturnNone, s1)
  | (Raise e, s1) => (Raise e, s1)
  end.
Proof.
  unfold main_pass, main_start, bind, modify. cbn [fst snd].
  destruct (saveDialogData H (enter_main total s)) as [[[]|e0] s0]; [|reflexivity].
  destruct (check_VFB_settings H pre_check s0) as [[[[|] close]|e] s1];
    cbn [negb]; try reflexivity.
  destruct (rows_loop H DEBUG_disable_rendering pre_check O rows s1) as [[[]|e] s2];
    [|reflexivity].
  unfold conclude, renderSceneDialog_cancel, bind, get_world, put_world, get_state, ret, log.
  destruct close; cbv zeta; cbn [fst snd];
    match goal with |- context [render_queue_canceled ?st] =>
      destruct (render_queue_canceled st) eqn:Hqueue;
      destruct (python_render_error st) eqn:Herr
    end;
    destruct pre_check; cbn in Hqueue, Herr |- *; rewrite ?Hqueue, ?Herr; reflexivity.
Qed.

Lemma conclude_step (pre_check close_renderSceneDialog : bool) (s2 : St) :
  quiet_step s2 (snd (conclude pre_check close_renderSceneDialog s2)) /\
  world (snd (conclude pre_check close_renderSceneDialog s2)) =
    (if close_renderSceneDialog
     then set_renderSceneDialog_isOpen false (world s2) else world s2).
Proof.
  unfold conclude; cbv zeta.
  set (s3 := if close_renderSceneDialog then _ else s2).
  assert (Hs3 : quiet_step s2 s3 /\
                world s3 = (if close_renderSceneDialog
                            then set_renderSceneDialog_isOpen false (world s2)
                            else world s2)).
  { subst s3; destruct close_renderSceneDialog; split; try reflexivity;
      try apply quiet_refl.
    split; [repeat split | split; [reflexivity|]]. exists []; split; [reflexivity|constructor]. }
  destruct Hs3 as (Hquiet & Hworld). clearbody s3.
  assert (Hlog : forall lvl msg, quiet_step s2 (add_event (EvLog lvl msg) s3)).
  { intros lvl msg. eapply quiet_trans; [exact Hquiet | apply (quiet_log lvl msg s3)]. }
  repeat match goal with
         | |- context [if ?c then _ else _] => destruct c
         end; cbn [fst snd]; split; auto.
Qed.

(** *** One timestamp for the frames of an entry *)

Lemma timestamps_of_row_app (row_id : nat) (l2 l1 : list event) :
  timestamps_of_row row_id (l2 ++ l1) =
  (timestamps_of_row row_id l2 ++ timestamps_of_row row_id l1)%list.
Proof.
  induction l2 as [|e l2 IH]; cbn; [reflexivity|].
  destruct e; cbn; try exact IH.
  destruct (Nat.eqb row_id0 row_id); cbn; [f_equal|]; exact IH.
Qed.

Lemma timestamps_of_entry (row_id r : nat) (formatted_time : string) (l : list event) :
  Forall (of_entry row_id formatted_time) l ->
  Forall (eq formatted_time) (timestamps_of_row r l) /\
  (r <> row_id -> timestamps_of_row r l = []).
Proof.
  induction 1 as [|e l He _ (IHall & IHnone)]; cbn; [split; [constructor | reflexivity]|].
  destruct e; cbn in *; try (split; assumption).
  destruct He as (-> & ->).
  destruct (Nat.eqb_spec row_id r) as [->|Hneq].
  - split; [constructor; [reflexivity | exact IHall] | intros Hr; contradiction].
  - split; [exact IHall | intros _; apply IHnone; congruence].
Qed.

Lemma timestamps_of_later_rows (row_id : nat) (l : list event) :
  Forall (rows_from (S row_id)) l -> timestamps_of_row row_id l = [].
Proof.
  induction 1 as [|e l He _ IH]; cbn; [reflexivity|].
  destruct e; cbn in *; try exact IH.
  destruct (Nat.eqb_spec row_id0 row_id) as [->|Hneq]; [lia | exact IH].
Qed.

Lemma logs_have_no_timestamps (row_id : nat) (l : list event) :
  Forall is_log l -> timestamps_of_row row_id l = [].
Proof.
  induction 1 as [|e l He _ IH]; cbn; [reflexivity|].
  destruct e; cbn in *; tauto.
Qed.

Lemma rows_loop_timestamps (H : Host) (DEBUG_disable_rendering pre_check : bool)
      (rows : list Row) :
  forall (row_id : nat) (s : St),
  exists added,
    adds added s (snd (rows_loop H DEBUG_disable_rendering pre_check row_id rows s)) /\
    Forall (rows_from row_id) added /\ one_timestamp_per_row added.
Proof.
  induction rows as [|rowProperties rest IH]; intros row_id s.
  - exists []. split; [reflexivity|]. split; [constructor|].
    intros r; exists ""; constructor.
  - rewrite rows_loop_cons.
    pose proof (process_row_run H DEBUG_disable_rendering pre_check row_id rowProperties s)
      as (formatted_time & l1 & Ha1 & Hentry & _).
    assert (Hfrom1 : Forall (rows_from row_id) l1).
    { revert Hentry. apply Forall_impl. intros [] He; cbn in *; try exact I.
      destruct He as (-> & _). lia. }
    assert (Hone1 : one_timestamp_per_row l1).
    { intros r. exists formatted_time. apply (timestamps_of_entry row_id r _ _ Hentry). }
    assert (Hjoin : forall s1 extra,
              adds extra (snd (process_row H DEBUG_disable_rendering pre_check row_id
                                           rowProperties s)) s1 ->
              Forall is_log extra ->
              exists added,
                adds added s
                     (snd (rows_loop H DEBUG_disable_rendering pre_check (S row_id) rest s1)) /\
                Forall (rows_from row_id) added /\ one_timestamp_per_row added).
    { intros s1 extra Hextra Hlogs.
      destruct (IH (S row_id) s1) as (l2 & Ha2 & Hfrom2 & Hone2).
      exists (l2 ++ extra ++ l1)%list. split; [|split].
      - eapply adds_app; [|exact Ha2]. eapply adds_app; eauto.
      - apply Forall_app; split.
        + revert Hfrom2. apply Forall_impl. intros [] He; cbn in *; try exact I. lia.
        + apply Forall_app; split; [|exact Hfrom1].
          revert Hlogs. apply Forall_impl. intros [] He; cbn in *; tauto.
      - intros r. destruct (Nat.eq_dec r row_id) as [->|Hneq].
        + exists formatted_time.
          rewrite !timestamps_of_row_app, (timestamps_of_later_rows _ _ Hfrom2),
            (logs_have_no_timestamps _ _ Hlogs). cbn.
          apply (timestamps_of_entry row_id row_id _ _ Hentry).
        + destruct (Hone2 r) as (t2 & Ht2). exists t2.
          rewrite !timestamps_of_row_app, (logs_have_no_timestamps _ _ Hlogs).
          rewrite (proj2 (timestamps_of_entry row_id r _ _ Hentry) Hneq), !app_nil_r.
          exact Ht2. }
    destruct (process_row H DEBUG_disable_rendering pre_check row_id rowProperties s)
      as [[[|]|[msg|kind]] s1]; cbn [fst snd] in *.
    + exists l1. auto.
    + apply (Hjoin s1 []); [reflexivity | constructor].
    + apply (Hjoin _ [EvLog ERROR (MsgText msg)]); [reflexivity | repeat constructor].
    + exists l1. auto.
Qed.

Lemma one_timestamp_in_pass (H : Host) (DEBUG_disable_rendering pre_check : bool)
      (total : Z) (rows : list Row) (s : St) :
  exists added,
    adds added s (snd (main_pass H DEBUG_disable_rendering pre_check total rows s)) /\
    one_timestamp_per_row added.
Proof.
  rewrite main_pass_eq.
  pose proof (quiet_main_start H pre_check (enter_main total s))
    as (_ & _ & l0 & Ha0 & Hl0).
  assert (Hstart : adds l0 s (snd (main_start H pre_check (enter_main total s))))
    by exact Ha0.
  assert (Hnone : forall l, Forall is_log l -> one_timestamp_per_row l).
  { intros l Hl r. exists "". rewrite (logs_have_no_timestamps _ _ Hl). constructor. }
  destruct (main_start H pre_check (enter_main total s)) as [[[[|] close]|e] s1];
    cbn [snd] in *; try (exists l0; split; [exact Hstart | apply Hnone, Hl0]).
  destruct (rows_loop_timestamps H DEBUG_disable_rendering pre_check rows O s1)
    as (l1 & Ha1 & _ & Hone1).
  assert (Hmerge : forall l2, Forall is_log l2 -> one_timestamp_per_row (l2 ++ l1 ++ l0)).
  { intros l2 Hl2 r. destruct (Hone1 r) as (t & Ht). exists t.
    rewrite !timestamps_of_row_app, (logs_have_no_timestamps _ _ Hl2),
      (logs_have_no_timestamps _ _ Hl0), app_nil_r. exact Ht. }
  destruct (rows_loop H DEBUG_disable_rendering pre_check O rows s1) as [[[]|e] s2];
    cbn [snd] in *.
  - destruct (conclude_step pre_check close s2) as ((_ & _ & l2 & Ha2 & Hl2) & _).
    exists (l2 ++ l1 ++ l0)%list. split; [|apply Hmerge, Hl2].
    eapply adds_app; [|exact Ha2]. eapply adds_app; eauto.
  - exists ([] ++ l1 ++ l0)%list. split; [|apply Hmerge; constructor].
    cbn. eapply adds_app; eauto.
Qed.

(** *** The timestamp is in the file names *)

Section Named.

Variable H : Host.
Variable DEBUG_disable_rendering : bool.

Lemma named_refl (s : St) : named_step H s s.
Proof. exists []; split; [reflexivity | constructor]. Qed.

Lemma named_trans (s1 s2 s3 : St) :
  named_step H s1 s2 -> named_step H s2 s3 -> named_step H s1 s3.
Proof.
  intros (l1 & Ha1 & Hn1) (l2 & Ha2 & Hn2).
  exists (l2 ++ l1)%list; split; [eapply adds_app; eauto | apply Forall_app; auto].
Qed.

Lemma work_is_stamped (l : list event) : Forall is_work l -> Forall (names_stamped H) l.
Proof. apply Forall_impl. intros [] He; cbn in *; tauto. Qed.

Lemma named_of_quiet {A : Type} (m : M A) : steps quiet_step m -> steps (named_step H) m.
Proof.
  intros Hm s. destruct (Hm s) as (_ & _ & added & Ha & Hlogs).
  exists added; split; [exact Ha | apply work_is_stamped, log_is_work, Hlogs].
Qed.

Lemma named_of_attempt {A : Type} (m : M A) : steps attempt_step m -> steps (named_step H) m.
Proof.
  intros Hm s. destruct (Hm s) as (_ & _ & added & Ha & Hwork & _).
  exists added; split; [exact Ha | apply work_is_stamped, Hwork].
Qed.

Lemma named_modify (f : St -> St) :
  (forall s, trace (f s) = trace s) -> steps (named_step H) (modify f).
Proof. intros Hf s. exists []; split; [apply Hf | constructor]. Qed.

Lemma named_result (render_result : Z) :
  steps (named_step H) (emit (EvRenderResult render_result)).
Proof. intros s. exists [EvRenderResult render_result]; split; repeat constructor. Qed.

Lemma returns_stamped (pre_check : bool) (output_path : string) (frame : Z)
      (formatted_time : string) :
  returns_only (fun r => stamped_name H frame formatted_time (fst r))
               (prevent_duplicate_files H pre_check output_path frame formatted_time).
Proof.
  unfold prevent_duplicate_files. apply returns_only_bind; intros w.
  destruct (probe _ _ _ _) as [dupe_count|]; [|apply returns_only_raise].
  destruct (os_path_split H _). apply returns_only_bind; intros _.
  apply returns_only_ret. exists output_path, dupe_count. reflexivity.
Qed.

Ltac named :=
  step_apart named_refl named_trans
             ltac:(first [ apply named_result
                         | apply named_modify; reflexivity
                         | apply named_of_attempt, attempt_do_render
                         | apply named_of_quiet;
                           first [ apply quiet_log | apply quiet_put_world
                                 | apply quiet_prevent_duplicate_files
                                 | apply quiet_get_pixel_aspect
                                 | apply quiet_get_and_set_scene_state
                                 | apply quiet_get_and_set_render_preset
                                 | apply quiet_get_and_set_layer_preset
                                 | apply quiet_get_valid_filename
                                 | apply quiet_get_output_path
                                 | apply quiet_check_VFB_settings
                                 | apply reading_is_quiet, reading_get_item_by_id
                                 | apply reading_is_quiet, reading_get_frame_range
                                 | apply reading_is_quiet, steps_reraise_after;
                                   [ apply reading_trans | apply reading_get_item_by_id
                                   | apply reading_log ] ] ]).

Lemma named_render_frame (camera : string) (resolution : resolution_value)
      (pixel_aspect : string) (frame : Z) (outputfile_exr outputfile_png full_filename : string) :
  steps (named_step H)
        (render_frame H DEBUG_disable_rendering camera resolution pixel_aspect frame
                      outputfile_exr outputfile_png full_filename).
Proof. unfold render_frame. named. Qed.

Lemma named_frames_loop (pre_check : bool) (row_id : nat) (camera : string)
      (resolution : resolution_value)
      (pixel_aspect output_path_exr output_path_png formatted_time : string)
      (frame_list : list Z) :
  steps (named_step H)
        (frames_loop H DEBUG_disable_rendering pre_check row_id camera resolution
                     pixel_aspect output_path_exr output_path_png formatted_time frame_list).
Proof.
  induction frame_list as [|frame rest IH]; cbn [frames_loop]; [named|].
  intros s. unfold bind at 1.
  pose proof (named_of_quiet _ (quiet_prevent_duplicate_files H pre_check output_path_exr
                                  frame formatted_time) s) as Hstep1.
  pose proof (returns_stamped pre_check output_path_exr frame formatted_time s) as Hexr.
  destruct (prevent_duplicate_files H pre_check output_path_exr frame formatted_time s)
    as [[[outputfile_exr full_filename]|e] s1]; cbn [fst snd] in *; [|exact Hstep1].
  specialize (Hexr _ eq_refl); cbn [fst] in Hexr.
  eapply named_trans; [exact Hstep1|]. unfold bind at 1.
  pose proof (named_of_quiet _ (quiet_prevent_duplicate_files H pre_check output_path_png
                                  frame formatted_time) s1) as Hstep2.
  pose proof (returns_stamped pre_check output_path_png frame formatted_time s1) as Hpng.
  destruct (prevent_duplicate_files H pre_check output_path_png frame formatted_time s1)
    as [[[outputfile_png unused]|e] s2]; cbn [fst snd] in *; [|exact Hstep2].
  specialize (Hpng _ eq_refl); cbn [fst] in Hpng.
  eapply named_trans; [exact Hstep2|]. clear Hstep1 Hstep2.
  match goal with
  | |- named_step H s2 (snd (bind ?m ?k s2)) => revert s2; change (steps (named_step H) (bind m k))
  end.
  pose proof named_render_frame.
  step_apart named_refl named_trans
             ltac:(first [ apply named_render_frame ]).
  intros s2. exists [EvNames row_id frame formatted_time outputfile_exr outputfile_png].
  split; [reflexivity | repeat constructor; assumption].
Qed.

Lemma named_process_row (pre_check : bool) (row_id : nat) (rowProperties : Row) :
  steps (named_step H)
        (process_row H DEBUG_disable_rendering pre_check row_id rowProperties).
Proof.
  unfold process_row, prepare_row, render_row.
  step_apart named_refl named_trans
             ltac:(first [ apply named_frames_loop
                         | apply named_modify; reflexivity
                         | apply named_of_quiet;
                           first [ apply quiet_log | apply quiet_put_world
                                 | apply quiet_get_pixel_aspect
                                 | apply quiet_get_and_set_scene_state
                                 | apply quiet_get_and_set_render_preset
                                 | apply quiet_get_and_set_layer_preset
                                 | apply quiet_get_valid_filename
                                 | apply quiet_get_output_path
                                 | apply reading_is_quiet, reading_get_item_by_id
                                 | apply reading_is_quiet, reading_get_frame_range
                                 | apply reading_is_quiet, steps_reraise_after;
                                   [ apply reading_trans | apply reading_get_item_by_id
                                   | apply reading_log ] ] ]).
Qed.

Lemma named_rows_loop (pre_check : bool) (rows : list Row) :
  forall row_id, steps (named_step H)
                       (rows_loop H DEBUG_disable_rendering pre_check row_id rows).
Proof.
  induction rows as [|rowProperties rest IH]; intros row_id s; [apply named_refl|].
  rewrite rows_loop_cons.
  pose proof (named_process_row pre_check row_id rowProperties s) as Hrow.
  destruct (process_row H DEBUG_disable_rendering pre_check row_id rowProperties s)
    as [[[|]|[msg|kind]] s1]; cbn [fst snd] in *; try exact Hrow.
  - eapply named_trans; [exact Hrow | apply IH].
  - eapply named_trans; [exact Hrow|]. eapply named_trans; [|apply IH].
    exists [EvLog ERROR (MsgText msg)]; split; [reflexivity | repeat constructor].
Qed.

Lemma named_main_pass (pre_check : bool) (total : Z) (rows : list Row) :
  steps (named_step H) (main_pass H DEBUG_disable_rendering pre_check total rows).
Proof.
  intros s. rewrite main_pass_eq.
  pose proof (named_of_quiet _ (quiet_main_start H pre_check) (enter_main total s))
    as Hcheck.
  assert (Hstart : named_step H s
                     (snd (main_start H pre_check (enter_main total s))))
    by exact Hcheck.
  destruct (main_start H pre_check (enter_main total s)) as [[[[|] close]|e] s1];
    cbn [snd] in *; try exact Hstart.
  eapply named_trans; [exact Hstart|].
  pose proof (named_rows_loop pre_check rows O s1) as Hrows.
  destruct (rows_loop H DEBUG_disable_rendering pre_check O rows s1) as [[[]|e] s2];
    cbn [snd] in *; [|exact Hrows].
  eapply named_trans; [exact Hrows|].
  destruct (conclude_step pre_check close s2) as ((_ & _ & l2 & Ha2 & Hl2) & _).
  exists l2; split; [exact Ha2 | apply work_is_stamped, log_is_work, Hl2].
Qed.

End Named.

(** C3 (as the code has it). Within one pass over the queue, the file
    names of all frames of one entry carry the same timestamp: it is read
    from the clock once per entry, when the loop over its frames starts,
    and every name allocated for a frame is made with the timestamp of
    its entry. *)
Theorem one_timestamp_per_entry (H : Host) (DEBUG_disable_rendering pre_check : bool)
        (total : Z) (rows : list Row) (s : St) :
  exists added,
    adds added s (snd (main_pass H DEBUG_disable_rendering pre_check total rows s)) /\
    one_timestamp_per_row added /\
    Forall (names_stamped H) added.
Proof.
  destruct (one_timestamp_in_pass H DEBUG_disable_rendering pre_check total rows s)
    as (added & Hadds & Hone).
  destruct (named_main_pass H DEBUG_disable_rendering pre_check total rows s)
    as (added' & Hadds' & Hnamed).
  exists added. split; [exact Hadds|]. split; [exact Hone|].
  unfold adds in *. rewrite Hadds in Hadds'. apply app_inv_tail in Hadds'.
  subst added'. exact Hnamed.
Qed.

(** C3 (as stated) fails: in one commit run of two entries of one frame
    each, the first render takes five seconds, and the file name of the
    second entry is stamped five seconds after that of the first. *)
Lemma entries_get_different_timestamps :
  fst two_rows_run = Ok ReturnTrue /\
  timestamps_of_row 0 (trace (snd two_rows_run)) =
    ["24-01-01T12.00.00"; "24-01-01T12.00.00"] /\
  timestamps_of_row 1 (trace (snd two_rows_run)) =
    ["24-01-01T12.00.05"; "24-01-01T12.00.00"] /\
  ~ exists formatted_time,
      Forall (eq formatted_time) (all_timestamps (trace (snd two_rows_run))).
Proof.
  repeat split. intros (formatted_time & Hall).
  vm_compute in Hall.
  inversion Hall as [|? ? Hfirst Hrest]; subst.
  inversion Hrest as [|? ? Hsecond _]; subst. discriminate.
Qed.

(** *** The limit on canceled frames *)

Lemma commit_rows_limit (H : Host) (DEBUG_disable_rendering : bool) (rows : list Row) :
  forall (row_id : nat) (s : St),
    canceled_renders s < max_canceled_before_exit ->
    let run := rows_loop H DEBUG_disable_rendering false row_id rows s in
    exists added,
      adds added s (snd run) /\
      calls_below_limit (canceled_renders s) added = true /\
      canceled_renders (snd run) = canceled_renders s + canceled_count added /\
      (canceled_renders (snd run) < max_canceled_before_exit ->
       render_queue_canceled (snd run) = render_queue_canceled s) /\
      (max_canceled_before_exit <= canceled_renders (snd run) ->
       fst run = Ok tt /\ render_queue_canceled (snd run) = true /\
       hd_error added = Some (EvLog WARNING MsgCanceledRenderQueue) /\
       exists k rowProperties s_row,
         nth_error rows k = Some rowProperties /\
         process_row H DEBUG_disable_rendering false (row_id + k) rowProperties s_row =
           (Ok true, snd run) /\
         renderWidth (world (snd run)) = renderWidth (world s_row) /\
         renderHeight (world (snd run)) = renderHeight (world s_row)).
Proof.
  induction rows as [|rowProperties rest IH]; intros row_id s Hbelow; cbv zeta.
  - exists []. cbn. repeat split; try lia.
  - rewrite rows_loop_cons.
    pose proof (process_row_run H DEBUG_disable_rendering false row_id rowProperties s)
      as (formatted_time & l1 & Ha1 & _ & _ & _ & _ & Hc1 & Hlimit & Hok & _).
    destruct (Hlimit Hbelow) as (Hcalls1 & Hend). clear Hlimit.
    assert (Hjoin : forall s1 extra,
              adds extra (snd (process_row H DEBUG_disable_rendering false row_id
                                           rowProperties s)) s1 ->
              Forall is_log extra ->
              canceled_renders s1 < max_canceled_before_exit ->
              canceled_renders s1 = canceled_renders s + canceled_count l1 ->
              render_queue_canceled s1 = render_queue_canceled s ->
              let run := rows_loop H DEBUG_disable_rendering false (S row_id) rest s1 in
              exists added,
                adds added s (snd run) /\
                calls_below_limit (canceled_renders s) added = true /\
                canceled_renders (snd run) = canceled_renders s + canceled_count added /\
                (canceled_renders (snd run) < max_canceled_before_exit ->
                 render_queue_canceled (snd run) = render_queue_canceled s) /\
                (max_canceled_before_exit <= canceled_renders (snd run) ->
                 fst run = Ok tt /\ render_queue_canceled (snd run) = true /\
                 hd_error added = Some (EvLog WARNING MsgCanceledRenderQueue) /\
                 exists k row s_row,
                   nth_error (rowProperties :: rest) k = Some row /\
                   process_row H DEBUG_disable_rendering false (row_id + k) row s_row =
                     (Ok true, snd run) /\
                   renderWidth (world (snd run)) = renderWidth (world s_row) /\
                   renderHeight (world (snd run)) = renderHeight (world s_row))).
    { intros s1 extra Hextra Hlogs Hbelow1 Hcount1 Hqueue1. cbv zeta.
      destruct (IH (S row_id) s1 Hbelow1) as (l2 & Ha2 & Hcalls2 & Hc2 & Hfree & Hstop).
      assert (Hzero : canceled_count extra = 0)
        by (apply inert_canceled_count, log_is_inert, Hlogs).
      exists (l2 ++ extra ++ l1)%list. split; [|split; [|split; [|split]]].
      - eapply adds_app; [|exact Ha2]. eapply adds_app; eauto.
      - rewrite !calls_below_limit_app, !canceled_count_app, Hzero, Hcalls1.
        rewrite (inert_calls_below_limit _ extra) by (apply log_is_inert, Hlogs).
        rewrite Z.add_0_l, <- Hcount1, Hcalls2. reflexivity.
      - rewrite !canceled_count_app, Hzero. lia.
      - intros Hend2. rewrite (Hfree Hend2). exact Hqueue1.
      - intros Hover. destruct (Hstop Hover) as (Hr & Hq & Hhead & k & row & s_row & Hnth & Hrow & Hsizes).
        split; [exact Hr|]. split; [exact Hq|]. split.
        + destruct l2; [discriminate | exact Hhead].
        + exists (S k), row, s_row. split; [exact Hnth|].
          rewrite Nat.add_succ_r. split; assumption. }
    destruct (process_row H DEBUG_disable_rendering false row_id rowProperties s)
      as [[[|]|[msg|kind]] s1] eqn:Hrow; cbn [fst snd] in *.
    + destruct Hend as (_ & Hover & Hqueue & Hhead).
      exists l1. split; [exact Ha1|]. split; [exact Hcalls1|]. split; [exact Hc1|].
      split; [intros Hfree; lia|]. intros _.
      split; [reflexivity|]. split; [exact Hqueue|]. split; [exact Hhead|].
      exists O, rowProperties, s. split; [reflexivity|].
      rewrite Nat.add_0_r. split; [exact Hrow|].
      destruct (Hok true eq_refl) as (_ & Hw & Hh). split; assumption.
    + destruct Hend as (Hbelow1 & Hqueue1).
      apply (Hjoin s1 []); auto. reflexivity.
    + destruct Hend as (Hbelow1 & Hqueue1).
      apply (Hjoin _ [EvLog ERROR (MsgText msg)]); auto; [reflexivity | repeat constructor].
    + destruct Hend as (Hbelow1 & Hqueue1).
      exists l1. split; [exact Ha1|]. split; [exact Hcalls1|]. split; [exact Hc1|].
      split; [intros _; exact Hqueue1 | intros Hover; lia].
Qed.

(** When [check_VFB_settings] asks for the panel to be closed, it has
    opened it. *)
Lemma panel_opened_by_check (H : Host) (s : St) (continue_with_render : bool) :
  fst (check_VFB_settings H false s) = Ok (continue_with_render, true) ->
  renderSceneDialog_isOpen (world (snd (check_VFB_settings H false s))) = true.
Proof.
  unfold check_VFB_settings, bind, get_world, execute, put_world, ret,
    renderSceneDialog_open.
  cbn [fst snd world with_world].
  destruct (PyStr.contains "V_Ray" (renderers_current (world s))); cbn.
  - destruct (rt_execute H (world s) "vfbControl #testresolution") as [w1 v1]; cbn.
    destruct (rt_execute H w1 "vfbControl #trackmouse") as [w2 v2]; cbn.
    destruct (rt_execute H w2 "vfbControl #debugshading") as [w3 v3]; cbn.
    destruct (renderSceneDialog_isOpen w3); cbn;
      destruct (problem_settings_message _) as [t|]; cbn;
      rewrite ?andb_false_r; cbn; intros Heq; try discriminate; reflexivity.
  - discriminate.
Qed.

(** C7. In the commit pass, every call of [rt.render] is made while fewer
    than two frames of the pass have been canceled.  When the counter
    [canceled_renders] has reached 2 at the end, the pass has ended
    normally in the canceled state: [render_queue_canceled] is set,
    [Canceled render queue!] is the last line logged and [main] returns
    nothing; the entry that reached the limit left the render width and
    height as they were when it started, and so they are at the end; and
    the render-settings panel is closed if [check_VFB_settings] had opened
    it for this pass. *)
Theorem cancel_limit_ends_queue (H : Host) (DEBUG_disable_rendering : bool) (total : Z)
        (rows : list Row) (s : St) :
  let run := main_pass H DEBUG_disable_rendering false total rows s in
  let s' := snd run in
  exists added,
    adds added s s' /\
    calls_below_limit 0 added = true /\
    canceled_renders s' = canceled_count added /\
    (max_canceled_before_exit <= canceled_renders s' ->
     fst run = Ok ReturnNone /\
     render_queue_canceled s' = true /\
     hd_error added = Some (EvLog WARNING MsgCanceledRenderQueue) /\
     (opened_panel H total s = true -> renderSceneDialog_isOpen (world s') = false) /\
     exists row_id rowProperties s_row s_end,
       nth_error rows row_id = Some rowProperties /\
       process_row H DEBUG_disable_rendering false row_id rowProperties s_row =
         (Ok true, s_end) /\
       renderWidth (world s_end) = renderWidth (world s_row) /\
       renderHeight (world s_end) = renderHeight (world s_row) /\
       renderWidth (world s') = renderWidth (world s_end) /\
       renderHeight (world s') = renderHeight (world s_end)).
Proof.
  cbv zeta. rewrite main_pass_eq. unfold opened_panel.
  pose proof (quiet_main_start H false (enter_main total s))
    as (_ & Hc0 & l0 & Ha0 & Hl0).
  assert (Hstart : adds l0 s (snd (main_start H false (enter_main total s))))
    by exact Ha0.
  cbn [canceled_renders enter_main] in Hc0.
  assert (Hzero : canceled_count l0 = 0) by (apply inert_canceled_count, log_is_inert, Hl0).
  assert (Hcalls0 : calls_below_limit 0 l0 = true)
    by (apply inert_calls_below_limit, log_is_inert, Hl0).
  destruct (main_start H false (enter_main total s)) as [[[[|] close]|e] s1];
    cbn [fst snd] in *;
    try (exists l0; split; [exact Hstart|]; split; [exact Hcalls0|]; split; [lia|];
         unfold max_canceled_before_exit; intros Hover; lia).
  assert (Hbelow : canceled_renders s1 < max_canceled_before_exit)
    by (unfold max_canceled_before_exit; lia).
  destruct (commit_rows_limit H DEBUG_disable_rendering rows O s1 Hbelow)
    as (l1 & Ha1 & Hcalls1 & Hc1 & _ & Hstop).
  rewrite Hc0 in Hcalls1, Hc1.
  destruct (rows_loop H DEBUG_disable_rendering false O rows s1) as [[[]|e] s2];
    cbn [fst snd] in *.
  - destruct (conclude_step false close s2) as ((Htallies & Hc2 & l2 & Ha2 & Hl2) & Hworld).
    assert (Hzero2 : canceled_count l2 = 0)
      by (apply inert_canceled_count, log_is_inert, Hl2).
    exists (l2 ++ l1 ++ l0)%list. split; [|split; [|split]].
    + eapply adds_app; [|exact Ha2]. eapply adds_app; eauto.
    + rewrite calls_below_limit_app.
      rewrite (inert_calls_below_limit _ l2) by (apply log_is_inert, Hl2).
      rewrite calls_below_limit_app, Hzero. cbn [Z.add].
      rewrite Hcalls0, Hcalls1. reflexivity.
    + rewrite !canceled_count_app, Hzero, Hzero2, Hc2. lia.
    + rewrite Hc2. intros Hover.
      destruct (Hstop Hover) as (_ & Hqueue & Hhead & k & row & s_row & Hnth & Hrow & Hw & Hh).
      assert (Hend : conclude false close s2 =
                     (Ok ReturnNone,
                      if close
                      then with_world (set_renderSceneDialog_isOpen false (world s2)) s2
                      else s2)).
      { unfold conclude; cbv zeta. destruct close; cbn; rewrite Hqueue; reflexivity. }
      rewrite Hend in *. cbn [fst snd] in *.
      assert (Hl2nil : l2 = []).
      { destruct close; unfold adds in Ha2; cbn in Ha2;
          apply (app_inv_tail (trace s2) l2 []); symmetry; exact Ha2. }
      subst l2.
      split; [reflexivity|].
      split; [destruct close; cbn; exact Hqueue|].
      split; [cbn; destruct l1; [discriminate | exact Hhead]|].
      split; [intros ->; reflexivity|].
      exists k, row, s_row, s2. cbn [Nat.add] in Hrow.
      repeat split; try assumption; destruct close; reflexivity.
  - exists (l1 ++ l0)%list. split; [eapply adds_app; eauto|]. split; [|split].
    + rewrite calls_below_limit_app, Hzero. cbn [Z.add].
      rewrite Hcalls0, Hcalls1. reflexivity.
    + rewrite canceled_count_app, Hzero. lia.
    + intros Hover. destruct (Hstop Hover) as (Habs & _). discriminate.
Qed.

Lemma cancel_limit_ends_queue_witness :
  max_canceled_before_exit <= canceled_renders (snd canceled_pass) /\
  fst canceled_pass = Ok ReturnNone /\
  render_queue_canceled (snd canceled_pass) = true /\
  List.length (render_calls (trace (snd canceled_pass))) = 2%nat /\
  renderSceneDialog_isOpen (world (snd canceled_pass)) = false.
Proof.
  unfold canceled_pass.
  destruct (cancel_limit_ends_queue (Sim.host Sim.render_canceled) false 2 two_long_rows
              (initial_state (Sim.scene [] (Some []))))
    as (added & _ & _ & _ & Hstop).
  set (run := main_pass (Sim.host Sim.render_canceled) false false 2 two_long_rows
                        (initial_state (Sim.scene [] (Some [])))) in *.
  assert (Hover : max_canceled_before_exit <= canceled_renders (snd run))
    by (vm_compute; discriminate).
  destruct (Hstop Hover) as (Hvalue & Hqueue & _ & Hpanel & _).
  split; [exact Hover|]. split; [exact Hvalue|]. split; [exact Hqueue|].
  split; [vm_compute; reflexivity | apply Hpanel; vm_compute; reflexivity].
Defined.

(** ** The pixel aspect of an entry *)

Lemma pixel_aspect_override_assigns (pixel_aspect : string) (s : St) :
  String.eqb pixel_aspect "Default" = false ->
  get_pixel_aspect pixel_aspect s =
  (Ok pixel_aspect, with_world (set_renderPixelAspect pixel_aspect (world s)) s).
Proof.
  intros Hoverride. unfold get_pixel_aspect, bind, get_world, put_world, ret.
  rewrite Hoverride. reflexivity.
Qed.

(** What [main] puts back after the frames of an entry is the render
    width and height; the pixel aspect stays as the entry set it. *)
Lemma restored_sizes_keep_pixel_aspect (width height : Z) (w : World) :
  renderPixelAspect (set_renderSize width height w) = renderPixelAspect w.
Proof. reflexivity. Qed.

(** C6. An entry with the pixel-aspect override 2.0 is followed by an
    entry without override, in a scene whose pixel aspect is 1.0.  When
    the frames of the first entry are done the global pixel aspect is 2.0,
    not the 1.0 from before the entry, and in the run the second entry is
    rendered with the pixel aspect 2.0 as well. *)
Theorem pixel_aspect_override_is_kept :
  map Pixel_Aspect override_rows = ["2.0"; "Default"] /\
  renderPixelAspect (Sim.scene [] None) = "1.0" /\
  fst override_first_entry = Ok false /\
  renderPixelAspect (world (snd override_first_entry)) = "2.0" /\
  fst override_run = Ok ReturnTrue /\
  map rc_pixelaspect (render_calls (history (snd override_run))) = ["2.0"; "2.0"].
Proof. repeat split; vm_compute; reflexivity. Qed.

Lemma find_node_some (nodes : list (string * option string)) (unique_id : option string)
      (node : string) :
  find_node nodes unique_id = Some node ->
  exists u, unique_id = Some u /\ u <> "" /\ In (node, Some u) nodes.
Proof.
  induction nodes as [|[n [object_id|]] rest IH]; cbn; [discriminate| |].
  - destruct (nonempty object_id) eqn:Hnonempty; cbn.
    + destruct unique_id as [u|].
      * destruct (String.eqb object_id u) eqn:Heq.
        -- intros Hfound; injection Hfound as <-.
           apply String.eqb_eq in Heq; subst u.
           exists object_id. split; [reflexivity|]. split; [|left; reflexivity].
           intros ->. discriminate Hnonempty.
        -- intros Hrest. destruct (IH Hrest) as (u' & Hu & Hne & Hin).
           exists u'. auto.
      * intros Hrest. destruct (IH Hrest) as (u' & Hu & Hne & Hin). exists u'; auto.
    + intros Hrest. destruct (IH Hrest) as (u' & Hu & Hne & Hin). exists u'; auto.
  - intros Hrest. destruct (IH Hrest) as (u' & Hu & Hne & Hin). exists u'; auto.
Qed.

Lemma nonempty_true (u : string) : u <> "" -> nonempty u = true.
Proof. destruct u; [contradiction | reflexivity]. Qed.

Lemma find_node_first (before after : list (string * option string)) (node u : string) :
  u <> "" ->
  (forall other, ~ In (other, Some u) before) ->
  find_node (before ++ (node, Some u) :: after) (Some u) = Some node.
Proof.
  intros Hne. induction before as [|[n [object_id|]] rest IH]; intros Hfirst; cbn.
  - rewrite (nonempty_true u Hne), String.eqb_refl. reflexivity.
  - destruct (String.eqb object_id u) eqn:Heq.
    + apply String.eqb_eq in Heq; subst object_id.
      exfalso. apply (Hfirst n). left; reflexivity.
    + rewrite andb_false_r. apply IH. intros other Hin. apply (Hfirst other). right; exact Hin.
  - apply IH. intros other Hin. apply (Hfirst other). right; exact Hin.
Qed.

(** X1.  [get_item_by_id] returns the first object of the scene that
    carries the unique id asked for, and changes nothing: the objects
    before it, without id or with another id, are passed over. *)
Theorem get_item_by_id_returns_first_match
        (before after : list (string * option string)) (node u : string) (s : St) :
  u <> "" ->
  objects (world s) = (before ++ (node, Some u) :: after)%list ->
  (forall other, ~ In (other, Some u) before) ->
  get_item_by_id (Some u) s = (Ok node, s).
Proof.
  intros Hne Hobjects Hfirst.
  unfold get_item_by_id, bind, get_world, ret.
  rewrite Hobjects, (find_node_first before after node u Hne Hfirst). reflexivity.
Qed.

Lemma get_item_by_id_returns_first_match_witness :
  get_item_by_id (Some "id-3")
    (initial_state (Sim.scene [] None)) = (Ok "Cam03", initial_state (Sim.scene [] None)).
Proof.
  apply (get_item_by_id_returns_first_match [("Cam01", Some "id-1")] [] "Cam03" "id-3").
  - discriminate.
  - reflexivity.
  - intros other [Heq|[]]. discriminate Heq.
Defined.

(** X2.  [get_item_by_id] raises [ValueError] when no object of the
    scene carries the id asked for, and changes nothing.  So it is for
    the id [None] and for the empty id, which no object can carry,
    whatever the scene.  The message shows the id between double quotes,
    [None] written out. *)
Theorem get_item_by_id_unknown_id_raises (unique_id : option string) (s : St) :
  (forall u node, unique_id = Some u -> u <> "" -> ~ In (node, Some u) (objects (world s))) ->
  get_item_by_id unique_id s =
  (Raise (ValueError ("No object could not be found by unique ID " ++
                      dquote ++ show_id unique_id ++ dquote)), s).
Proof.
  intros Hunknown. unfold get_item_by_id, bind, get_world, raise.
  destruct (find_node (objects (world s)) unique_id) as [node|] eqn:Hfind; [|reflexivity].
  apply find_node_some in Hfind as (u & Hu & Hne & Hin).
  exfalso. exact (Hunknown u node Hu Hne Hin).
Qed.

Lemma get_item_by_id_unknown_id_raises_witness :
  fst (get_item_by_id None (initial_state (Sim.scene [] None))) =
  Raise (ValueError ("No object could not be found by unique ID " ++ dquote ++ "None" ++ dquote)).
Proof.
  rewrite get_item_by_id_unknown_id_raises; [reflexivity|].
  intros u node Hu. discriminate Hu.
Defined.

Lemma scan_log_skips_older_lines (H : Host) (time_of_render : datetime) (lines : list string) :
  Forall (fun raw => exists stamp, line_stamp H raw = Some stamp /\
                                   datetime_leb time_of_render stamp = false) lines ->
  scan_log H time_of_render lines = Ok None.
Proof.
  induction 1 as [|raw rest (stamp & Hstamp & Holder) _ IH]; [reflexivity|].
  unfold line_stamp in Hstamp. cbn [scan_log].
  destruct (search_bracket (PyStr.strip raw)) as [text|]; [|discriminate].
  rewrite Hstamp, Holder. exact IH.
Qed.

(** X3.  A render that the host reports as canceled, with a V-Ray log
    whose lines all carry a timestamp before the start of the render, is
    classed as canceled: [were_there_render_errors] passes over the older
    lines whatever they say, and [do_render] returns 1 after the one
    warning that the render was canceled. *)
Theorem canceled_render_ignores_older_log_lines
        (H : Host) (camera : string) (frame : Z) (outputfile_exr outputfile_png : string)
        (pixel_aspect : string) (image_width image_height : Z) (s : St) (lines : list string) :
  let call := {| rc_camera := camera; rc_frame := frame;
                 rc_outputwidth := image_width; rc_outputheight := image_height;
                 rc_pixelaspect := pixel_aspect; rc_outputfile := outputfile_exr |} in
  reported_canceled H call s = true ->
  vraylog (world (rendered H call s)) = Some lines ->
  Forall (fun raw => exists stamp, line_stamp H raw = Some stamp /\
                                   datetime_leb (clock (world s)) stamp = false) lines ->
  do_render H camera frame outputfile_exr outputfile_png pixel_aspect
            image_width image_height s =
  (Ok 1, add_event (EvLog WARNING MsgRenderCanceled) (rendered H call s)).
Proof.
  intros call Hcanceled Hlog Holder.
  apply scan_log_skips_older_lines in Holder.
  unfold do_render, bind, get_world, emit, put_world, were_there_render_errors,
    lift, log, ret.
  fold call. unfold rendered, reported_canceled in *.
  destruct (rt_render H (world s) call) as [w' canceled]; cbn in *.
  subst canceled; cbn. rewrite Hlog, Holder; reflexivity.
Qed.

Lemma canceled_render_ignores_older_log_lines_witness :
  fst (do_render (Sim.host Sim.render_canceled) "Cam01" 1 "C:\out\shot.exr" "C:\out\shot.png"
                 "1.0" 1920 1080
                 (initial_state
                    (Sim.scene [] (Some ["[2024/Jan/01|11:00:00] error: Out of memory"])))) =
  Ok 1.
Proof.
  rewrite (canceled_render_ignores_older_log_lines
             (Sim.host Sim.render_canceled) "Cam01" 1 "C:\out\shot.exr" "C:\out\shot.png"
             "1.0" 1920 1080
             (initial_state
                (Sim.scene [] (Some ["[2024/Jan/01|11:00:00] error: Out of memory"])))
             ["[2024/Jan/01|11:00:00] error: Out of memory"]).
  - reflexivity.
  - reflexivity.
  - reflexivity.
  - constructor; [|constructor].
    exists {| year := 2024; month := 1; day := 1; hour := 11; minute := 0; second := 0;
              microsecond := 0 |}.
    split; vm_compute; reflexivity.
Defined.

Lemma fresh_output_file_is_success_witness :
  fst (do_render (Sim.host Sim.render_ok) "Cam01" 1 "C:\out\shot.exr" "C:\out\shot.png"
                 "1.0" 1920 1080 (initial_state (Sim.scene [] None))) = Ok 0.
Proof.
  apply (fresh_output_file_is_success (Sim.host Sim.render_ok) "Cam01" 1 "C:\out\shot.exr"
           "C:\out\shot.png" "1.0" 1920 1080 (initial_state (Sim.scene [] None))
           (1000 + inject_Z 5)%Q).
  - reflexivity.
  - vm_compute; reflexivity.
  - vm_compute. intros Hle. apply Hle. reflexivity.
Defined.

Lemma missing_output_file_is_failed_witness :
  fst (do_render (Sim.host Sim.render_nothing) "Cam01" 1 "C:\out\shot.exr" "C:\out\shot.png"
                 "1.0" 1920 1080 (initial_state (Sim.scene [] None))) = Ok 2.
Proof.
  apply (missing_output_file_is_failed (Sim.host Sim.render_nothing) "Cam01" 1
           "C:\out\shot.exr" "C:\out\shot.png" "1.0" 1920 1080
           (initial_state (Sim.scene [] None)));
    vm_compute; reflexivity.
Defined.

Lemma do_render_trace
      (H : Host) (camera : string) (frame : Z) (outputfile_exr outputfile_png : string)
      (pixel_aspect : string) (image_width image_height : Z) (s : St) :
  let call := {| rc_camera := camera; rc_frame := frame;
                 rc_outputwidth := image_width; rc_outputheight := image_height;
                 rc_pixelaspect := pixel_aspect; rc_outputfile := outputfile_exr |} in
  exists logged,
    trace (snd (do_render H camera frame outputfile_exr outputfile_png pixel_aspect
                          image_width image_height s)) =
    (logged ++ EvRenderCall call :: trace s)%list /\ Forall is_log logged.
Proof.
  cbv zeta. set (call := {| rc_camera := camera |}).
  unfold do_render. unfold bind at 1. cbn [get_world]. cbv beta iota zeta.
  fold call. unfold bind at 1. cbn [emit]. cbv beta iota.
  destruct (rt_render H (world s) call) as [w' canceled].
  match goal with
  | |- context [snd (?m (add_event _ s))] =>
      assert (Hquiet : steps quiet_step m)
  end.
  { pose proof (quiet_execute H). pose proof (quiet_check_output_file).
    pose proof (quiet_were_there_render_errors H). quiet. }
  destruct (Hquiet (add_event (EvRenderCall call) s)) as (_ & _ & logged & Hadds & Hlogs).
  exists logged. split; [exact Hadds | exact Hlogs].
Qed.

(** ** The check of the frame-buffer settings *)

Lemma check_commit_continues (H : Host) (s : St) :
  exists close_renderSceneDialog,
    fst (check_VFB_settings H false s) = Ok (true, close_renderSceneDialog) /\
    trace (snd (check_VFB_settings H false s)) = trace s.
Proof.
  unfold check_VFB_settings, bind, get_world, execute, put_world, ret,
    renderSceneDialog_open.
  cbn [fst snd world with_world].
  destruct (PyStr.contains "V_Ray" (renderers_current (world s))); cbn.
  - destruct (rt_execute H (world s) "vfbControl #testresolution") as [w1 v1]; cbn.
    destruct (rt_execute H w1 "vfbControl #trackmouse") as [w2 v2]; cbn.
    destruct (rt_execute H w2 "vfbControl #debugshading") as [w3 v3]; cbn.
    destruct (renderSceneDialog_isOpen w3); cbn;
      destruct (problem_settings_message _) as [t|]; cbn;
      rewrite ?andb_false_r; cbn; eexists; split; reflexivity.
  - eexists; split; reflexivity.
Qed.

(** X7.  In the commit pass [check_VFB_settings] never stops the run and asks
    nothing: it returns [continue_with_render = True] whatever the
    renderer and the frame-buffer settings are, and logs no answer.  It
    asks for the render-settings panel to be closed only when it has
    opened it, and with another renderer than V-Ray it leaves the host as
    it is. *)
Theorem commit_check_never_blocks (H : Host) (s : St) :
  let checked := check_VFB_settings H false s in
  exists close_renderSceneDialog,
    fst checked = Ok (true, close_renderSceneDialog) /\
    trace (snd checked) = trace s /\
    (close_renderSceneDialog = true ->
     renderSceneDialog_isOpen (world (snd checked)) = true) /\
    (PyStr.contains "V_Ray" (renderers_current (world s)) = false ->
     close_renderSceneDialog = false /\ snd checked = s).
Proof.
  cbv zeta. destruct (check_commit_continues H s) as (close & Hvalue & Htrace).
  exists close. split; [exact Hvalue|]. split; [exact Htrace|]. split.
  - intros ->. apply (panel_opened_by_check H s true Hvalue).
  - intros Hother. revert Hvalue.
    unfold check_VFB_settings, bind, get_world, ret.
    cbn [fst snd]. rewrite Hother. cbn.
    intros Hvalue; injection Hvalue as <-. split; reflexivity.
Qed.

(** X8.  When the user declines to go on at the check of the settings, [main]
    returns [None] at once: no row is read, and the state is the one the
    check left, the render-settings panel as the check left it.  A commit
    run whose pre-check is declined so ends there. *)
Theorem declined_check_ends_run (H : Host) (DEBUG_disable_rendering : bool)
        (rows : list Row) (s0 : St) (close_renderSceneDialog : bool) :
  let s := before_pre_check s0 in
  let checked := main_start H true (enter_main 0 s) in
  fst checked = Ok (false, close_renderSceneDialog) ->
  main_pass H DEBUG_disable_rendering true 0 rows s = (Ok ReturnNone, snd checked) /\
  start_batch_render H DEBUG_disable_rendering false rows s0 = (Ok ReturnNone, snd checked) /\
  exists added, adds added s0 (snd checked) /\ Forall is_log added.
Proof.
  cbv zeta. intros Hdeclined.
  assert (Hpass : main_pass H DEBUG_disable_rendering true 0 rows (before_pre_check s0) =
                  (Ok ReturnNone,
                   snd (main_start H true (enter_main 0 (before_pre_check s0))))).
  { rewrite main_pass_eq.
    destruct (main_start H true (enter_main 0 (before_pre_check s0)))
      as [[[continue_with_render close]|e] s1]; cbn [fst snd] in *; [|discriminate].
    injection Hdeclined as -> ->. reflexivity. }
  split; [exact Hpass|]. split.
  - unfold start_batch_render. cbn [negb]. unfold bind at 1.
    change (log INFO MsgStartingPreCheck s0) with (Ok tt, before_pre_check s0).
    cbv beta iota. unfold bind at 1. rewrite Hpass. reflexivity.
  - destruct (quiet_main_start H true (enter_main 0 (before_pre_check s0)))
      as (_ & _ & added & Hadds & Hlogs).
    exists (added ++ [EvLog INFO MsgStartingPreCheck])%list. split.
    + unfold adds in *. rewrite Hadds. cbn. rewrite <- app_assoc. reflexivity.
    + apply Forall_app; split; [exact Hlogs | repeat constructor].
Qed.

Lemma declined_check_ends_run_witness :
  start_batch_render declining_host false false two_rows (initial_state (Sim.scene [] None)) =
  (Ok ReturnNone,
   snd (main_start declining_host true
          (enter_main 0 (before_pre_check (initial_state (Sim.scene [] None)))))) /\
  render_calls (trace (snd (start_batch_render declining_host false false two_rows
                              (initial_state (Sim.scene [] None))))) = [].
Proof.
  destruct (declined_check_ends_run declining_host false two_rows
              (initial_state (Sim.scene [] None)) true) as (_ & Hrun & _).
  - vm_compute; reflexivity.
  - split; [exact Hrun | vm_compute; reflexivity].
Defined.

(** ** What a pass renders *)

Lemma render_calls_app (l2 l1 : list event) :
  render_calls (l2 ++ l1) = (render_calls l2 ++ render_calls l1)%list.
Proof.
  induction l2 as [|e l2 IH]; cbn; [reflexivity|].
  destruct e; cbn; rewrite IH; reflexivity.
Qed.

Lemma check_rows_inert (H : Host) (DEBUG_disable_rendering : bool) (rows : list Row) :
  forall (row_id : nat) (s : St),
    exists added,
      adds added s (snd (rows_loop H DEBUG_disable_rendering true row_id rows s)) /\
      Forall is_inert added /\
      canceled_renders (snd (rows_loop H DEBUG_disable_rendering true row_id rows s)) =
        canceled_renders s.
Proof.
  induction rows as [|rowProperties rest IH]; intros row_id s.
  - exists []. cbn. repeat split. constructor.
  - rewrite rows_loop_cons.
    pose proof (process_row_run H DEBUG_disable_rendering true row_id rowProperties s)
      as (formatted_time & l1 & Ha1 & _ & Hinert & _ & _ & Hc1 & _).
    specialize (Hinert eq_refl).
    rewrite (inert_canceled_count l1 Hinert), Z.add_0_r in Hc1.
    destruct (process_row H DEBUG_disable_rendering true row_id rowProperties s)
      as [[[|]|[msg|kind]] s1]; cbn [fst snd] in *.
    + exists l1. auto.
    + destruct (IH (S row_id) s1) as (l2 & Ha2 & Hi2 & Hc2).
      exists (l2 ++ l1)%list. split; [eapply adds_app; eauto|].
      split; [apply Forall_app; auto | congruence].
    + destruct (IH (S row_id)
                   (set_python_render_error (add_event (EvLog ERROR (MsgText msg)) s1)))
        as (l2 & Ha2 & Hi2 & Hc2).
      exists (l2 ++ EvLog ERROR (MsgText msg) :: l1)%list. split; [|split].
      * unfold adds in *. rewrite Ha2. cbn. rewrite Ha1, <- app_assoc. reflexivity.
      * apply Forall_app; split; [exact Hi2 | constructor; [exact I | exact Hinert]].
      * rewrite Hc2. exact Hc1.
    + exists l1. auto.
Qed.

(** X9.  A pre-check pass renders nothing: whatever the rows and the host,
    [main] with [pre_check] set makes no call of [rt.render], counts no
    canceled frame, and leaves only log lines and the file names it
    allocated. *)
Theorem pre_check_renders_nothing (H : Host) (DEBUG_disable_rendering : bool) (total : Z)
        (rows : list Row) (s : St) :
  let s' := snd (main_pass H DEBUG_disable_rendering true total rows s) in
  exists added,
    adds added s s' /\ Forall is_inert added /\
    render_calls (trace s') = render_calls (trace s) /\
    canceled_renders s' = 0.
Proof.
  cbv zeta.
  assert (Hparts : exists added,
             adds added s (snd (main_pass H DEBUG_disable_rendering true total rows s)) /\
             Forall is_inert added /\
             canceled_renders (snd (main_pass H DEBUG_disable_rendering true total rows s)) = 0).
  { rewrite main_pass_eq.
    destruct (quiet_main_start H true (enter_main total s))
      as (_ & Hc0 & l0 & Ha0 & Hl0).
    cbn [canceled_renders enter_main] in Hc0.
    assert (Hstart : adds l0 s (snd (main_start H true (enter_main total s))))
      by exact Ha0.
    destruct (main_start H true (enter_main total s)) as [[[[|] close]|e] s1];
      cbn [fst snd] in *;
      try (exists l0; split; [exact Hstart|]; split; [apply log_is_inert, Hl0 | exact Hc0]).
    destruct (check_rows_inert H DEBUG_disable_rendering rows O s1) as (l1 & Ha1 & Hi1 & Hc1).
    destruct (rows_loop H DEBUG_disable_rendering true O rows s1) as [[[]|e] s2];
      cbn [fst snd] in *.
    - destruct (conclude_step true close s2) as ((_ & Hc2 & l2 & Ha2 & Hl2) & _).
      exists (l2 ++ l1 ++ l0)%list. split; [|split].
      + eapply adds_app; [|exact Ha2]. eapply adds_app; eauto.
      + repeat (apply Forall_app; split); auto using log_is_inert.
      + congruence.
    - exists (l1 ++ l0)%list. split; [eapply adds_app; eauto|].
      split; [apply Forall_app; auto using log_is_inert | congruence]. }
  destruct Hparts as (added & Hadds & Hinert & Hcount).
  exists added. split; [exact Hadds|]. split; [exact Hinert|]. split; [|exact Hcount].
  rewrite Hadds, render_calls_app, (inert_render_calls added Hinert). reflexivity.
Qed.

Lemma rows_loop_skips_unused (H : Host) (DEBUG_disable_rendering pre_check : bool)
      (rows : list Row) :
  Forall (fun rowProperties => Use rowProperties = false) rows ->
  forall (row_id : nat) (s : St),
    rows_loop H DEBUG_disable_rendering pre_check row_id rows s = (Ok tt, s).
Proof.
  induction 1 as [|rowProperties rest Hunused _ IH]; intros row_id s; [reflexivity|].
  rewrite rows_loop_cons. unfold process_row. rewrite Hunused. cbn. apply IH.
Qed.

Lemma check_of_unused_rows (H : Host) (DEBUG_disable_rendering : bool)
      (rows : list Row) (s : St) :
  Forall (fun rowProperties => Use rowProperties = false) rows ->
  let run := main_pass H DEBUG_disable_rendering true 0 rows s in
  (forall value, fst run = Ok value -> value = ReturnInt 0 \/ value = ReturnNone) /\
  exists added, adds added s (snd run) /\ Forall is_log added.
Proof.
  intros Hunused. cbv zeta. rewrite main_pass_eq.
  destruct (quiet_main_start H true (enter_main 0 s))
    as ((Ht0 & _ & He0 & _) & _ & l0 & Ha0 & Hl0).
  cbn [total_rows_to_render python_render_error enter_main] in Ht0, He0.
  assert (Hstart : adds l0 s (snd (main_start H true (enter_main 0 s))))
    by exact Ha0.
  destruct (main_start H true (enter_main 0 s)) as [[[[|] close]|e] s1];
    cbn [fst snd] in *.
  - rewrite (rows_loop_skips_unused H DEBUG_disable_rendering true rows Hunused O s1).
    destruct (conclude_step true close s1) as ((_ & _ & l1 & Ha1 & Hl1) & _).
    split.
    + unfold conclude; cbv zeta.
      destruct close; cbn; rewrite He0, Ht0; cbn;
        intros value Hvalue; injection Hvalue as <-; left; reflexivity.
    + exists (l1 ++ l0)%list. split; [eapply adds_app; eauto | apply Forall_app; auto].
  - split; [intros value Hvalue; injection Hvalue as <-; right; reflexivity | eauto].
  - split; [discriminate | eauto].
Qed.

(** X10.  With no row in use a commit run stops after its pre-check: the
    pre-check counts zero rows to render, [main] takes the zero for
    [False] and returns [None], and nothing but log lines is left, no file
    name allocated and no render called. *)
Theorem no_row_in_use_renders_nothing (H : Host) (DEBUG_disable_rendering : bool)
        (rows : list Row) (s0 : St) :
  Forall (fun rowProperties => Use rowProperties = false) rows ->
  let run := start_batch_render H DEBUG_disable_rendering false rows s0 in
  (forall value, fst run = Ok value -> value = ReturnNone) /\
  exists added, adds added s0 (snd run) /\ Forall is_log added.
Proof.
  intros Hunused. cbv zeta.
  unfold start_batch_render. cbn [negb]. unfold bind.
  change (log INFO MsgStartingPreCheck s0) with (Ok tt, before_pre_check s0).
  cbv beta iota.
  destruct (check_of_unused_rows H DEBUG_disable_rendering rows (before_pre_check s0) Hunused)
    as (Hvalue & l1 & Ha1 & Hl1).
  cbv zeta in Hvalue.
  assert (Hadds : adds (l1 ++ [EvLog INFO MsgStartingPreCheck]) s0
                       (snd (main_pass H DEBUG_disable_rendering true 0 rows
                                       (before_pre_check s0)))).
  { unfold adds in *. rewrite Ha1. cbn. rewrite <- app_assoc. reflexivity. }
  assert (Hlogs : Forall is_log (l1 ++ [EvLog INFO MsgStartingPreCheck])%list)
    by (apply Forall_app; split; [exact Hl1 | repeat constructor]).
  destruct (main_pass H DEBUG_disable_rendering true 0 rows (before_pre_check s0))
    as [[value|e] s1]; cbn [fst snd] in *.
  - destruct (Hvalue value eq_refl) as [-> | ->]; cbn.
    + split; [intros v Hv; injection Hv as <-; reflexivity | eauto].
    + split; [intros v Hv; injection Hv as <-; reflexivity | eauto].
  - split; [discriminate | eauto].
Qed.

Lemma no_row_in_use_renders_nothing_witness :
  let rows := [{| Use := false; Name := "A"; Camera := "Cam"; Camera_Hidden := Some "id-1";
                  Output_Path := DEFAULT_PATH_TEXT; Range := "Default";
                  Resolution := "Default"; Pixel_Aspect := "Default"; Scene_State := "";
                  Render_Preset := ""; Layer_Preset := "" |}] in
  let run := start_batch_render (Sim.host Sim.render_ok) false false rows
               (initial_state (Sim.scene [] None)) in
  fst run = Ok ReturnNone /\
  (forall value, fst run = Ok value -> value = ReturnNone) /\
  exists added, adds added (initial_state (Sim.scene [] None)) (snd run) /\
                Forall is_log added.
Proof.
  cbv zeta. split; [vm_compute; reflexivity|].
  apply (no_row_in_use_renders_nothing (Sim.host Sim.render_ok) false).
  repeat constructor.
Defined.

Lemma start_commit_continues (H : Host) (s : St) :
  (exists e, fst (main_start H false s) = Raise e) \/
  exists close_renderSceneDialog,
    fst (main_start H false s) = Ok (true, close_renderSceneDialog).
Proof.
  unfold main_start, bind.
  destruct (saveDialogData H s) as [[[]|e] s0]; cbn [fst]; [|left; eauto].
  destruct (check_commit_continues H s0) as (close & Hcheck & _).
  destruct (check_VFB_settings H false s0) as [r s1]; cbn [fst] in *. right; eauto.
Qed.

Lemma commit_pass_done (H : Host) (DEBUG_disable_rendering : bool)
      (total : Z) (rows : list Row) (s : St) (value : return_value) :
  let run := main_pass H DEBUG_disable_rendering false total rows s in
  fst run = Ok value ->
  canceled_renders (snd run) < max_canceled_before_exit ->
  value = ReturnTrue /\
  hd_error (trace (snd run)) = Some (EvLog INFO MsgRenderingDone) /\
  render_queue_canceled (snd run) = false.
Proof.
  cbv zeta. rewrite main_pass_eq.
  destruct (quiet_main_start H false (enter_main total s))
    as ((_ & _ & _ & Hq0) & Hc0 & _).
  cbn [canceled_renders render_queue_canceled enter_main] in Hc0, Hq0.
  destruct (start_commit_continues H (enter_main total s))
    as [(e & Hcheck) | (close & Hcheck)];
    destruct (main_start H false (enter_main total s)) as [r s1]; cbn [fst snd] in *;
    subst r; [discriminate|].
  assert (Hbelow : canceled_renders s1 < max_canceled_before_exit)
    by (unfold max_canceled_before_exit; lia).
  destruct (commit_rows_limit H DEBUG_disable_rendering rows O s1 Hbelow)
    as (l1 & _ & _ & _ & Hfree & _).
  destruct (rows_loop H DEBUG_disable_rendering false O rows s1) as [[[]|e] s2];
    cbn [fst snd] in *; [|discriminate].
  destruct (conclude_step false close s2) as ((_ & Hc2 & _) & _).
  rewrite Hc2. intros Hvalue Hend. specialize (Hfree Hend). rewrite Hq0 in Hfree.
  revert Hvalue. unfold conclude; cbv zeta.
  destruct close; cbn; rewrite Hfree; cbn;
    intros Hvalue; injection Hvalue as <-; repeat split; exact Hfree.
Qed.

(** X11.  A commit pass that ends with fewer than two canceled frames ends
    with [Rendering done!] and returns [True], whatever happened to its
    entries: an entry that failed with a [ValueError] and a frame whose
    render failed change neither the message nor the value. *)
Theorem commit_pass_below_limit_is_done (H : Host) (DEBUG_disable_rendering : bool)
        (total : Z) (rows : list Row) (s : St) (value : return_value) :
  let run := main_pass H DEBUG_disable_rendering false total rows s in
  fst run = Ok value ->
  canceled_renders (snd run) < max_canceled_before_exit ->
  value = ReturnTrue /\
  hd_error (trace (snd run)) = Some (EvLog INFO MsgRenderingDone) /\
  render_queue_canceled (snd run) = false.
Proof. apply commit_pass_done. Qed.

Lemma commit_pass_below_limit_is_done_witness :
  let run := main_pass (Sim.host Sim.render_nothing) false false 3 three_rows
                       (initial_state (Sim.scene [] None)) in
  python_render_error (snd run) = true /\
  fst run = Ok ReturnTrue /\
  hd_error (trace (snd run)) = Some (EvLog INFO MsgRenderingDone).
Proof.
  cbv zeta.
  destruct (commit_pass_below_limit_is_done (Sim.host Sim.render_nothing) false 3 three_rows
              (initial_state (Sim.scene [] None)) ReturnTrue) as (_ & Hlast & _).
  - vm_compute; reflexivity.
  - vm_compute; reflexivity.
  - split; [vm_compute; reflexivity|]. split; [vm_compute; reflexivity | exact Hlast].
Defined.

(** X12.  An entry that ends without exception leaves [rt.renderWidth] and
    [rt.renderHeight] as it found them, in the pre-check as in the commit
    pass, whatever the presets it loaded and its renders did to them. *)
Theorem entry_restores_render_size (H : Host) (DEBUG_disable_rendering pre_check : bool)
        (row_id : nat) (rowProperties : Row) (s : St) (left_loop : bool) :
  let run := process_row H DEBUG_disable_rendering pre_check row_id rowProperties s in
  fst run = Ok left_loop ->
  renderWidth (world (snd run)) = renderWidth (world s) /\
  renderHeight (world (snd run)) = renderHeight (world s).
Proof.
  cbv zeta. intros Hok.
  pose proof (process_row_run H DEBUG_disable_rendering pre_check row_id rowProperties s)
    as (formatted_time & added & _ & _ & _ & _ & _ & _ & _ & Hsizes & _).
  destruct (Hsizes left_loop Hok) as (_ & Hwidth & Hheight). split; assumption.
Qed.

Lemma entry_restores_render_size_witness :
  let s := initial_state (Sim.scene [] None) in
  let run := process_row resizing_host false false 0 preset_row s in
  renderWidth (world (snd (get_and_set_render_preset resizing_host "draft.rps" s))) = 640 /\
  renderWidth (world (snd run)) = renderWidth (world s) /\
  renderHeight (world (snd run)) = renderHeight (world s).
Proof.
  cbv zeta. split; [reflexivity|].
  apply (entry_restores_render_size resizing_host false false 0 preset_row
           (initial_state (Sim.scene [] None)) false).
  vm_compute; reflexivity.
Defined.

(** ** Exceptions of the entries *)

Ltac no_value :=
  repeat first
    [ assumption
    | apply no_value_error_ret
    | apply no_value_error_warn
    | apply no_value_error_bind; [|intros ?]
    | progress cbv zeta
    | match goal with
      | |- no_value_error (if ?c then _ else _) => destruct c
      | |- no_value_error (match ?x with _ => _ end) => destruct x
      | |- no_value_error _ => intros ? ?; discriminate
      end ].

Lemma no_value_error_check_VFB_settings (H : Host) (pre_check : bool) :
  no_value_error (check_VFB_settings H pre_check).
Proof. unfold check_VFB_settings, execute, renderSceneDialog_open. no_value. Qed.

Lemma no_value_error_rows_loop (H : Host) (DEBUG_disable_rendering pre_check : bool)
      (rows : list Row) :
  forall row_id, no_value_error (rows_loop H DEBUG_disable_rendering pre_check row_id rows).
Proof.
  induction rows as [|rowProperties rest IH]; intros row_id s msg.
  - discriminate.
  - rewrite rows_loop_cons.
    destruct (process_row H DEBUG_disable_rendering pre_check row_id rowProperties s)
      as [[[|]|[text|kind]] s1]; try discriminate; apply IH.
Qed.

(** A [ValueError] that leaves [main] is one of [saveDialogData]. *)
Lemma main_pass_value_error (H : Host) (DEBUG_disable_rendering pre_check : bool)
      (total : Z) (rows : list Row) (s : St) (msg : string) :
  fst (main_pass H DEBUG_disable_rendering pre_check total rows s) = Raise (ValueError msg) ->
  fst (saveDialogData H (enter_main total s)) = Raise (ValueError msg).
Proof.
  rewrite main_pass_eq. unfold main_start, bind.
  destruct (saveDialogData H (enter_main total s)) as [[[]|e0] s0]; cbn [fst];
    [|intros Heq; injection Heq as ->; reflexivity].
  pose proof (no_value_error_check_VFB_settings H pre_check s0 msg) as Hcheck.
  destruct (check_VFB_settings H pre_check s0) as [[[[|] close]|e] s1];
    cbn [fst] in *; try discriminate;
    [|intros Heq; exfalso; apply Hcheck; injection Heq as ->; reflexivity].
  pose proof (no_value_error_rows_loop H DEBUG_disable_rendering pre_check rows O s1 msg)
    as Hrows.
  destruct (rows_loop H DEBUG_disable_rendering pre_check O rows s1) as [[[]|e] s2];
    cbn [fst] in *; [|intros Heq; exfalso; apply Hrows; injection Heq as ->; reflexivity].
  unfold conclude; cbv zeta.
  repeat match goal with |- context [if ?c then _ else _] => destruct c end; discriminate.
Qed.

Lemma saveDialogData_value_error (H : Host) (s : St) (msg : string) :
  fst (saveDialogData H s) = Raise (ValueError msg) ->
  snd (saveDialogData_run H (world s)) = Raise (ValueError msg).
Proof.
  unfold saveDialogData, bind, get_world, put_world, lift, log, ret. cbn [fst snd].
  destruct (saveDialogData_run H (world s)) as [w' [[data|]|e]]; cbn;
    try discriminate. intros Heq; injection Heq as ->; reflexivity.
Qed.

(** X13.  A [ValueError] that an entry raises never leaves the loop over
    the rows: it is caught there, and the loop goes on with the next row.
    The one [ValueError] that can leave [main] is raised before any row is
    read, by [saveDialogData], whose [json.loads] is under no handler for
    it; where [saveDialogData] raises none, none leaves the pre-check, the
    commit pass or the commit run made of the two. *)
Theorem value_errors_stay_in_the_loop (H : Host) (DEBUG_disable_rendering pre_check : bool)
        (total : Z) (rows : list Row) (s : St) (msg : string) :
  fst (rows_loop H DEBUG_disable_rendering pre_check O rows s) <> Raise (ValueError msg) /\
  (fst (main_pass H DEBUG_disable_rendering pre_check total rows s) =
     Raise (ValueError msg) ->
   fst (saveDialogData H (enter_main total s)) = Raise (ValueError msg)) /\
  ((forall w, snd (saveDialogData_run H w) <> Raise (ValueError msg)) ->
   fst (main_pass H DEBUG_disable_rendering pre_check total rows s) <>
     Raise (ValueError msg) /\
   fst (start_batch_render H DEBUG_disable_rendering pre_check rows s) <>
     Raise (ValueError msg)).
Proof.
  split; [apply no_value_error_rows_loop|]. split; [apply main_pass_value_error|].
  intros Hsave.
  assert (Hpass : forall pre total s,
            fst (main_pass H DEBUG_disable_rendering pre total rows s) <>
            Raise (ValueError msg)).
  { intros pre total' s' Hraised.
    apply main_pass_value_error, saveDialogData_value_error in Hraised.
    exact (Hsave _ Hraised). }
  split; [apply Hpass|].
  unfold start_batch_render, bind, log, ret.
  destruct pre_check; cbn [negb fst snd]; [apply Hpass|].
  pose proof (Hpass true 0 (add_event (EvLog INFO MsgStartingPreCheck) s)) as Hcheck.
  destruct (main_pass H DEBUG_disable_rendering true 0 rows
                      (add_event (EvLog INFO MsgStartingPreCheck) s))
    as [[checked|e] s1]; cbn [fst] in *;
    [|intros Heq; apply Hcheck; injection Heq as ->; reflexivity].
  destruct (rows_to_render checked) as [total'|]; [|discriminate].
  apply Hpass.
Qed.

Lemma value_errors_stay_in_the_loop_witness :
  fst (start_batch_render (Sim.host Sim.render_ok) false false three_rows
                          (initial_state (Sim.scene [] None))) <>
  Raise (ValueError "No object could not be found by unique ID").
Proof.
  destruct (value_errors_stay_in_the_loop (Sim.host Sim.render_ok) false false 0 three_rows
              (initial_state (Sim.scene [] None))
              "No object could not be found by unique ID") as (_ & _ & Hrun).
  apply Hrun. intros w. cbn. discriminate.
Defined.

(** ** A pass with rendering disabled *)

Lemma idle_refl (s : St) : idle_step s s.
Proof. split; [reflexivity|]. exists []. split; reflexivity. Qed.

Lemma idle_trans (s1 s2 s3 : St) : idle_step s1 s2 -> idle_step s2 s3 -> idle_step s1 s3.
Proof.
  intros (Hc1 & l1 & Ha1 & Hn1) (Hc2 & l2 & Ha2 & Hn2). split; [congruence|].
  exists (l2 ++ l1)%list. split; [eapply adds_app; eauto|].
  rewrite render_calls_app, Hn1, Hn2. reflexivity.
Qed.

Lemma idle_of_quiet {A : Type} (m : M A) : steps quiet_step m -> steps idle_step m.
Proof.
  intros Hm s. destruct (Hm s) as (_ & Hc & added & Ha & Hlogs).
  split; [exact Hc|]. exists added. split; [exact Ha|].
  apply inert_render_calls, log_is_inert, Hlogs.
Qed.

Lemma idle_names (row_id : nat) (frame : Z) (formatted_time exr png : string) :
  steps idle_step (emit (EvNames row_id frame formatted_time exr png)).
Proof. intros s. split; [reflexivity|]. eexists [_]. split; reflexivity. Qed.

Lemma idle_render_frame (H : Host) (camera : string) (resolution : resolution_value)
      (pixel_aspect : string) (frame : Z) (outputfile_exr outputfile_png full_filename : string) :
  steps idle_step (render_frame H true camera resolution pixel_aspect frame
                                outputfile_exr outputfile_png full_filename).
Proof.
  intros s. unfold render_frame, bind, log, ret, emit. cbn.
  split; [reflexivity|]. eexists [_; _]. split; reflexivity.
Qed.

Ltac idle :=
  step_apart idle_refl idle_trans
             ltac:(first [ apply idle_names | apply idle_render_frame
                         | apply idle_of_quiet;
                           first [ apply quiet_log | apply quiet_put_world
                                 | apply quiet_prevent_duplicate_files ]
                         | (intros ?; split; [reflexivity|]; exists []; split; reflexivity) ]).

Lemma idle_frames_loop (H : Host) (pre_check : bool) (row_id : nat) (camera : string)
      (resolution : resolution_value)
      (pixel_aspect output_path_exr output_path_png formatted_time : string)
      (frame_list : list Z) :
  steps idle_step (frames_loop H true pre_check row_id camera resolution pixel_aspect
                               output_path_exr output_path_png formatted_time frame_list).
Proof.
  induction frame_list as [|frame rest IH]; cbn [frames_loop]; idle.
Qed.

Lemma idle_process_row (H : Host) (pre_check : bool) (row_id : nat) (rowProperties : Row) :
  steps idle_step (process_row H true pre_check row_id rowProperties).
Proof.
  unfold process_row. destruct (Use rowProperties); [|apply (steps_ret _ idle_refl)].
  apply (steps_bind _ idle_trans).
  - intros s.
    destruct (prepare_row_step H pre_check row_id rowProperties s)
      as ((added & Ha & Hlogs) & _ & _ & _ & _ & Hc & _).
    split; [exact Hc|]. exists added. split; [exact Ha|].
    apply inert_render_calls, log_is_inert, Hlogs.
  - intros p. unfold render_row. step_apart idle_refl idle_trans
      ltac:(first [ apply idle_frames_loop
                  | apply idle_of_quiet; first [ apply quiet_log | apply quiet_put_world ]
                  | (intros ?; split; [reflexivity|]; exists []; split; reflexivity) ]).
Qed.

Lemma idle_rows_loop (H : Host) (pre_check : bool) (rows : list Row) :
  forall row_id, steps idle_step (rows_loop H true pre_check row_id rows).
Proof.
  induction rows as [|rowProperties rest IH]; intros row_id s; [apply idle_refl|].
  rewrite rows_loop_cons.
  pose proof (idle_process_row H pre_check row_id rowProperties s) as Hrow.
  destruct (process_row H true pre_check row_id rowProperties s)
    as [[[|]|[msg|kind]] s1]; cbn [snd] in *; try exact Hrow.
  - eapply idle_trans; [exact Hrow | apply IH].
  - eapply idle_trans; [exact Hrow|]. eapply idle_trans; [|apply IH].
    split; [reflexivity|]. eexists [_]. split; reflexivity.
Qed.

(** X14.  With [DEBUG_disable_rendering] set, the commit pass calls [rt.render]
    for no frame and counts no canceled frame; when it ends it reports
    [Rendering done!] and returns [True]. *)
Theorem disabled_rendering_renders_nothing (H : Host) (total : Z) (rows : list Row) (s : St) :
  let run := main_pass H true false total rows s in
  render_calls (trace (snd run)) = render_calls (trace s) /\
  canceled_renders (snd run) = 0 /\
  forall value, fst run = Ok value -> value = ReturnTrue.
Proof.
  cbv zeta.
  assert (Hidle : idle_step (enter_main total s) (snd (main_pass H true false total rows s))).
  { rewrite main_pass_eq.
    pose proof (idle_of_quiet _ (quiet_main_start H false) (enter_main total s))
      as Hcheck.
    destruct (main_start H false (enter_main total s)) as [[[[|] close]|e] s1];
      cbn [snd] in *; try exact Hcheck.
    pose proof (idle_rows_loop H false rows O s1) as Hrows.
    destruct (rows_loop H true false O rows s1) as [[[]|e] s2]; cbn [snd] in *.
    - eapply idle_trans; [exact Hcheck|]. eapply idle_trans; [exact Hrows|].
      destruct (conclude_step false close s2) as ((_ & Hc & added & Ha & Hlogs) & _).
      split; [exact Hc|]. exists added. split; [exact Ha|].
      apply inert_render_calls, log_is_inert, Hlogs.
    - eapply idle_trans; eauto. }
  destruct Hidle as (Hcount & added & Hadds & Hnone).
  cbn [canceled_renders enter_main] in Hcount.
  split; [|split; [exact Hcount|]].
  - unfold adds in Hadds. cbn [trace enter_main] in Hadds.
    rewrite Hadds, render_calls_app, Hnone. reflexivity.
  - intros value Hvalue.
    apply (commit_pass_done H true total rows s value Hvalue).
    rewrite Hcount. reflexivity.
Qed.

(** ** What the renders of an entry are called with *)

Section Calls.

Variable P : render_call -> Prop.

Lemma calls_refl (s : St) : calls_step P s s.
Proof. exists []. split; [reflexivity | constructor]. Qed.

Lemma calls_trans (s1 s2 s3 : St) :
  calls_step P s1 s2 -> calls_step P s2 s3 -> calls_step P s1 s3.
Proof.
  intros (l1 & Ha1 & Hp1) (l2 & Ha2 & Hp2).
  exists (l2 ++ l1)%list. split; [eapply adds_app; eauto|].
  rewrite render_calls_app. apply Forall_app; auto.
Qed.

Lemma calls_of_quiet {A : Type} (m : M A) : steps quiet_step m -> steps (calls_step P) m.
Proof.
  intros Hm s. destruct (Hm s) as (_ & _ & added & Ha & Hlogs).
  exists added. split; [exact Ha|].
  rewrite (inert_render_calls added) by (apply log_is_inert, Hlogs). constructor.
Qed.

Lemma calls_names (row_id : nat) (frame : Z) (formatted_time exr png : string) :
  steps (calls_step P) (emit (EvNames row_id frame formatted_time exr png)).
Proof. intros s. eexists [_]. split; [reflexivity | constructor]. Qed.

Lemma calls_modify (f : St -> St) :
  (forall s, trace (f s) = trace s) -> steps (calls_step P) (modify f).
Proof. intros Hf s. exists []. split; [apply Hf | constructor]. Qed.

End Calls.

Lemma calls_render_frame (H : Host) (DEBUG_disable_rendering : bool) (camera : string)
      (resolution : resolution_value) (pixel_aspect : string) (frame : Z)
      (outputfile_exr outputfile_png full_filename : string) :
  steps (calls_step (call_of camera pixel_aspect resolution))
        (render_frame H DEBUG_disable_rendering camera resolution pixel_aspect frame
                      outputfile_exr outputfile_png full_filename).
Proof.
  intros s. unfold render_frame. unfold bind at 1. cbn [log]. cbv beta iota.
  set (s0 := add_event (EvLog INFO (MsgRenderingFrame frame full_filename)) s).
  assert (Hstart : calls_step (call_of camera pixel_aspect resolution) s s0)
    by (eexists [_]; split; [reflexivity | constructor]).
  assert (Hcount : forall render_result s1,
            calls_step (call_of camera pixel_aspect resolution) s s1 ->
            calls_step (call_of camera pixel_aspect resolution) s
              (snd ((emit (EvRenderResult render_result) ;;
                     (if render_result =? 1 then modify count_canceled_render
                      else ret tt))%M s1))).
  { intros render_result s1 Hs1. eapply calls_trans; [exact Hs1|].
    exists [EvRenderResult render_result]. split; [|constructor].
    unfold bind, emit. cbn. destruct (render_result =? 1); reflexivity. }
  destruct DEBUG_disable_rendering; cbn [negb].
  - unfold bind at 1. cbn [ret]. cbv beta iota. apply Hcount, Hstart.
  - unfold bind at 1 2, lift at 1.
    destruct (resolution_item resolution 0) as [image_width|e] eqn:Hwidth;
      cbn [fst snd]; [|exact Hstart].
    unfold bind at 1, lift at 1.
    destruct (resolution_item resolution 1) as [image_height|e] eqn:Hheight;
      cbn [fst snd]; [|exact Hstart].
    destruct (do_render_trace H camera frame outputfile_exr outputfile_png pixel_aspect
                              image_width image_height s0) as (logged & Htrace & Hlogs).
    cbv zeta in Htrace.
    assert (Hdone : calls_step (call_of camera pixel_aspect resolution) s
                      (snd (do_render H camera frame outputfile_exr outputfile_png
                                      pixel_aspect image_width image_height s0))).
    { eapply calls_trans; [exact Hstart|].
      eexists (logged ++ [_])%list.
      split; [unfold adds; rewrite Htrace, <- app_assoc; reflexivity|].
      rewrite render_calls_app.
      rewrite (inert_render_calls logged) by (apply log_is_inert, Hlogs). cbn.
      constructor; [|constructor]. repeat split; assumption. }
    destruct (do_render H camera frame outputfile_exr outputfile_png pixel_aspect
                        image_width image_height s0) as [[render_result|e] s1];
      cbn [fst snd] in *; [apply Hcount, Hdone | exact Hdone].
Qed.

Lemma calls_frames_loop (H : Host) (DEBUG_disable_rendering pre_check : bool) (row_id : nat)
      (camera : string) (resolution : resolution_value)
      (pixel_aspect output_path_exr output_path_png formatted_time : string)
      (frame_list : list Z) :
  steps (calls_step (call_of camera pixel_aspect resolution))
        (frames_loop H DEBUG_disable_rendering pre_check row_id camera resolution
                     pixel_aspect output_path_exr output_path_png formatted_time frame_list).
Proof.
  induction frame_list as [|frame rest IH]; cbn [frames_loop];
    step_apart (calls_refl (call_of camera pixel_aspect resolution))
               (calls_trans (call_of camera pixel_aspect resolution))
               ltac:(first [ apply calls_names | apply calls_render_frame
                           | apply calls_of_quiet, quiet_prevent_duplicate_files ]).
Qed.

Lemma calls_render_row (H : Host) (DEBUG_disable_rendering pre_check : bool) (row_id : nat)
      (p : prepared) :
  steps (calls_step (call_of (p_camera p) (p_pixel_aspect p) (p_resolution p)))
        (render_row H DEBUG_disable_rendering pre_check row_id p).
Proof.
  unfold render_row.
  step_apart (calls_refl (call_of (p_camera p) (p_pixel_aspect p) (p_resolution p)))
             (calls_trans (call_of (p_camera p) (p_pixel_aspect p) (p_resolution p)))
             ltac:(first [ apply calls_frames_loop
                         | apply calls_modify; reflexivity
                         | apply calls_of_quiet;
                           first [ apply quiet_log | apply quiet_put_world ] ]).
Qed.

Lemma bind_inv_ok {A B : Type} (m : M A) (k : A -> M B) (s s' : St) (b : B) :
  bind m k s = (Ok b, s') -> exists a s1, m s = (Ok a, s1) /\ k a s1 = (Ok b, s').
Proof.
  unfold bind. destruct (m s) as [[a|e] s1]; [|discriminate].
  intros Hk. exists a, s1. split; [reflexivity | exact Hk].
Qed.

(** What [prepare_row] hands on: the camera found by the hidden id, the
    pixel aspect and the list [resolution], all read in the world the
    entry started in. *)
Lemma prepare_row_values (H : Host) (pre_check : bool) (row_id : nat) (rowProperties : Row)
      (s s' : St) (p : prepared) :
  prepare_row H pre_check row_id rowProperties s = (Ok p, s') ->
  find_node (objects (world s)) (Camera_Hidden rowProperties) = Some (p_camera p) /\
  p_pixel_aspect p =
    (if String.eqb (Pixel_Aspect rowProperties) "Default"
     then renderPixelAspect (world s) else Pixel_Aspect rowProperties) /\
  p_resolution p = fst (get_resolution_disp (Resolution rowProperties)
                                            (renderWidth (world s)) (renderHeight (world s))).
Proof.
  unfold prepare_row. intros Hrun.
  apply bind_inv_ok in Hrun as (u & s0 & Hannounce & Hrun).
  assert (Hworld0 : world s0 = world s).
  { destruct pre_check; cbn in Hannounce; injection Hannounce as _ <-; reflexivity. }
  apply bind_inv_ok in Hrun as (camera & s1 & Hcamera & Hrun).
  assert (Hfound : find_node (objects (world s0)) (Camera_Hidden rowProperties) = Some camera
                   /\ s1 = s0).
  { revert Hcamera. unfold reraise_after, get_item_by_id, bind, get_world, ret, raise.
    destruct (find_node (objects (world s0)) (Camera_Hidden rowProperties)) as [node|];
      cbn; [|discriminate].
    intros Heq; injection Heq as -> ->. split; reflexivity. }
  destruct Hfound as (Hfound & ->).
  apply bind_inv_ok in Hrun as (frame_range & s2 & Hrange & Hrun).
  pose proof (reading_get_frame_range (Range rowProperties) s0) as (_ & Hworld2).
  rewrite Hrange in Hworld2; cbn [snd] in Hworld2.
  apply bind_inv_ok in Hrun as (frame_range_disp & s3 & Hdisp & Hrun).
  assert (s3 = s2) by (unfold lift in Hdisp; injection Hdisp as _ <-; reflexivity).
  subst s3.
  apply bind_inv_ok in Hrun as (w & s4 & Hw & Hrun).
  cbn in Hw. injection Hw as <- <-.
  rewrite Hworld2, Hworld0 in Hrun.
  destruct (get_resolution_disp (Resolution rowProperties) (renderWidth (world s))
                                (renderHeight (world s))) as [resolution resolution_disp].
  apply bind_inv_ok in Hrun as (pixel_aspect & s5 & Hpixel & Hrun).
  assert (Hpa : pixel_aspect = (if String.eqb (Pixel_Aspect rowProperties) "Default"
                                then renderPixelAspect (world s)
                                else Pixel_Aspect rowProperties)).
  { revert Hpixel. unfold get_pixel_aspect, bind, get_world, put_world, ret. cbn.
    rewrite Hworld2, Hworld0.
    destruct (String.eqb (Pixel_Aspect rowProperties) "Default");
      intros Heq; injection Heq as <- _; reflexivity. }
  rewrite Hworld0 in Hfound.
  apply (f_equal fst) in Hrun. cbn [fst] in Hrun.
  refine ((_ : returns_only (fun p => find_node (objects (world s))
                                                (Camera_Hidden rowProperties) =
                                      Some (p_camera p) /\
                                      p_pixel_aspect p = _ /\ p_resolution p = _) _)
            s5 p Hrun).
  returns. cbn. split; [exact Hfound|]. split; [exact Hpa | reflexivity].
Qed.

(** X15.  Every render of an entry is called with the camera found by the
    hidden id of the row, and with the pixel aspect and the size resolved
    when the entry started: for [Default] these are the values of the
    scene at that moment, also when the scene state or the render preset
    that the entry loads afterwards changes them. *)
Theorem entry_render_calls (H : Host) (DEBUG_disable_rendering pre_check : bool)
        (row_id : nat) (rowProperties : Row) (s : St) :
  let run := process_row H DEBUG_disable_rendering pre_check row_id rowProperties s in
  exists added,
    adds added s (snd run) /\
    Forall (call_of_row rowProperties (world s)) (render_calls added) /\
    (Resolution rowProperties = "Default" ->
     Forall (fun call => rc_outputwidth call = renderWidth (world s) /\
                         rc_outputheight call = renderHeight (world s))
            (render_calls added)).
Proof.
  cbv zeta.
  assert (Hcalls : calls_step (call_of_row rowProperties (world s)) s
                     (snd (process_row H DEBUG_disable_rendering pre_check row_id
                                       rowProperties s))).
  { unfold process_row.
    destruct (Use rowProperties); [|apply calls_refl].
    unfold bind.
    destruct (prepare_row_step H pre_check row_id rowProperties s)
      as ((l1 & Ha1 & Hl1) & _).
    destruct (prepare_row H pre_check row_id rowProperties s) as [[p|e] s1] eqn:Hprepare;
      cbn [fst snd] in *.
    - apply prepare_row_values in Hprepare as (Hcamera & Hpixel & Hresolution).
      destruct (calls_render_row H DEBUG_disable_rendering pre_check row_id p s1)
        as (l2 & Ha2 & Hp2).
      exists (l2 ++ l1)%list. split; [eapply adds_app; eauto|].
      rewrite render_calls_app, (inert_render_calls l1) by (apply log_is_inert, Hl1).
      rewrite app_nil_r. revert Hp2. apply Forall_impl.
      intros call (Hc & Hpa & Hw & Hh). unfold call_of_row.
      rewrite <- Hresolution, Hc, Hpa. auto.
    - exists l1. split; [exact Ha1|].
      rewrite (inert_render_calls l1) by (apply log_is_inert, Hl1). constructor. }
  destruct Hcalls as (added & Hadds & Hcalls).
  exists added. split; [exact Hadds|]. split; [exact Hcalls|].
  intros Hdefault. revert Hcalls. apply Forall_impl.
  intros call (_ & _ & Hsize). cbv zeta in Hsize. rewrite Hdefault in Hsize.
  cbn in Hsize. destruct Hsize as (Hw & Hh).
  injection Hw as <-. injection Hh as <-. split; reflexivity.
Qed.

Lemma entry_render_calls_witness :
  let s := initial_state (Sim.scene [] None) in
  let run := process_row resizing_host false false 0 preset_row s in
  renderWidth (world (snd (get_and_set_render_preset resizing_host "draft.rps" s))) = 640 /\
  map rc_outputwidth (render_calls (trace (snd run))) = [1920] /\
  exists added,
    adds added s (snd run) /\
    Forall (fun call => rc_outputwidth call = renderWidth (world s) /\
                        rc_outputheight call = renderHeight (world s))
           (render_calls added).
Proof.
  cbv zeta. split; [reflexivity|]. split; [vm_compute; reflexivity|].
  destruct (entry_render_calls resizing_host false false 0 preset_row
              (initial_state (Sim.scene [] None))) as (added & Hadds & _ & Hsize).
  exists added. split; [exact Hadds | apply Hsize; reflexivity].
Defined.

(** ** Scene states *)

(** X16.  [get_and_set_scene_state] raises [ValueError] and touches nothing in
    three cases: the text carries neither prefix; it carries the prefix of
    a state set and there is no such state set, the scene states not being
    looked at then; it carries only the prefix of a scene state and there
    is no such scene state. *)
Theorem unknown_scene_state_is_rejected (H : Host) (scene_state_disp : string) (s : St) :
  scene_state_disp <> "" ->
  (PyStr.contains stateSet_prefix scene_state_disp = false /\
   PyStr.contains sceneState_prefix scene_state_disp = false) \/
  (PyStr.contains stateSet_prefix scene_state_disp = true /\
   masterState_GetDescendant H (world s)
     (PyStr.replace stateSet_prefix "" scene_state_disp) = false) \/
  (PyStr.contains stateSet_prefix scene_state_disp = false /\
   PyStr.contains sceneState_prefix scene_state_disp = true /\
   sceneStateMgr_FindSceneState H (world s)
     (PyStr.replace sceneState_prefix "" scene_state_disp) = false) ->
  get_and_set_scene_state H scene_state_disp s =
  (Raise (ValueError ("Scene State or State Set '" ++ scene_state_disp ++
                      "' does not exist.")), s).
Proof.
  intros Hnonempty Hcases.
  unfold get_and_set_scene_state, bind, get_world, put_world, ret, raise.
  rewrite (nonempty_true scene_state_disp Hnonempty). cbn [fst snd].
  destruct Hcases as [(Hset & Hstate) | [(Hset & Hmissing) | (Hset & Hstate & Hmissing)]].
  - rewrite Hset, Hstate. reflexivity.
  - rewrite Hset, Hmissing. reflexivity.
  - rewrite Hset, Hstate, Hmissing. reflexivity.
Qed.

Lemma unknown_scene_state_is_rejected_witness :
  get_and_set_scene_state (Sim.host Sim.render_ok) "Exterior"
                          (initial_state (Sim.scene [] None)) =
  (Raise (ValueError "Scene State or State Set 'Exterior' does not exist."),
   initial_state (Sim.scene [] None)).
Proof.
  apply (unknown_scene_state_is_rejected (Sim.host Sim.render_ok) "Exterior").
  - discriminate.
  - left. split; reflexivity.
Defined.

(** A text with the prefix of a state set whose state set exists makes
    that state set current and returns its name, the prefix taken off;
    the scene states are not looked at. *)
Lemma state_set_is_made_current (H : Host) (scene_state_disp : string) (s : St) :
  PyStr.contains stateSet_prefix scene_state_disp = true ->
  masterState_GetDescendant H (world s)
    (PyStr.replace stateSet_prefix "" scene_state_disp) = true ->
  get_and_set_scene_state H scene_state_disp s =
  (Ok (Some (PyStr.replace stateSet_prefix "" scene_state_disp)),
   with_world (masterState_SetCurrentStateSet H (world s)
                 (PyStr.replace stateSet_prefix "" scene_state_disp)) s).
Proof.
  intros Hset Hfound.
  unfold get_and_set_scene_state, bind, get_world, put_world, ret, raise.
  assert (Hnonempty : nonempty scene_state_disp = true).
  { destruct scene_state_disp; [discriminate Hset | reflexivity]. }
  rewrite Hnonempty. cbn [fst snd]. rewrite Hset, Hfound. reflexivity.
Qed.

(** ** The names of the pre-check *)

(** X17.  The pre-check allocates the names that the commit pass would allocate
    in the same state: [prevent_duplicate_files] returns the same path and
    name in both, the dialog about an existing image changing nothing in
    what is returned; and when the first name tried is free the pre-check
    shows no dialog and leaves the state as it was.  The dialog has the
    one button [OK], so it ends with 0 (closed) or 1. *)
Theorem pre_check_allocates_as_commit
        (H : Host) (output_path : string) (frame : Z) (formatted_time : string) (s : St) :
  (forall w title text, (snd (dialog_exec H w title text ["OK"]) <= 1)%nat) ->
  fst (prevent_duplicate_files H true output_path frame formatted_time s) =
  fst (prevent_duplicate_files H false output_path frame formatted_time s) /\
  (os_path_exists (world s) (candidate_path H output_path frame formatted_time 0) = false ->
   prevent_duplicate_files H true output_path frame formatted_time s =
   (Ok (candidate_path H output_path frame formatted_time 0,
        snd (os_path_split H (candidate_path H output_path frame formatted_time 0))), s)).
Proof.
  intros Hdialog.
  unfold prevent_duplicate_files, bind, get_world, ret, raise. cbn [fst snd].
  set (path_at := candidate_path H output_path frame formatted_time).
  split.
  - destruct (probe (os_path_exists (world s)) path_at (probe_fuel (world s)) 0)
      as [dupe_count|]; [|reflexivity].
    destruct (os_path_split H (path_at dupe_count)) as [directory file_name].
    cbn [andb]. destruct (0 <? dupe_count)%nat; [|reflexivity].
    unfold warn_render_settings_open, bind, get_world, put_world, log, ret, raise.
    cbn [fst snd map].
    specialize (Hdialog (world s) "Image already exists!"
                        (duplicate_message (original_name path_at dupe_count) file_name)).
    destruct (dialog_exec H (world s) _ _ _) as [w' [|[|i]]]; cbn in Hdialog |- *;
      [reflexivity | reflexivity | lia].
  - intros Hfree. unfold probe_fuel. cbn [probe]. rewrite Hfree.
    destruct (os_path_split H (path_at 0%nat)) as [directory file_name]. reflexivity.
Qed.

Lemma pre_check_allocates_as_commit_witness :
  let s := initial_state (Sim.scene [("C:\out\shot_0001_24-01-01T00.00.00.exr", 0%Q)] None) in
  fst (prevent_duplicate_files (Sim.host Sim.render_ok) true "C:\out\shot.exr" 1
         "24-01-01T00.00.00" s) =
  fst (prevent_duplicate_files (Sim.host Sim.render_ok) false "C:\out\shot.exr" 1
         "24-01-01T00.00.00" s).
Proof.
  cbv zeta.
  apply (pre_check_allocates_as_commit (Sim.host Sim.render_ok) "C:\out\shot.exr" 1
           "24-01-01T00.00.00").
  intros w title text. cbn. lia.
Defined.

(** ** Integers and their text *)

Lemma every_char_app (p : ascii -> bool) (a b : string) :
  every_char p (a ++ b) = every_char p a && every_char p b.
Proof. induction a as [|c a IH]; cbn; [reflexivity|]. rewrite IH, andb_assoc. reflexivity. Qed.

Lemma every_char_impl (p q : ascii -> bool) (s : string) :
  (forall c, p c = true -> q c = true) -> every_char p s = true -> every_char q s = true.
Proof.
  intros Hpq. induction s as [|c s IH]; cbn; [reflexivity|].
  intros Hall. apply andb_true_iff in Hall as (Hc & Hs).
  rewrite (Hpq c Hc), (IH Hs). reflexivity.
Qed.

Lemma digits_of_uint (d : Decimal.uint) :
  every_char PyStr.is_digit (NilEmpty.string_of_uint d) = true.
Proof. induction d; cbn [NilEmpty.string_of_uint every_char]; rewrite ?IHd; reflexivity. Qed.

Lemma digit_is_no_space (c : ascii) : PyStr.is_digit c = true -> PyStr.is_space c = false.
Proof.
  destruct c as [[] [] [] [] [] [] [] []]; cbv; intros Hdigit;
    first [reflexivity | discriminate Hdigit].
Qed.

Lemma sign_or_digit_is_no_space (c : ascii) :
  is_sign_or_digit c = true -> PyStr.is_space c = false.
Proof.
  destruct c as [[] [] [] [] [] [] [] []]; cbv; intros Hdigit;
    first [reflexivity | discriminate Hdigit].
Qed.

Lemma rstrip_no_space (s : string) :
  every_char (fun c => negb (PyStr.is_space c)) s = true -> PyStr.rstrip s = s.
Proof.
  induction s as [|c s IH]; cbn; [reflexivity|].
  intros Hall. apply andb_true_iff in Hall as (Hc & Hs).
  rewrite (IH Hs). apply negb_true_iff in Hc. rewrite Hc. destruct s; reflexivity.
Qed.

Lemma strip_no_space (s : string) :
  every_char (fun c => negb (PyStr.is_space c)) s = true -> PyStr.strip s = s.
Proof.
  intros Hall. unfold PyStr.strip.
  assert (Hl : PyStr.lstrip s = s).
  { destruct s as [|c s]; [reflexivity|]. cbn in Hall |- *.
    apply andb_true_iff in Hall as (Hc & _). apply negb_true_iff in Hc.
    rewrite Hc. reflexivity. }
  rewrite Hl. apply rstrip_no_space, Hall.
Qed.

Lemma int_digits_acc (d : Decimal.uint) :
  forall p, PyStr.int_digits (NilEmpty.string_of_uint d) (Zpos p) true =
            Some (Zpos (Pos.of_uint_acc d p)).
Proof.
  induction d; intros p; cbn [NilEmpty.string_of_uint Pos.of_uint_acc];
    [reflexivity| | | | | | | | | |];
    match goal with
    | |- PyStr.int_digits (String ?c _) _ _ = _ =>
        change (PyStr.int_digits (String c (NilEmpty.string_of_uint d)) (Zpos p) true)
          with (PyStr.int_digits (NilEmpty.string_of_uint d)
                                 (10 * Zpos p + PyStr.digit_value c) true)
    end;
    match goal with
    | |- PyStr.int_digits _ (10 * Zpos p + PyStr.digit_value ?c) true = Some (Zpos (Pos.of_uint_acc d ?q)) =>
        replace (10 * Zpos p + PyStr.digit_value c) with (Zpos q)
          by (let v := eval cbv in (PyStr.digit_value c) in
              change (PyStr.digit_value c) with v; lia)
    end;
    apply IHd.
Qed.

Lemma int_digits_uint (d : Decimal.uint) :
  PyStr.int_digits (NilEmpty.string_of_uint d) 0 true = Some (Z.of_N (Pos.of_uint d)).
Proof.
  induction d; cbn [NilEmpty.string_of_uint Pos.of_uint]; [reflexivity | exact IHd | ..];
    match goal with
    | |- PyStr.int_digits (String ?c _) _ _ = Some (Z.of_N (Npos (Pos.of_uint_acc d ?q))) =>
        change (PyStr.int_digits (String c (NilEmpty.string_of_uint d)) 0 true)
          with (PyStr.int_digits (NilEmpty.string_of_uint d) (Zpos q) true)
    end;
    apply int_digits_acc.
Qed.

Lemma int_digits_start (s : string) :
  s <> "" -> every_char PyStr.is_digit s = true ->
  PyStr.int_digits s 0 false = PyStr.int_digits s 0 true.
Proof.
  destruct s as [|c s]; [contradiction|]. intros _ Hall. cbn in Hall |- *.
  apply andb_true_iff in Hall as (Hc & _). rewrite Hc. reflexivity.
Qed.

Lemma pos_to_uint_not_nil (p : positive) : Pos.to_uint p <> Decimal.Nil.
Proof.
  intros Hnil. pose proof (DecimalPos.Unsigned.of_to p) as Hback.
  rewrite Hnil in Hback. discriminate Hback.
Qed.

Lemma string_of_uint_not_empty (d : Decimal.uint) :
  d <> Decimal.Nil -> NilEmpty.string_of_uint d <> "".
Proof. destruct d; [contradiction | discriminate ..]. Qed.

Lemma string_of_uint_not_nil (d : Decimal.uint) :
  d <> Decimal.Nil -> NilZero.string_of_uint d = NilEmpty.string_of_uint d.
Proof. destruct d; [contradiction | reflexivity ..]. Qed.

(** The digits of a positive number, read back. *)
Lemma int_digits_pos (p : positive) :
  PyStr.int_digits (NilEmpty.string_of_uint (Pos.to_uint p)) 0 false = Some (Zpos p).
Proof.
  rewrite int_digits_start.
  - rewrite int_digits_uint, DecimalPos.Unsigned.of_to. reflexivity.
  - apply string_of_uint_not_empty, pos_to_uint_not_nil.
  - apply digits_of_uint.
Qed.

Lemma int_of_digits (s : string) :
  s <> "" -> every_char PyStr.is_digit s = true -> PyStr.int s = PyStr.int_digits s 0 false.
Proof.
  intros Hne Hall. unfold PyStr.int.
  rewrite strip_no_space
    by (revert Hall; apply every_char_impl; intros c Hc;
        rewrite (digit_is_no_space c Hc); reflexivity).
  destruct s as [|c s]; [contradiction|].
  cbn in Hall. apply andb_true_iff in Hall as (Hc & _).
  destruct c as [[] [] [] [] [] [] [] []]; try discriminate Hc; reflexivity.
Qed.

Lemma int_of_minus_digits (s : string) :
  every_char PyStr.is_digit s = true ->
  PyStr.int (String "-" s) = option_map Z.opp (PyStr.int_digits s 0 false).
Proof.
  intros Hall. unfold PyStr.int.
  rewrite strip_no_space; [reflexivity|].
  cbn. revert Hall; apply every_char_impl; intros c Hc.
  rewrite (digit_is_no_space c Hc); reflexivity.
Qed.

Lemma str_pos (p : positive) :
  PyStr.str (Zpos p) = NilEmpty.string_of_uint (Pos.to_uint p).
Proof.
  unfold PyStr.str. cbn [Z.to_int NilZero.string_of_int].
  apply string_of_uint_not_nil, pos_to_uint_not_nil.
Qed.

Lemma str_neg (p : positive) :
  PyStr.str (Zneg p) = String "-" (NilEmpty.string_of_uint (Pos.to_uint p)).
Proof.
  unfold PyStr.str. cbn [Z.to_int NilZero.string_of_int].
  rewrite string_of_uint_not_nil by apply pos_to_uint_not_nil. reflexivity.
Qed.

(** [int(str(z))] is [z]. *)
Lemma int_str (z : Z) : PyStr.int (PyStr.str z) = Some z.
Proof.
  destruct z as [|p|p].
  - reflexivity.
  - rewrite str_pos, int_of_digits, int_digits_pos;
      [reflexivity | apply string_of_uint_not_empty, pos_to_uint_not_nil
      | apply digits_of_uint].
  - rewrite str_neg, int_of_minus_digits, int_digits_pos by apply digits_of_uint.
    reflexivity.
Qed.

Lemma str_inj (a b : Z) : PyStr.str a = PyStr.str b -> a = b.
Proof.
  intros Heq. apply (f_equal PyStr.int) in Heq. rewrite !int_str in Heq.
  injection Heq as Heq; exact Heq.
Qed.

Lemma str_chars (z : Z) : every_char is_sign_or_digit (PyStr.str z) = true.
Proof.
  assert (Hdigits : forall d, every_char is_sign_or_digit (NilEmpty.string_of_uint d) = true).
  { intros d. apply (every_char_impl PyStr.is_digit); [|apply digits_of_uint].
    intros c Hc. unfold is_sign_or_digit. rewrite Hc, orb_true_r. reflexivity. }
  destruct z as [|p|p]; [reflexivity | rewrite str_pos | rewrite str_neg; cbn]; apply Hdigits.
Qed.

Lemma str_digits (z : Z) : 0 <= z -> every_char PyStr.is_digit (PyStr.str z) = true.
Proof.
  destruct z as [|p|p]; intros Hz; [reflexivity | rewrite str_pos; apply digits_of_uint | lia].
Qed.

Lemma str_not_empty (z : Z) : PyStr.str z <> "".
Proof.
  destruct z as [|p|p]; [discriminate | rewrite str_pos | rewrite str_neg; discriminate].
  apply string_of_uint_not_empty, pos_to_uint_not_nil.
Qed.

(** ** Splitting and joining *)

Lemma split_not_nil (sep : ascii) (s : string) : PyStr.split sep s <> [].
Proof.
  induction s as [|c s IH]; cbn; [discriminate|].
  destruct (Ascii.eqb c sep); [discriminate|].
  destruct (PyStr.split sep s); [contradiction | discriminate].
Qed.

Lemma split_no_sep (sep : ascii) (s : string) :
  PyStr.mem_char sep s = false -> PyStr.split sep s = [s].
Proof.
  induction s as [|c s IH]; cbn; [reflexivity|].
  intros Hno. apply orb_false_iff in Hno as (Hc & Hs).
  rewrite Ascii.eqb_sym, Hc, (IH Hs). reflexivity.
Qed.

Lemma split_app (sep : ascii) (a b : string) :
  PyStr.split sep (a ++ String sep b) = (PyStr.split sep a ++ PyStr.split sep b)%list.
Proof.
  induction a as [|c a IH]; cbn.
  - rewrite Ascii.eqb_refl. reflexivity.
  - destruct (Ascii.eqb c sep); rewrite IH; [reflexivity|].
    pose proof (split_not_nil sep a) as Hne.
    destruct (PyStr.split sep a); [contradiction | reflexivity].
Qed.

Lemma split_join (sep : ascii) (s : string) :
  PyStr.join (String sep "") (PyStr.split sep s) = s.
Proof.
  unfold PyStr.join. induction s as [|c s IH]; cbn; [reflexivity|].
  destruct (Ascii.eqb c sep) eqn:Hc.
  - apply Ascii.eqb_eq in Hc; subst c.
    pose proof (split_not_nil sep s) as Hne.
    destruct (PyStr.split sep s) as [|p ps] eqn:Hsplit; [contradiction|].
    cbn [String.concat]. cbn [String.concat] in IH. rewrite IH. reflexivity.
  - pose proof (split_not_nil sep s) as Hne.
    destruct (PyStr.split sep s) as [|p ps] eqn:Hsplit; [contradiction|].
    destruct ps as [|q ps]; cbn [String.concat] in IH |- *.
    + rewrite IH. reflexivity.
    + cbn. f_equal. exact IH.
Qed.

Lemma mem_char_every (c : ascii) (p : ascii -> bool) (s : string) :
  p c = false -> every_char p s = true -> PyStr.mem_char c s = false.
Proof.
  intros Hc. induction s as [|d s IH]; cbn; [reflexivity|].
  intros Hall. apply andb_true_iff in Hall as (Hd & Hs). rewrite (IH Hs), orb_false_r.
  destruct (Ascii.eqb c d) eqn:Heq; [|reflexivity].
  apply Ascii.eqb_eq in Heq; subst d. congruence.
Qed.

Lemma contains_char (c : ascii) (s : string) :
  PyStr.contains (String c "") s = PyStr.mem_char c s.
Proof.
  induction s as [|d s IH]; [reflexivity|].
  cbn [PyStr.contains PyStr.mem_char String.prefix]. rewrite IH.
  destruct (Ascii.ascii_dec c d) as [->|Hne].
  - rewrite Ascii.eqb_refl. destruct s; reflexivity.
  - apply Ascii.eqb_neq in Hne. rewrite Hne. reflexivity.
Qed.

Lemma map_result_app {A B : Type} (f : A -> result B) (l1 l2 : list A) :
  map_result f (l1 ++ l2) =
  (r1 <- map_result f l1 ;; r2 <- map_result f l2 ;; Ok (r1 ++ r2)%list)%result.
Proof.
  induction l1 as [|a l1 IH]; cbn.
  - destruct (map_result f l2); reflexivity.
  - destruct (f a) as [b|e]; [|reflexivity]. rewrite IH.
    destruct (map_result f l1) as [r1|e]; cbn; [|reflexivity].
    destruct (map_result f l2) as [r2|e]; reflexivity.
Qed.

(** ** Picked frames *)

(** X18.  The text of the picked frames is read piece by piece: the frames of
    two texts joined by a comma are the frames of the first followed by
    those of the second, nothing sorted and nothing dropped, and the
    [ValueError] of the first piece that fails is the error of the whole. *)
Theorem parse_number_string_joins (a b : string) :
  parse_number_string (a ++ "," ++ b) =
  (first <- parse_number_string a ;;
   second <- parse_number_string b ;;
   Ok (first ++ second)%list)%result.
Proof.
  unfold parse_number_string.
  change (a ++ "," ++ b) with (a ++ String "," b).
  rewrite split_app, map_result_app.
  destruct (map_result parse_part (PyStr.split "," a)) as [r1|e]; cbn; [|reflexivity].
  destruct (map_result parse_part (PyStr.split "," b)) as [r2|e]; cbn; [|reflexivity].
  rewrite concat_app. reflexivity.
Qed.

Lemma count_up_in (n : nat) (start frame : Z) :
  In frame (count_up n start 1) <-> start <= frame < start + Z.of_nat n.
Proof.
  revert start; induction n as [|n IH]; intros start; cbn [count_up In].
  - lia.
  - rewrite IH. lia.
Qed.

Lemma range_step_one_in (start stop frame : Z) :
  In frame (range_elements start stop 1) <-> start <= frame < stop.
Proof.
  unfold range_elements. cbn [Z.ltb Z.compare].
  rewrite count_up_in, Z.div_1_r. lia.
Qed.

Lemma int_or_raise_str (z : Z) : int_or_raise (PyStr.str z) = Ok z.
Proof. unfold int_or_raise. rewrite int_str. reflexivity. Qed.

Lemma str_has_no (c : ascii) (z : Z) :
  is_sign_or_digit c = false -> PyStr.mem_char c (PyStr.str z) = false.
Proof. intros Hc. apply (mem_char_every c is_sign_or_digit); [exact Hc | apply str_chars]. Qed.

Lemma str_has_no_minus (z : Z) : 0 <= z -> PyStr.mem_char "-" (PyStr.str z) = false.
Proof.
  intros Hz. apply (mem_char_every "-" PyStr.is_digit); [reflexivity | apply str_digits, Hz].
Qed.

(** X19.  What a piece of the picked frames yields: a number not below zero
    its one frame; two such numbers with a dash the frames from the first
    to the second, none when the second is the smaller; and a text that
    starts with a minus sign a [ValueError], so that no negative frame
    can be picked. *)
Theorem picked_frames_pieces (a b : Z) (rest : string) :
  0 <= a -> 0 <= b ->
  parse_number_string (PyStr.str a) = Ok [a] /\
  (exists picked,
      parse_number_string (PyStr.str a ++ "-" ++ PyStr.str b) = Ok picked /\
      forall frame, In frame picked <-> a <= frame <= b) /\
  exists msg, parse_number_string ("-" ++ rest) = Raise (ValueError msg).
Proof.
  intros Ha Hb. split; [|split].
  - unfold parse_number_string.
    rewrite split_no_sep by (apply str_has_no; reflexivity).
    cbn [map_result]. unfold parse_part.
    rewrite contains_char, (str_has_no_minus a Ha).
    rewrite strip_no_space, int_or_raise_str; [reflexivity|].
    apply (every_char_impl is_sign_or_digit); [|apply str_chars].
    intros c Hc. rewrite (sign_or_digit_is_no_space c Hc). reflexivity.
  - exists (range_elements a (b + 1) 1). split.
    + unfold parse_number_string.
      rewrite split_no_sep.
      * cbn [map_result]. unfold parse_part.
        change (PyStr.str a ++ "-" ++ PyStr.str b) with (PyStr.str a ++ String "-" (PyStr.str b)).
        rewrite contains_char, split_app.
        rewrite !split_no_sep by (apply str_has_no_minus; assumption).
        assert (Hdash : PyStr.mem_char "-" (PyStr.str a ++ String "-" (PyStr.str b)) = true).
        { clear. induction (PyStr.str a) as [|c s IH]; cbn; [reflexivity|].
          rewrite IH, orb_true_r. reflexivity. }
        rewrite Hdash. cbn [app]. rewrite !int_or_raise_str. cbn.
        rewrite app_nil_r. reflexivity.
      * apply (mem_char_every "," is_sign_or_digit); [reflexivity|].
        rewrite every_char_app. cbn. rewrite !str_chars. reflexivity.
    + intros frame. rewrite range_step_one_in. lia.
  - unfold parse_number_string. cbn [append].
    pose proof (split_not_nil "," rest) as Hne.
    assert (Hsplit : exists piece pieces,
               PyStr.split "," (String "-" rest) = String "-" piece :: pieces).
    { cbn. destruct (PyStr.split "," rest) as [|p ps]; [contradiction|]. eauto. }
    destruct Hsplit as (piece & pieces & ->). cbn [map_result].
    assert (Hpart : exists msg, parse_part (String "-" piece) = Raise (ValueError msg)).
    { unfold parse_part. rewrite contains_char.
      cbn [PyStr.mem_char PyStr.split Ascii.eqb Bool.eqb andb orb].
      pose proof (split_not_nil "-" piece) as Hpieces.
      destruct (PyStr.split "-" piece) as [|q [|q' qs]]; [contradiction| |];
        [eexists; reflexivity | eauto]. }
    destruct Hpart as (msg & ->). exists msg. reflexivity.
Qed.

Lemma picked_frames_pieces_witness :
  parse_number_string "7" = Ok [7] /\
  parse_number_string "3-5" = Ok [3; 4; 5] /\
  exists msg, parse_number_string "-5" = Raise (ValueError msg).
Proof.
  destruct (picked_frames_pieces 7 7 "5") as (Hone & _ & Hminus); [lia | lia |].
  split; [exact Hone|]. split; [reflexivity | exact Hminus].
Defined.

(** ** File names of the frames *)

Lemma int_digits_zeros (k : nat) (s : string) :
  PyStr.int_digits (PyStr.zeros k ++ s) 0 true = PyStr.int_digits s 0 true.
Proof. induction k as [|k IH]; [reflexivity | exact IH]. Qed.

Lemma zeros_digits (k : nat) : every_char PyStr.is_digit (PyStr.zeros k) = true.
Proof. induction k as [|k IH]; [reflexivity | exact IH]. Qed.

Lemma int_digits_zfill (width : nat) (z : Z) :
  0 <= z -> PyStr.int_digits (PyStr.zfill width (PyStr.str z)) 0 false = Some z.
Proof.
  intros Hz. unfold PyStr.zfill.
  assert (Hdigits : every_char PyStr.is_digit
                      (PyStr.zeros (width - String.length (PyStr.str z)) ++ PyStr.str z) = true)
    by (rewrite every_char_app, zeros_digits, (str_digits z Hz); reflexivity).
  assert (Hne : PyStr.zeros (width - String.length (PyStr.str z)) ++ PyStr.str z <> "").
  { intros Hempty. apply (f_equal String.length) in Hempty.
    rewrite append_length in Hempty. pose proof (str_not_empty z) as Hstr.
    destruct (PyStr.str z); [contradiction | cbn in Hempty; lia]. }
  rewrite (int_digits_start _ Hne Hdigits), int_digits_zeros.
  rewrite <- (int_digits_start _ (str_not_empty z) (str_digits z Hz)).
  rewrite <- int_of_digits by (apply str_not_empty || apply str_digits, Hz).
  apply int_str.
Qed.

Lemma zfill_digits (width : nat) (z : Z) :
  0 <= z -> every_char PyStr.is_digit (PyStr.zfill width (PyStr.str z)) = true.
Proof.
  intros Hz. unfold PyStr.zfill.
  rewrite every_char_app, zeros_digits, (str_digits z Hz). reflexivity.
Qed.

Lemma zfill_not_empty (width : nat) (z : Z) : PyStr.zfill width (PyStr.str z) <> "".
Proof.
  unfold PyStr.zfill. intros Hempty. apply (f_equal String.length) in Hempty.
  rewrite append_length in Hempty. pose proof (str_not_empty z) as Hstr.
  destruct (PyStr.str z); [contradiction | cbn in Hempty; lia].
Qed.

(** The frame number written in a file name reads back as the frame. *)
Lemma int_format_04d (z : Z) : PyStr.int (PyStr.format_04d z) = Some z.
Proof.
  unfold PyStr.format_04d. destruct (z <? 0) eqn:Hneg.
  - apply Z.ltb_lt in Hneg.
    rewrite int_of_minus_digits by (apply zfill_digits; lia).
    rewrite int_digits_zfill by lia. cbn. f_equal. lia.
  - apply Z.ltb_ge in Hneg.
    rewrite int_of_digits by (apply zfill_not_empty || apply zfill_digits, Hneg).
    apply int_digits_zfill, Hneg.
Qed.

Lemma format_04d_chars (z : Z) : every_char is_sign_or_digit (PyStr.format_04d z) = true.
Proof.
  assert (Hdigits : forall s, every_char PyStr.is_digit s = true ->
                              every_char is_sign_or_digit s = true).
  { intros s. apply every_char_impl. intros c Hc.
    unfold is_sign_or_digit. rewrite Hc, orb_true_r. reflexivity. }
  unfold PyStr.format_04d. destruct (z <? 0) eqn:Hneg.
  - apply Z.ltb_lt in Hneg. cbn [every_char]. apply Hdigits, zfill_digits. lia.
  - apply Z.ltb_ge in Hneg. apply Hdigits, zfill_digits, Hneg.
Qed.

Lemma first_separator (c : ascii) (a b x y : string) :
  PyStr.mem_char c a = false -> PyStr.mem_char c b = false ->
  a ++ String c x = b ++ String c y -> a = b /\ x = y.
Proof.
  revert b; induction a as [|d a IH]; intros [|e b]; cbn; intros Ha Hb Heq.
  - injection Heq as ->. split; reflexivity.
  - injection Heq as <- _. rewrite Ascii.eqb_refl in Hb. discriminate Hb.
  - injection Heq as -> _. rewrite Ascii.eqb_refl in Ha. discriminate Ha.
  - injection Heq as -> Heq.
    apply orb_false_iff in Ha as (_ & Ha). apply orb_false_iff in Hb as (_ & Hb).
    destruct (IH b Ha Hb Heq) as (-> & ->). split; reflexivity.
Qed.

Lemma same_length_prefix (a b x y : string) :
  String.length a = String.length b -> a ++ x = b ++ y -> a = b /\ x = y.
Proof.
  revert b; induction a as [|c a IH]; intros [|d b]; cbn; intros Hlen Heq;
    try discriminate Hlen.
  - split; [reflexivity | exact Heq].
  - injection Heq as -> Heq. injection Hlen as Hlen.
    destruct (IH b Hlen Heq) as (-> & ->). split; reflexivity.
Qed.

Lemma two_digits_length (z : Z) : 0 <= z < 100 -> String.length (two_digits z) = 2%nat.
Proof.
  intros Hz.
  assert (Hall : forallb (fun n => (String.length (two_digits (Z.of_nat n)) =? 2)%nat)
                         (seq 0 100) = true) by (vm_compute; reflexivity).
  rewrite forallb_forall in Hall.
  specialize (Hall (Z.to_nat z)). rewrite Z2Nat.id in Hall by lia.
  apply Nat.eqb_eq, Hall, in_seq. lia.
Qed.

Lemma two_digits_inj (a b : Z) : 0 <= a -> 0 <= b -> two_digits a = two_digits b -> a = b.
Proof.
  intros Ha Hb Heq. unfold two_digits in Heq.
  apply (f_equal (fun s => PyStr.int_digits s 0 false)) in Heq.
  rewrite !int_digits_zfill in Heq by assumption. injection Heq as Heq; exact Heq.
Qed.

Lemma strftime_run_length (d : datetime) :
  datetime_in_range d -> String.length (strftime_run d) = 17%nat.
Proof.
  intros (Hmonth & Hday & Hhour & Hminute & Hsecond). unfold strftime_run.
  pose proof (Z.mod_pos_bound (year d) 100 ltac:(lia)) as Hyear.
  repeat (rewrite append_length; cbn [String.length]).
  rewrite !two_digits_length by lia. reflexivity.
Qed.

(** The timestamp of a run tells the second in which it was taken: two
    datetimes give the same text exactly when they agree in the last two
    digits of the year and in month, day, hour, minute and second. *)
Lemma strftime_run_inj (d1 d2 : datetime) :
  datetime_in_range d1 -> datetime_in_range d2 ->
  strftime_run d1 = strftime_run d2 ->
  year d1 mod 100 = year d2 mod 100 /\ month d1 = month d2 /\ day d1 = day d2 /\
  hour d1 = hour d2 /\ minute d1 = minute d2 /\ second d1 = second d2.
Proof.
  intros (Hmonth1 & Hday1 & Hhour1 & Hminute1 & Hsecond1)
         (Hmonth2 & Hday2 & Hhour2 & Hminute2 & Hsecond2).
  pose proof (Z.mod_pos_bound (year d1) 100 ltac:(lia)) as Hyear1.
  pose proof (Z.mod_pos_bound (year d2) 100 ltac:(lia)) as Hyear2.
  unfold strftime_run. intros Heq.
  assert (Hfield : forall a b x y,
            0 <= a < 100 -> 0 <= b < 100 ->
            two_digits a ++ x = two_digits b ++ y -> a = b /\ x = y).
  { intros a b x y Ha Hb Hab.
    apply same_length_prefix in Hab as (Hab & Hxy);
      [|rewrite !two_digits_length by assumption; reflexivity].
    apply two_digits_inj in Hab; [auto | lia | lia]. }
  apply Hfield in Heq as (Hyear & Heq); [|lia|lia].
  cbn [append] in Heq. injection Heq as Heq.
  apply Hfield in Heq as (Hmonth & Heq); [|lia|lia].
  cbn [append] in Heq. injection Heq as Heq.
  apply Hfield in Heq as (Hday & Heq); [|lia|lia].
  cbn [append] in Heq. injection Heq as Heq.
  apply Hfield in Heq as (Hhour & Heq); [|lia|lia].
  cbn [append] in Heq. injection Heq as Heq.
  apply Hfield in Heq as (Hminute & Heq); [|lia|lia].
  cbn [append] in Heq. injection Heq as Heq.
  apply two_digits_inj in Heq; [|lia|lia].
  repeat split; assumption.
Qed.

(** X20.  For one output path, two allocations give the same path only for the
    same frame, the same count of duplicates and the same timestamp: no
    two frames of an entry share a file, nor do the runs of two different
    seconds.  The directory is joined to the file name so that different
    names give different paths. *)
Theorem allocated_paths_are_distinct
        (H : Host) (output_path : string) (frame1 frame2 : Z) (d1 d2 : datetime)
        (dupe_count1 dupe_count2 : nat) :
  (forall name1 name2,
      os_path_join H (fst (os_path_split H output_path)) name1 =
      os_path_join H (fst (os_path_split H output_path)) name2 -> name1 = name2) ->
  datetime_in_range d1 -> datetime_in_range d2 ->
  candidate_path H output_path frame1 (strftime_run d1) dupe_count1 =
  candidate_path H output_path frame2 (strftime_run d2) dupe_count2 ->
  frame1 = frame2 /\ dupe_count1 = dupe_count2 /\ strftime_run d1 = strftime_run d2 /\
  second d1 = second d2 /\ minute d1 = minute d2 /\ hour d1 = hour d2.
Proof.
  intros Hjoin Hd1 Hd2. unfold candidate_path.
  destruct (os_path_split H output_path) as [directory file_name]. cbn [fst] in Hjoin.
  destruct (os_path_splitext H file_name) as [filename file_extension].
  intros Heq. apply Hjoin in Heq. unfold numbered_name in Heq.
  apply append_inv_head in Heq. cbn [append] in Heq. injection Heq as Heq.
  assert (Hno : forall z, PyStr.mem_char "_" (PyStr.format_04d z) = false).
  { intros z. apply (mem_char_every "_" is_sign_or_digit); [reflexivity|].
    apply format_04d_chars. }
  apply first_separator in Heq as (Hframe & Heq); [|apply Hno|apply Hno].
  apply (f_equal PyStr.int) in Hframe. rewrite !int_format_04d in Hframe.
  injection Hframe as <-.
  apply same_length_prefix in Heq as (Hstamp & Heq);
    [|rewrite !strftime_run_length by assumption; reflexivity].
  apply append_inv_tail, dupe_count_str_inj in Heq.
  destruct (strftime_run_inj d1 d2 Hd1 Hd2 Hstamp) as (_ & _ & _ & Hh & Hm & Hs).
  repeat split; assumption.
Qed.

Lemma allocated_paths_are_distinct_witness :
  candidate_path (Sim.host Sim.render_ok) "C:\out\shot.exr" 1 (strftime_run Sim.noon) 0 =
    "C:\out\shot_0001_24-01-01T12.00.00.exr" /\
  (1 = 1 /\ 0%nat = 0%nat /\ strftime_run Sim.noon = strftime_run Sim.noon /\
   second Sim.noon = second Sim.noon /\ minute Sim.noon = minute Sim.noon /\
   hour Sim.noon = hour Sim.noon).
Proof.
  split; [reflexivity|].
  apply (allocated_paths_are_distinct (Sim.host Sim.render_ok) "C:\out\shot.exr" 1 1
           Sim.noon Sim.noon 0 0).
  - intros name1 name2 Hnames.
    exact (append_inv_head _ _ _ (append_inv_head _ _ _ Hnames)).
  - cbv; repeat split; discriminate.
  - cbv; repeat split; discriminate.
  - reflexivity.
Defined.

(** ** Valid file names *)

Lemma mem_char_app (c : ascii) (a b : string) :
  PyStr.mem_char c (a ++ b) = PyStr.mem_char c a || PyStr.mem_char c b.
Proof. induction a as [|d a IH]; cbn; [reflexivity|]. rewrite IH, orb_assoc. reflexivity. Qed.

Lemma any_char_in_app (chars a b : string) :
  PyStr.any_char_in chars (a ++ b) = PyStr.any_char_in chars a || PyStr.any_char_in chars b.
Proof.
  induction chars as [|c chars IH]; cbn; [reflexivity|].
  rewrite mem_char_app, IH.
  destruct (PyStr.mem_char c a), (PyStr.mem_char c b), (PyStr.any_char_in chars a);
    reflexivity.
Qed.

Lemma any_char_in_every (p : ascii -> bool) (chars s : string) :
  every_char (fun c => negb (p c)) chars = true ->
  every_char p s = true -> PyStr.any_char_in chars s = false.
Proof.
  intros Hchars Hs. induction chars as [|c chars IH]; cbn; [reflexivity|].
  cbn in Hchars. apply andb_true_iff in Hchars as (Hc & Hrest).
  apply negb_true_iff in Hc.
  rewrite (mem_char_every c p s Hc Hs), (IH Hrest). reflexivity.
Qed.

Lemma stamp_chars_of_digits (s : string) :
  every_char is_sign_or_digit s = true -> every_char is_stamp_char s = true.
Proof.
  apply every_char_impl. intros c Hc. unfold is_stamp_char. rewrite Hc. reflexivity.
Qed.

Lemma two_digits_chars (z : Z) : every_char is_stamp_char (two_digits z) = true.
Proof.
  unfold two_digits, PyStr.zfill. rewrite every_char_app.
  rewrite (stamp_chars_of_digits (PyStr.str z) (str_chars z)), andb_true_r.
  induction (2 - String.length (PyStr.str z))%nat as [|k IH]; [reflexivity | exact IH].
Qed.

Lemma strftime_run_chars (d : datetime) : every_char is_stamp_char (strftime_run d) = true.
Proof.
  unfold strftime_run.
  repeat (rewrite every_char_app; cbn [every_char]).
  rewrite !two_digits_chars. reflexivity.
Qed.

Lemma dupe_count_str_chars (n : nat) : every_char is_stamp_char (dupe_count_str n) = true.
Proof.
  destruct n as [|n]; [reflexivity|]. unfold dupe_count_str.
  repeat (rewrite every_char_app; cbn [every_char]).
  assert (Hdigits : every_char is_stamp_char (PyStr.str_nat (S n)) = true).
  { unfold PyStr.str_nat.
    rewrite string_of_uint_not_nil by apply to_uint_not_nil.
    apply (every_char_impl PyStr.is_digit); [|apply digits_of_uint].
    intros c Hc. unfold is_stamp_char, is_sign_or_digit. rewrite Hc, orb_true_r. reflexivity. }
  rewrite Hdigits. reflexivity.
Qed.

(** X21.  A render name that [get_valid_filename] returns makes valid file
    names: the name is not empty, does not start with a dot and holds
    none of the characters of [invalid_chars], and so it is with every
    name [{name}_{frame:04d}_{timestamp}{suffix}.exr] and [.png] built
    from it, for every frame, every time of the run and every count of
    duplicates. *)
Theorem validated_name_makes_valid_file_names
        (H : Host) (pre_check : bool) (iv : item_values) (s : St) (render_name : string)
        (frame : Z) (d : datetime) (dupe_count : nat) :
  fst (get_valid_filename H pre_check iv s) = Ok render_name ->
  name_is_invalid render_name = false /\
  name_is_invalid (numbered_name render_name ".exr" frame (strftime_run d) dupe_count) = false /\
  name_is_invalid (numbered_name render_name ".png" frame (strftime_run d) dupe_count) = false.
Proof.
  intros Hname.
  assert (Hvalid : name_is_invalid render_name = false).
  { refine ((_ : returns_only (fun name => name_is_invalid name = false)
                              (get_valid_filename H pre_check iv)) s render_name Hname).
    unfold get_valid_filename. apply returns_only_bind; intros [name blank_values].
    apply returns_only_bind; intros _.
    destruct (name_is_invalid name) eqn:Hinvalid;
      [apply returns_only_raise | apply returns_only_ret, Hinvalid]. }
  split; [exact Hvalid|].
  unfold name_is_invalid in Hvalid.
  apply orb_false_iff in Hvalid as (Hvalid & Hdot).
  apply orb_false_iff in Hvalid as (Hempty & Hchars).
  apply negb_false_iff in Hempty.
  assert (Hbuilt : forall file_extension,
            PyStr.any_char_in invalid_chars file_extension = false ->
            name_is_invalid (numbered_name render_name file_extension frame
                                           (strftime_run d) dupe_count) = false).
  { intros file_extension Hext. unfold name_is_invalid, numbered_name.
    destruct render_name as [|c render_name]; [discriminate Hempty|].
    apply orb_false_iff. split;
      [ apply orb_false_iff; split; [reflexivity|]
      | unfold PyStr.startswith in *; cbn [append String.prefix] in *;
        destruct (ascii_dec "." c); [destruct render_name; discriminate Hdot | reflexivity] ].
    assert (Hstamp : forall part, every_char is_stamp_char part = true ->
                                  PyStr.any_char_in invalid_chars part = false)
      by (intros part; apply any_char_in_every; reflexivity).
    rewrite !any_char_in_app, Hchars, Hext.
    rewrite (Hstamp "_") by reflexivity.
    rewrite (Hstamp _ (stamp_chars_of_digits _ (format_04d_chars frame))).
    rewrite (Hstamp _ (strftime_run_chars d)), (Hstamp _ (dupe_count_str_chars dupe_count)).
    reflexivity. }
  split; apply Hbuilt; reflexivity.
Qed.

Lemma validated_name_makes_valid_file_names_witness :
  fst (get_valid_filename (Sim.host Sim.render_ok) false
         (example_values "{Camera}_v2" "Cam01_VRayPhysicalCamera" None "" "" "1920x1080" "1.0")
         (initial_state (Sim.scene [] None))) = Ok "Cam01_v2" /\
  name_is_invalid (numbered_name "Cam01_v2" ".exr" 12 (strftime_run Sim.noon) 1) = false.
Proof.
  split; [reflexivity|].
  apply (validated_name_makes_valid_file_names (Sim.host Sim.render_ok) false
           (example_values "{Camera}_v2" "Cam01_VRayPhysicalCamera" None "" ""
                           "1920x1080" "1.0")
           (initial_state (Sim.scene [] None)) "Cam01_v2" 12 Sim.noon 1).
  reflexivity.
Defined.

(** ** The table of the dialog *)

Lemma update_nth_length {A : Type} (n : nat) (f : A -> A) (l : list A) :
  List.length (update_nth n f l) = List.length l.
Proof.
  revert n; induction l as [|a l IH]; intros [|n]; cbn; try reflexivity.
  rewrite IH. reflexivity.
Qed.

Lemma update_nth_twice {A : Type} (n : nat) (f g : A -> A) (l : list A) :
  update_nth n f (update_nth n g l) = update_nth n (fun a => f (g a)) l.
Proof.
  revert n; induction l as [|a l IH]; intros [|n]; cbn; try reflexivity.
  rewrite IH. reflexivity.
Qed.

Lemma update_nth_ext {A : Type} (n : nat) (f g : A -> A) (l : list A) :
  (forall a, f a = g a) -> update_nth n f l = update_nth n g l.
Proof.
  intros Hfg. revert n; induction l as [|a l IH]; intros [|n]; cbn; try reflexivity.
  - rewrite Hfg. reflexivity.
  - rewrite IH. reflexivity.
Qed.

Lemma update_nth_middle {A : Type} (f : A -> A) (before after : list A) (a : A) :
  update_nth (List.length before) f (before ++ a :: after) = (before ++ f a :: after)%list.
Proof. induction before as [|b before IH]; cbn; [reflexivity|]. rewrite IH. reflexivity. Qed.

Lemma nth_update_nth_other {A : Type} (n m : nat) (f : A -> A) (l : list A) (default : A) :
  n <> m -> nth m (update_nth n f l) default = nth m l default.
Proof.
  revert n m; induction l as [|a l IH]; intros [|n] [|m] Hne; cbn; try reflexivity.
  - contradiction.
  - apply IH. intros ->. apply Hne. reflexivity.
Qed.

(** Filling the cells of a row one after the other. *)
Lemma populate_cells (to_row : nat) (entries : list (nat * entry_value)) (t : table) :
  fold_left (populate to_row) entries t =
  update_nth to_row
    (fun r => fold_left (fun r entry => update_nth (fst entry)
                                          (fun c => match snd entry with
                                                    | EntryBool checked =>
                                                        {| cell_item := cell_item c;
                                                           cell_widget := Some checked |}
                                                    | EntryText text =>
                                                        {| cell_item :=
                                                             Some (QTableWidgetItem text);
                                                           cell_widget := cell_widget c |}
                                                    end) r)
                        entries r) t.
Proof.
  revert t; induction entries as [|[col value] entries IH]; intros t; cbn [fold_left].
  - clear. revert to_row; induction t as [|r t IH]; intros [|n]; cbn; try reflexivity.
    rewrite <- IH. reflexivity.
  - rewrite IH. unfold populate.
    destruct value; unfold setCellWidget, setItem; rewrite update_nth_twice; reflexivity.
Qed.

(** What [move_row] leaves in the table. *)
Lemma move_row_table (from_row to_row : nat) (d : Dialog) :
  (to_row <= rowCount (removeRow from_row (tableWidget d)))%nat ->
  tableWidget (move_row from_row to_row d) =
  (firstn to_row (removeRow from_row (tableWidget d)) ++
   map (fun col => cell_of_value (copied_value (tableWidget d) from_row col))
       (seq O columnCount) ::
   skipn to_row (removeRow from_row (tableWidget d)))%list.
Proof.
  intros Hto. unfold move_row. cbn [tableWidget].
  rewrite populate_cells. unfold insertRow.
  apply Nat.leb_le in Hto. rewrite Hto. apply Nat.leb_le in Hto.
  set (t1 := removeRow from_row (tableWidget d)) in *.
  assert (Hlen : List.length (firstn to_row t1) = to_row)
    by (apply firstn_length_le; exact Hto).
  rewrite <- Hlen at 1. rewrite update_nth_middle. f_equal.
Qed.

Lemma removeRow_length (row : nat) (t : table) :
  (row < rowCount t)%nat -> rowCount (removeRow row t) = Nat.pred (rowCount t).
Proof.
  unfold rowCount, removeRow. intros Hrow.
  rewrite length_app, firstn_length_le, length_skipn by lia. lia.
Qed.

Lemma nth_map_seq {A : Type} (f : nat -> A) (n col : nat) (default : A) :
  (col < n)%nat -> nth col (map f (seq O n)) default = f col.
Proof.
  intros Hcol. rewrite (nth_indep _ default (f O)) by (rewrite length_map, length_seq; exact Hcol).
  rewrite map_nth, seq_nth by exact Hcol. reflexivity.
Qed.

Lemma nth_middle_row (before after : table) (r : list table_cell) :
  nth (List.length before) (before ++ r :: after) [] = r.
Proof. induction before as [|b before IH]; cbn; [reflexivity | exact IH]. Qed.

(** The cells of the row that [move_row] has made. *)
Lemma move_row_cell (from_row to_row col : nat) (d : Dialog) :
  (to_row <= rowCount (removeRow from_row (tableWidget d)))%nat -> (col < columnCount)%nat ->
  cell_at (tableWidget (move_row from_row to_row d)) to_row col =
  cell_of_value (copied_value (tableWidget d) from_row col).
Proof.
  intros Hto Hcol. rewrite (move_row_table from_row to_row d Hto). unfold cell_at.
  set (t1 := removeRow from_row (tableWidget d)) in *.
  assert (Hlen : List.length (firstn to_row t1) = to_row)
    by (apply firstn_length_le; exact Hto).
  rewrite <- Hlen at 1. rewrite nth_middle_row.
  apply (nth_map_seq (fun c => cell_of_value (copied_value (tableWidget d) from_row c))).
  exact Hcol.
Qed.

Lemma map_result_nth {A B : Type} (f : A -> result B) (l : list A) (values : list B)
      (k : nat) (a : A) :
  map_result f l = Ok values -> nth_error l k = Some a ->
  exists b, f a = Ok b /\ nth_error values k = Some b.
Proof.
  revert values k; induction l as [|x l IH]; intros values k; cbn; [destruct k; discriminate|].
  destruct (f x) as [b|e] eqn:Hx; [|discriminate].
  destruct (map_result f l) as [bs|e]; [|discriminate].
  intros Hvalues; injection Hvalues as <-.
  destruct k as [|k]; cbn.
  - intros Ha; injection Ha as <-. exists b. split; [exact Hx | reflexivity].
  - intros Ha. exact (IH bs k eq_refl Ha).
Qed.

Lemma map_result_related {A B : Type} (f g : A -> result B) (h : B -> B) (l : list A)
      (values : list B) :
  (forall a b, In a l -> f a = Ok b -> g a = Ok (h b)) ->
  map_result f l = Ok values -> map_result g l = Ok (map h values).
Proof.
  revert values; induction l as [|x l IH]; intros values Hfg; cbn.
  - intros Hvalues; injection Hvalues as <-. reflexivity.
  - destruct (f x) as [b|e] eqn:Hx; [|discriminate].
    destruct (map_result f l) as [bs|e]; [|discriminate].
    intros Hvalues; injection Hvalues as <-.
    rewrite (Hfg x b (or_introl eq_refl) Hx).
    rewrite (IH bs (fun a b Ha => Hfg a b (or_intror Ha)) eq_refl). reflexivity.
Qed.

Lemma moved_cell_has_no_hidden_value (from_row to_row col : nat) (d : Dialog) :
  (to_row <= rowCount (removeRow from_row (tableWidget d)))%nat -> (col < columnCount)%nat ->
  entry_of_cell (tableWidget (move_row from_row to_row d)) to_row col =
  Ok (copied_value (tableWidget d) from_row col, None).
Proof.
  intros Hto Hcol. unfold entry_of_cell, cellWidget, item, getHiddenValue, item.
  rewrite (move_row_cell from_row to_row col d Hto Hcol).
  destruct (copied_value (tableWidget d) from_row col); reflexivity.
Qed.

Lemma copied_value_of_entry (t : table) (row col : nat) (value : entry_value)
      (hidden_value : option string) :
  entry_of_cell t row col = Ok (value, hidden_value) -> copied_value t row col = value.
Proof.
  unfold entry_of_cell, copied_value.
  destruct (cellWidget t row col) as [checked|].
  - intros Heq; injection Heq as <- _. reflexivity.
  - destruct (item t row col) as [i|]; [|discriminate].
    intros Heq; injection Heq as <- _. reflexivity.
Qed.

(** X22.  [move_row] keeps the texts and the check boxes of the row it moves
    and forgets its hidden values: the table has as many rows as before,
    the other rows are in the order they were in, and the row now at
    [to_row] reads as the row [from_row] did, every hidden value, the id
    of the camera among them, being [None]. *)
Theorem move_row_forgets_hidden_values
        (from_row to_row : nat) (d : Dialog) (values : list (entry_value * option string)) :
  (from_row < rowCount (tableWidget d))%nat -> (to_row < rowCount (tableWidget d))%nat ->
  get_entry_values (tableWidget d) from_row = Ok values ->
  let moved := tableWidget (move_row from_row to_row d) in
  rowCount moved = rowCount (tableWidget d) /\
  removeRow to_row moved = removeRow from_row (tableWidget d) /\
  get_entry_values moved to_row = Ok (map (fun entry => (fst entry, None)) values).
Proof.
  intros Hfrom Hto Hvalues. cbv zeta.
  pose proof (removeRow_length from_row (tableWidget d) Hfrom) as Hlength.
  assert (Hto1 : (to_row <= rowCount (removeRow from_row (tableWidget d)))%nat) by lia.
  split; [|split].
  - rewrite (move_row_table from_row to_row d Hto1). unfold rowCount in *.
    rewrite length_app. cbn [List.length]. rewrite length_firstn, length_skipn. lia.
  - rewrite (move_row_table from_row to_row d Hto1).
    set (t1 := removeRow from_row (tableWidget d)) in *.
    assert (Hlen : List.length (firstn to_row t1) = to_row)
      by (apply firstn_length_le; exact Hto1).
    unfold removeRow at 1.
    rewrite <- Hlen at 1. rewrite firstn_app, firstn_all, Nat.sub_diag. cbn [firstn].
    rewrite app_nil_r.
    replace (S to_row) with (List.length (firstn to_row t1 ++ [map (fun col => cell_of_value (copied_value (tableWidget d) from_row col)) (seq O columnCount)])%list)
      by (rewrite length_app, Hlen; cbn; lia).
    change (firstn to_row t1 ++ ?r :: skipn to_row t1)%list
      with (firstn to_row t1 ++ [r] ++ skipn to_row t1)%list.
    rewrite app_assoc, skipn_app, skipn_all, Nat.sub_diag. cbn [skipn app].
    apply firstn_skipn.
  - unfold get_entry_values in *.
    refine (map_result_related _ _ (fun entry => (fst entry, None)) _ values _ Hvalues).
    intros col [value hidden_value] Hcol Hentry. apply in_seq in Hcol.
    rewrite moved_cell_has_no_hidden_value
      by (exact Hto1 || (unfold columnCount; cbn in Hcol; lia)).
    rewrite (copied_value_of_entry _ _ _ _ _ Hentry). reflexivity.
Qed.

Lemma move_row_forgets_hidden_values_witness :
  get_entry_values (tableWidget two_entries) 1 =
    Ok [(EntryBool true, None); (EntryText "B", None); (EntryText "Cam03", Some "id-3");
        (EntryText DEFAULT_PATH_TEXT, None); (EntryText "Default", None);
        (EntryText "Default", None); (EntryText "Default", None);
        (EntryText "", None); (EntryText "", None); (EntryText "", None)] /\
  get_entry_values (tableWidget (move_row 1 0 two_entries)) 0 =
    Ok [(EntryBool true, None); (EntryText "B", None); (EntryText "Cam03", None);
        (EntryText DEFAULT_PATH_TEXT, None); (EntryText "Default", None);
        (EntryText "Default", None); (EntryText "Default", None);
        (EntryText "", None); (EntryText "", None); (EntryText "", None)].
Proof.
  split; [reflexivity|].
  destruct (move_row_forgets_hidden_values 1 0 two_entries
              [(EntryBool true, None); (EntryText "B", None);
               (EntryText "Cam03", Some "id-3");
               (EntryText DEFAULT_PATH_TEXT, None); (EntryText "Default", None);
               (EntryText "Default", None); (EntryText "Default", None);
               (EntryText "", None); (EntryText "", None); (EntryText "", None)])
    as (_ & _ & Hvalues).
  - cbn; lia.
  - cbn; lia.
  - reflexivity.
  - exact Hvalues.
Defined.

Lemma find_node_without_id (nodes : list (string * option string)) :
  find_node nodes None = None.
Proof.
  induction nodes as [|[node [object_id|]] rest IH]; cbn; [reflexivity | | exact IH].
  rewrite andb_false_r. exact IH.
Qed.

Lemma process_row_without_camera_id (H : Host) (DEBUG_disable_rendering pre_check : bool)
      (row_id : nat) (rowProperties : Row) (s : St) :
  Use rowProperties = true -> Camera_Hidden rowProperties = None ->
  fst (process_row H DEBUG_disable_rendering pre_check row_id rowProperties s) =
  Raise (ValueError ("No object could not be found by unique ID " ++
                     dquote ++ "None" ++ dquote)).
Proof.
  intros Huse Hcamera. unfold process_row. rewrite Huse.
  unfold bind at 1. unfold prepare_row. rewrite Hcamera.
  unfold bind at 1.
  assert (Hfind : forall s0, fst (reraise_after (get_item_by_id None)
                                    (log ERROR (MsgCouldntFindCamera None)) s0) =
                             Raise (ValueError ("No object could not be found by unique ID " ++
                                                dquote ++ "None" ++ dquote))).
  { intros s0. unfold reraise_after, get_item_by_id, bind, get_world, raise.
    rewrite find_node_without_id. reflexivity. }
  destruct pre_check.
  - unfold bind at 1. cbn [log fst snd]. cbv beta iota. cbn [modify].
    unfold bind at 1.
    match goal with
    | |- context [reraise_after _ _ ?s0] => specialize (Hfind s0)
    end.
    destruct (reraise_after _ _ _) as [[camera|e] s1]; cbn [fst] in Hfind;
      [discriminate Hfind|]. injection Hfind as ->. reflexivity.
  - cbn [ret]. cbv beta iota. unfold bind at 1.
    specialize (Hfind s).
    destruct (reraise_after _ _ _) as [[camera|e] s1]; cbn [fst] in Hfind;
      [discriminate Hfind|]. injection Hfind as ->. reflexivity.
Qed.

Lemma values_of_row (values : list (entry_value * option string)) (rowProperties : Row) :
  row_of_values values = Some rowProperties ->
  exists camera, nth_error values 2 = Some (EntryText camera, Camera_Hidden rowProperties).
Proof.
  unfold row_of_values.
  destruct values as [|[use h0] values]; [discriminate|].
  do 9 (destruct values as [|[[?|?] ?] values]; try discriminate).
  destruct values; [|discriminate].
  intros Hrow; injection Hrow as <-. cbn. eauto.
Qed.

(** X23.  The row that [move_row] has moved cannot be rendered any more: read
    by [get_entry_values] it has no camera id, and the entry made of it
    fails in the pre-check as in the commit pass, whatever the scene,
    with the [ValueError] of [get_item_by_id] for the id [None]. *)
Theorem moved_row_cannot_be_rendered
        (H : Host) (DEBUG_disable_rendering pre_check : bool) (row_id : nat) (s : St)
        (from_row to_row : nat) (d : Dialog)
        (values : list (entry_value * option string)) (rowProperties : Row) :
  get_entry_values (tableWidget (move_row from_row to_row d)) to_row = Ok values ->
  row_of_values values = Some rowProperties ->
  Use rowProperties = true ->
  Camera_Hidden rowProperties = None /\
  fst (process_row H DEBUG_disable_rendering pre_check row_id rowProperties s) =
  Raise (ValueError ("No object could not be found by unique ID " ++
                     dquote ++ "None" ++ dquote)).
Proof.
  intros Hvalues Hrow Huse.
  assert (Hcamera : Camera_Hidden rowProperties = None).
  { destruct (values_of_row values rowProperties Hrow) as (camera & Hnth).
    destruct (map_result_nth _ _ _ 2 2%nat Hvalues eq_refl) as (entry & Hentry & Hnth').
    rewrite Hnth in Hnth'. injection Hnth' as <-.
    destruct (Nat.le_gt_cases to_row (rowCount (removeRow from_row (tableWidget d))))
      as [Hto|Hto].
    - rewrite moved_cell_has_no_hidden_value in Hentry
        by (exact Hto || (unfold columnCount; lia)).
      injection Hentry as _ Hhidden. symmetry; exact Hhidden.
    - exfalso. revert Hentry. unfold move_row, entry_of_cell, cellWidget, item, cell_at.
      cbn [tableWidget]. rewrite populate_cells. unfold insertRow.
      apply Nat.leb_gt in Hto. rewrite Hto. apply Nat.leb_gt in Hto.
      assert (Hout : forall (f : list table_cell -> list table_cell) (t : table),
                 (rowCount t < to_row)%nat -> nth to_row (update_nth to_row f t) [] = []).
      { intros f t Ht. apply nth_overflow. rewrite update_nth_length.
        unfold rowCount in Ht. lia. }
      rewrite Hout by exact Hto. discriminate. }
  split; [exact Hcamera|].
  apply process_row_without_camera_id; assumption.
Qed.

Lemma moved_row_cannot_be_rendered_witness :
  let s := initial_state (Sim.scene [] None) in
  let before := {| Use := true; Name := "B"; Camera := "Cam03"; Camera_Hidden := Some "id-3";
                   Output_Path := DEFAULT_PATH_TEXT; Range := "Default";
                   Resolution := "Default"; Pixel_Aspect := "Default"; Scene_State := "";
                   Render_Preset := ""; Layer_Preset := "" |} in
  let after := {| Use := true; Name := "B"; Camera := "Cam03"; Camera_Hidden := None;
                  Output_Path := DEFAULT_PATH_TEXT; Range := "Default";
                  Resolution := "Default"; Pixel_Aspect := "Default"; Scene_State := "";
                  Render_Preset := ""; Layer_Preset := "" |} in
  (r <- get_entry_values (tableWidget two_entries) 1 ;; Ok (row_of_values r))%result =
    Ok (Some before) /\
  fst (process_row (Sim.host Sim.render_ok) false true 1 before s) = Ok false /\
  (r <- get_entry_values (tableWidget (move_up [1%nat] two_entries)) 0 ;;
   Ok (row_of_values r))%result = Ok (Some after) /\
  fst (process_row (Sim.host Sim.render_ok) false true 0 after s) =
  Raise (ValueError ("No object could not be found by unique ID " ++
                     dquote ++ "None" ++ dquote)).
Proof.
  cbv zeta. split; [reflexivity|]. split; [vm_compute; reflexivity|].
  split; [reflexivity|].
  eapply (moved_row_cannot_be_rendered (Sim.host Sim.render_ok) false true 0
            (initial_state (Sim.scene [] None)) 1 0 two_entries).
  - reflexivity.
  - reflexivity.
  - reflexivity.
Defined.

(** *** Deleting rows *)

Lemma insert_sorted_in (x y : nat) (l : list nat) :
  In y (insert_sorted x l) <-> y = x \/ In y l.
Proof.
  induction l as [|z l IH]; cbn; [intuition congruence|].
  destruct (x <=? z)%nat; cbn; [intuition congruence|]. rewrite IH. intuition congruence.
Qed.

Lemma sorted_in (y : nat) (l : list nat) : In y (sorted l) <-> In y l.
Proof.
  induction l as [|x l IH]; cbn; [reflexivity|].
  rewrite insert_sorted_in, IH. intuition congruence.
Qed.

Lemma sorted_set_in (y : nat) (l : list nat) : In y (sorted_set l) <-> In y l.
Proof. unfold sorted_set. rewrite sorted_in. apply nodup_In. Qed.

Lemma insert_sorted_strict (x : nat) (l : list nat) :
  StronglySorted lt l -> ~ In x l -> StronglySorted lt (insert_sorted x l).
Proof.
  induction 1 as [|y l Hsorted IH Hall]; intros Hnew; cbn.
  - repeat constructor.
  - destruct (x <=? y)%nat eqn:Hle.
    + apply Nat.leb_le in Hle.
      assert (Hlt : (x < y)%nat) by (cbn in Hnew; lia).
      constructor; [constructor; assumption|].
      constructor; [exact Hlt|]. revert Hall. apply Forall_impl. lia.
    + apply Nat.leb_gt in Hle. constructor.
      * apply IH. intros Hin. apply Hnew. right; exact Hin.
      * apply Forall_forall. intros z Hz. apply insert_sorted_in in Hz as [->|Hz];
          [exact Hle|]. rewrite Forall_forall in Hall. apply Hall, Hz.
Qed.

Lemma sorted_set_strict (l : list nat) : StronglySorted lt (sorted_set l).
Proof.
  unfold sorted_set.
  pose proof (NoDup_nodup Nat.eq_dec l) as Hnodup.
  induction Hnodup as [|x l' Hnew _ IH]; cbn; [constructor|].
  apply insert_sorted_strict; [exact IH|]. rewrite sorted_in. exact Hnew.
Qed.

Lemma existsb_eqb_in (i : nat) (rows : list nat) :
  existsb (Nat.eqb i) rows = true <-> In i rows.
Proof.
  rewrite existsb_exists. split.
  - intros (x & Hx & Heq). apply Nat.eqb_eq in Heq; subst x. exact Hx.
  - intros Hin. exists i. split; [exact Hin | apply Nat.eqb_refl].
Qed.

Lemma keep_from_ext (rows rows' : list nat) (t : table) :
  (forall y, In y rows <-> In y rows') ->
  forall i, keep_from i rows t = keep_from i rows' t.
Proof.
  intros Hsame. induction t as [|r t IH]; intros i; cbn; [reflexivity|].
  assert (Heq : existsb (Nat.eqb i) rows = existsb (Nat.eqb i) rows').
  { destruct (existsb (Nat.eqb i) rows) eqn:H1, (existsb (Nat.eqb i) rows') eqn:H2;
      try reflexivity.
    - apply existsb_eqb_in, Hsame, existsb_eqb_in in H1. congruence.
    - apply existsb_eqb_in, Hsame, existsb_eqb_in in H2. congruence. }
  rewrite Heq, IH. reflexivity.
Qed.

Lemma keep_from_below (x : nat) (rows : list nat) (t : table) :
  forall i, (x < i)%nat -> keep_from i (x :: rows) t = keep_from i rows t.
Proof.
  induction t as [|r t IH]; intros i Hx; cbn [keep_from existsb]; [reflexivity|].
  replace (Nat.eqb i x) with false by (symmetry; apply Nat.eqb_neq; lia).
  cbn [orb]. rewrite !IH by lia. reflexivity.
Qed.

Lemma removeRow_cons (x : nat) (r : list table_cell) (t : table) :
  removeRow (S x) (r :: t) = r :: removeRow x t.
Proof. reflexivity. Qed.

Lemma remove_after_keep (x : nat) (rows : list nat) (t : table) :
  forall i, Forall (fun y => (i + x < y)%nat) rows ->
            removeRow x (keep_from i rows t) = keep_from i ((i + x)%nat :: rows) t.
Proof.
  revert x; induction t as [|r t IH]; intros x i Hrows.
  - cbn. unfold removeRow. rewrite firstn_nil, skipn_nil. reflexivity.
  - assert (Hout : existsb (Nat.eqb i) rows = false).
    { destruct (existsb (Nat.eqb i) rows) eqn:Hin; [|reflexivity].
      apply existsb_eqb_in in Hin. rewrite Forall_forall in Hrows.
      specialize (Hrows i Hin). lia. }
    cbn [keep_from existsb]. rewrite Hout. destruct x as [|x].
    + rewrite Nat.add_0_r, Nat.eqb_refl. cbn [orb].
      rewrite keep_from_below by lia. reflexivity.
    + replace (Nat.eqb i (i + S x)) with false by (symmetry; apply Nat.eqb_neq; lia).
      cbn [orb]. rewrite removeRow_cons. f_equal.
      rewrite <- Nat.add_succ_comm. apply IH.
      revert Hrows. apply Forall_impl. lia.
Qed.

Lemma remove_rows_descending (rows : list nat) (t : table) :
  StronglySorted lt rows ->
  fold_left (fun t x => removeRow x t) (rev rows) t = keep_from O rows t.
Proof.
  rewrite <- fold_left_rev_right, rev_involutive.
  induction 1 as [|x rows Hsorted IH Hall]; cbn [fold_right].
  - clear. generalize O. induction t as [|r t IH]; intros i; cbn; [reflexivity|].
    rewrite <- IH. reflexivity.
  - rewrite IH. apply (remove_after_keep x rows t O). exact Hall.
Qed.

(** X24.  [delete_row] removes the rows of the selected items and no other:
    what is left are the rows without selected item, in the order they
    were in, however the selection lists its rows. *)
Theorem delete_row_keeps_unselected_rows (selected_rows : list nat) (d : Dialog) :
  tableWidget (delete_row selected_rows d) = unselected_rows selected_rows (tableWidget d).
Proof.
  unfold delete_row, unselected_rows.
  destruct selected_rows as [|x rest].
  - cbn. generalize O. induction (tableWidget d) as [|r t IH]; intros i; cbn; [reflexivity|].
    rewrite <- IH. reflexivity.
  - cbn [tableWidget].
    rewrite remove_rows_descending by apply sorted_set_strict.
    apply keep_from_ext. intros y. apply sorted_set_in.
Qed.

Lemma delete_row_keeps_unselected_rows_example :
  map (fun r => map cell_item (firstn 2 r))
      (tableWidget (delete_row [0%nat; 0%nat] two_entries)) =
  [[None; Some (QTableWidgetItem "B")]].
Proof. reflexivity. Qed.

(** *** The parameter fields and the table *)

Lemma nth_update_nth_same {A : Type} (n : nat) (f : A -> A) (l : list A) (default : A) :
  (n < List.length l)%nat -> nth n (update_nth n f l) default = f (nth n l default).
Proof.
  revert n; induction l as [|a l IH]; intros [|n] Hn; cbn in *; try lia; [reflexivity|].
  apply IH. lia.
Qed.

Lemma item_in_table (t : table) (row col : nat) :
  item t row col <> None ->
  (row < List.length t)%nat /\ (col < List.length (nth row t []))%nat.
Proof.
  unfold item, cell_at. intros Hitem.
  destruct (Nat.lt_ge_cases col (List.length (nth row t []))) as [Hcol|Hcol].
  - split; [|exact Hcol].
    destruct (Nat.lt_ge_cases row (List.length t)) as [Hrow|Hrow]; [exact Hrow|].
    rewrite (nth_overflow t [] Hrow) in Hcol. cbn in Hcol. lia.
  - rewrite (nth_overflow _ empty_cell Hcol) in Hitem. contradiction.
Qed.

Lemma item_setItem_same (t : table) (row col : nat) (i : table_item) :
  item t row col <> None -> item (setItem t row col i) row col = Some i.
Proof.
  intros Hitem. destruct (item_in_table t row col Hitem) as (Hrow & Hcol).
  unfold item, cell_at, setItem.
  rewrite nth_update_nth_same by exact Hrow.
  rewrite nth_update_nth_same by exact Hcol. reflexivity.
Qed.

Lemma item_setItem_other_row (t : table) (row row' col col' : nat) (i : table_item) :
  row <> row' -> item (setItem t row col i) row' col' = item t row' col'.
Proof.
  intros Hne. unfold item, cell_at, setItem.
  rewrite nth_update_nth_other by exact Hne. reflexivity.
Qed.

(** After a change of a parameter field, the cell of every selected row
    that had an item holds the new text. *)
Lemma set_column_text_item (name value : string) (selected_rows : list nat) (d : Dialog)
      (row : nat) :
  system_modified d = false -> In row selected_rows ->
  item (tableWidget d) row (column name) <> None ->
  item (tableWidget (set_column_text name value selected_rows d)) row (column name) =
    Some (QTableWidgetItem value) /\
  system_modified (set_column_text name value selected_rows d) = false.
Proof.
  intros Hfree Hselected Hitem. unfold set_column_text. rewrite Hfree.
  apply sorted_in in Hselected.
  destruct (sorted selected_rows) as [|x rows] eqn:Hrows; [contradiction|].
  cbn [tableWidget system_modified]. split; [|reflexivity].
  clear Hrows. revert Hselected Hitem.
  generalize (x :: rows) as l. generalize (tableWidget d) as t.
  assert (Hkeep : forall l t,
             (item t row (column name) = Some (QTableWidgetItem value)) ->
             item (fold_left (fun t row =>
                                match item t row (column name) with
                                | Some _ => setItem t row (column name) (QTableWidgetItem value)
                                | None => t
                                end) l t) row (column name) =
             Some (QTableWidgetItem value)).
  { induction l as [|y l IH]; intros t Hset; cbn [fold_left]; [exact Hset|].
    apply IH. destruct (item t y (column name)) eqn:Hy; [|exact Hset].
    destruct (Nat.eq_dec y row) as [->|Hne].
    - apply item_setItem_same. congruence.
    - rewrite item_setItem_other_row by exact Hne. exact Hset. }
  intros t l. revert t. induction l as [|y l IH]; intros t Hin Hitem; [contradiction|].
  cbn [fold_left]. destruct (Nat.eq_dec y row) as [->|Hne].
  - apply Hkeep. destruct (item t row (column name)) eqn:Hrow; [|contradiction].
    apply item_setItem_same. congruence.
  - destruct Hin as [Heq|Hin]; [contradiction|].
    apply IH; [exact Hin|].
    destruct (item t y (column name)); [|exact Hitem].
    rewrite item_setItem_other_row by exact Hne. exact Hitem.
Qed.

Lemma pair_text_not_default (sep : ascii) (a b : Z) :
  is_sign_or_digit sep = false ->
  PyStr.split sep (PyStr.str a ++ String sep (PyStr.str b)) = [PyStr.str a; PyStr.str b] /\
  String.eqb (PyStr.str a ++ String sep (PyStr.str b)) "Default" = false /\
  String.eqb (PyStr.str a ++ String sep (PyStr.str b)) "" = false.
Proof.
  intros Hsep.
  assert (Hsplit : PyStr.split sep (PyStr.str a ++ String sep (PyStr.str b)) =
                   [PyStr.str a; PyStr.str b]).
  { rewrite split_app, !split_no_sep by (apply str_has_no; exact Hsep). reflexivity. }
  split; [exact Hsplit|]. split.
  - apply String.eqb_neq. intros Heq.
    pose proof (str_chars a) as Ha. pose proof (str_not_empty a) as Hne.
    destruct (PyStr.str a) as [|c rest]; [contradiction|].
    cbn in Ha, Heq. injection Heq as -> _. discriminate Ha.
  - apply String.eqb_neq. intros Heq. rewrite Heq in Hsplit. discriminate Hsplit.
Qed.

(** X25.  The frames of an entry are those of the two spin boxes.  With the
    override checked, [frame_range_changed] writes the two values into the
    cell of every selected row; [update_element_values] reads the same two
    values back from the cell; and [get_frame_range] reads the cell as the
    frames from [spnFrameStart] to [spnFrameEnd], none when the end is
    below the start. *)
Theorem frame_range_round_trip
        (spnFrameStart spnFrameEnd : Z) (selected_rows : list nat) (d : Dialog) (row : nat)
        (defaults : Z * Z) (s : St) :
  system_modified d = false -> In row selected_rows ->
  item (tableWidget d) row (column "Range") <> None ->
  let changed := frame_range_changed true spnFrameStart spnFrameEnd selected_rows d in
  exists text,
    item (tableWidget changed) row (column "Range") = Some (QTableWidgetItem text) /\
    spin_values ":" text defaults = Ok (true, spnFrameStart, spnFrameEnd) /\
    exists frame_range,
      get_frame_range text s = (Ok frame_range, s) /\
      forall frame, In frame (frames_items frame_range) <->
                    spnFrameStart <= frame <= spnFrameEnd.
Proof.
  intros Hfree Hselected Hitem. cbv zeta.
  exists (PyStr.str spnFrameStart ++ String ":" (PyStr.str spnFrameEnd)).
  destruct (pair_text_not_default ":" spnFrameStart spnFrameEnd eq_refl)
    as (Hsplit & Hdefault & Hempty).
  split; [|split].
  - apply (set_column_text_item "Range" _ selected_rows d row Hfree Hselected Hitem).
  - unfold spin_values. rewrite Hdefault, Hempty, Hsplit. cbn [orb nth_error].
    rewrite !int_or_raise_str. reflexivity.
  - unfold get_frame_range, bind, get_world, lift, ret. cbn [fst snd].
    rewrite Hdefault, Hsplit. cbn [hd List.last].
    destruct (String.eqb (PyStr.str spnFrameStart) (PyStr.str spnFrameEnd)) eqn:Hsame.
    + apply String.eqb_eq, str_inj in Hsame. subst spnFrameEnd.
      rewrite int_or_raise_str. eexists. split; [reflexivity|].
      intros frame. cbn. lia.
    + cbn [map_result]. rewrite !int_or_raise_str. cbn [hd List.last].
      unfold py_range. cbn [Z.eqb]. eexists. split; [reflexivity|].
      intros frame. cbn [frames_items]. rewrite range_step_one_in. lia.
Qed.

Lemma frame_range_round_trip_witness :
  item (tableWidget (frame_range_changed true 3 5 [1%nat] two_entries)) 1 (column "Range") =
    Some (QTableWidgetItem "3:5") /\
  exists text,
    item (tableWidget (frame_range_changed true 3 5 [1%nat] two_entries)) 1 (column "Range") =
      Some (QTableWidgetItem text) /\
    spin_values ":" text (0, 100) = Ok (true, 3, 5) /\
    exists frame_range,
      get_frame_range text (initial_state (Sim.scene [] None)) =
        (Ok frame_range, initial_state (Sim.scene [] None)) /\
      forall frame, In frame (frames_items frame_range) <-> 3 <= frame <= 5.
Proof.
  split; [reflexivity|].
  apply (frame_range_round_trip 3 5 [1%nat] two_entries 1 (0, 100)
           (initial_state (Sim.scene [] None))).
  - reflexivity.
  - left; reflexivity.
  - discriminate.
Defined.

(** X26.  The size of an entry is that of the two spin boxes: with the override
    checked, [resolution_changed] writes width and height into the cell of
    every selected row, [update_element_values] reads them back, and the
    engine takes from the cell the same width and height for its renders
    and the same text for the log and for [{Resolution}]. *)
Theorem resolution_round_trip
        (spnWidth spnHeight : Z) (selected_rows : list nat) (d : Dialog) (row : nat)
        (defaults : Z * Z) (original_width original_height : Z) :
  system_modified d = false -> In row selected_rows ->
  item (tableWidget d) row (column "Resolution") <> None ->
  let changed := resolution_changed true spnWidth spnHeight selected_rows d in
  exists text,
    item (tableWidget changed) row (column "Resolution") = Some (QTableWidgetItem text) /\
    spin_values "x" text defaults = Ok (true, spnWidth, spnHeight) /\
    snd (get_resolution_disp text original_width original_height) = text /\
    let resolution := fst (get_resolution_disp text original_width original_height) in
    resolution_item resolution 0 = Ok spnWidth /\
    resolution_item resolution 1 = Ok spnHeight.
Proof.
  intros Hfree Hselected Hitem. cbv zeta.
  exists (PyStr.str spnWidth ++ String "x" (PyStr.str spnHeight)).
  destruct (pair_text_not_default "x" spnWidth spnHeight eq_refl)
    as (Hsplit & Hdefault & Hempty).
  split; [|split; [|split]].
  - apply (set_column_text_item "Resolution" _ selected_rows d row Hfree Hselected Hitem).
  - unfold spin_values. rewrite Hdefault, Hempty, Hsplit. cbn [orb nth_error].
    rewrite !int_or_raise_str. reflexivity.
  - unfold get_resolution_disp. rewrite Hdefault. cbn [snd]. apply (split_join "x").
  - unfold get_resolution_disp. rewrite Hdefault, Hsplit. cbn [fst resolution_item nth_error].
    rewrite !int_or_raise_str. split; reflexivity.
Qed.

Lemma resolution_round_trip_witness :
  item (tableWidget (resolution_changed true 1280 720 [0%nat] two_entries)) 0
       (column "Resolution") = Some (QTableWidgetItem "1280x720") /\
  exists text,
    item (tableWidget (resolution_changed true 1280 720 [0%nat] two_entries)) 0
         (column "Resolution") = Some (QTableWidgetItem text) /\
    spin_values "x" text (1920, 1080) = Ok (true, 1280, 720) /\
    snd (get_resolution_disp text 1920 1080) = text /\
    resolution_item (fst (get_resolution_disp text 1920 1080)) 0 = Ok 1280 /\
    resolution_item (fst (get_resolution_disp text 1920 1080)) 1 = Ok 720.
Proof.
  split; [reflexivity|].
  apply (resolution_round_trip 1280 720 [0%nat] two_entries 0 (1920, 1080) 1920 1080).
  - reflexivity.
  - left; reflexivity.
  - discriminate.
Defined.

(** ** The log window *)

Lemma level_is_in_order (level : string) :
  In level verbose_level_order ->
  level = "DEBUG" \/ level = "INFO" \/ level = "WARNING" \/ level = "ERROR".
Proof. cbn. intuition. Qed.

Lemma append_associative (a b c : string) : (a ++ b) ++ c = a ++ b ++ c.
Proof. induction a as [|x a IH]; cbn; [reflexivity | now rewrite IH]. Qed.

Lemma repeat_nat_add (s : string) (n m : nat) :
  repeat_nat s n ++ repeat_nat s m = repeat_nat s (n + m).
Proof.
  induction n as [|n IH]; cbn; [reflexivity|].
  rewrite append_associative, IH. reflexivity.
Qed.

(** X27.  With both levels among DEBUG, INFO, WARNING and ERROR, [log] raises
    nothing and delivers the message exactly when its level is not below
    the level of verbosity, an ERROR always.  What it delivers to the log
    window is the text as it is, without indentation, while the line it
    prints carries the indentation twice. *)
Theorem log_delivers_from_verbose_level (level verbose text : string) (st : LogState) :
  In level verbose_level_order -> In verbose verbose_level_order ->
  LOG_VERBOSE_LEVEL st = Some verbose ->
  let delivered :=
    match list_index verbose verbose_level_order, list_index level verbose_level_order with
    | Some v, Some l => (v <=? l)%nat
    | _, _ => false
    end in
  let st' := snd (log_window level text st) in
  fst (log_window level text st) = Ok tt /\
  (level = "ERROR" -> delivered = true) /\
  (delivered = false -> st' = st) /\
  (delivered = true ->
   pipe_written st' = ("LOG", text) :: pipe_written st /\
   printed st' =
     (string_times LOG_INDENT_SPACING (2 * LOG_INDENT_LEVEL st) ++ text) :: printed st /\
   LOG_INDENT_LEVEL st' = LOG_INDENT_LEVEL st /\
   LOG_VERBOSE_LEVEL st' = LOG_VERBOSE_LEVEL st).
Proof.
  intros Hlevel Hverbose Hset. cbv zeta. unfold log_window. rewrite Hset.
  assert (Hdouble : forall n, string_times LOG_INDENT_SPACING n ++
                              string_times LOG_INDENT_SPACING n ++ text =
                              string_times LOG_INDENT_SPACING (2 * n) ++ text).
  { intros n. unfold string_times.
    replace (Z.to_nat (2 * n)) with (Z.to_nat n + Z.to_nat n)%nat by lia.
    rewrite <- repeat_nat_add, append_associative. reflexivity. }
  apply level_is_in_order in Hlevel. apply level_is_in_order in Hverbose.
  destruct Hlevel as [-> | [-> | [-> | ->]]], Hverbose as [-> | [-> | [-> | ->]]];
    unfold verbose_level_order;
    cbn [list_index String.eqb Ascii.eqb Bool.eqb option_map Nat.leb];
    unfold send_to_log; cbn [String.eqb Ascii.eqb Bool.eqb negb fst snd pipe_written printed
                               LOG_INDENT_LEVEL LOG_VERBOSE_LEVEL];
    (split; [reflexivity|]);
    (split; [intros Herror; first [reflexivity | discriminate Herror]|]);
    (split; [intros Hdelivered; first [reflexivity | discriminate Hdelivered]|]);
    intros Hdelivered; try discriminate Hdelivered;
    (split; [reflexivity|]); (split; [f_equal; apply Hdouble|]);
    (split; [reflexivity | first [reflexivity | exact Hset]]).
Qed.

Lemma log_delivers_from_verbose_level_witness :
  let st := log_started "INFO" 2 in
  snd (log_window "DEBUG" "probe" st) = st /\
  pipe_written (snd (log_window "ERROR" "Render failed!" st)) = [("LOG", "Render failed!")] /\
  printed (snd (log_window "ERROR" "Render failed!" st)) = ["            Render failed!"].
Proof.
  cbv zeta.
  destruct (log_delivers_from_verbose_level "DEBUG" "INFO" "probe" (log_started "INFO" 2))
    as (_ & _ & Hskip & _); [cbn; tauto | cbn; tauto | reflexivity |].
  destruct (log_delivers_from_verbose_level "ERROR" "INFO" "Render failed!"
              (log_started "INFO" 2))
    as (_ & _ & _ & Hsent); [cbn; tauto | cbn; tauto | reflexivity |].
  split; [apply Hskip; reflexivity|].
  destruct (Hsent eq_refl) as (Hpipe & Hprint & _).
  split; [exact Hpipe | exact Hprint].
Defined.

(** ** Error messages of the log window *)

Lemma each_char_app (f : ascii -> string) (a b : string) :
  each_char f (a ++ b) = each_char f a ++ each_char f b.
Proof.
  induction a as [|c a IH]; cbn; [reflexivity|].
  rewrite IH, append_associative. reflexivity.
Qed.

Lemma each_char_each_char (f g : ascii -> string) (s : string) :
  each_char f (each_char g s) = each_char (fun c => each_char f (g c)) s.
Proof.
  induction s as [|c s IH]; cbn; [reflexivity|].
  rewrite each_char_app, IH. reflexivity.
Qed.

Lemma each_char_ext (f g : ascii -> string) (s : string) :
  (forall c, f c = g c) -> each_char f s = each_char g s.
Proof. intros Hfg. induction s as [|c s IH]; cbn; [reflexivity|]. rewrite Hfg, IH. reflexivity. Qed.

(** Replacing a text of one character is replacing that character
    wherever it stands. *)
Lemma replace_one_char (c : ascii) (new s : string) :
  PyStr.replace (String c "") new s =
  each_char (fun d => if Ascii.eqb d c then new else String d "") s.
Proof.
  unfold PyStr.replace. cbn [String.length Nat.pred].
  induction s as [|d s IH]; cbn [PyStr.replace_scan each_char String.prefix Nat.pred];
    [reflexivity|].
  destruct (ascii_dec c d) as [<-|Hne].
  - rewrite Ascii.eqb_refl.
    replace (String.prefix "" s) with true by (destruct s; reflexivity).
    rewrite IH. reflexivity.
  - replace (Ascii.eqb d c) with false
      by (symmetry; apply Ascii.eqb_neq; intros ->; apply Hne; reflexivity).
    rewrite IH. reflexivity.
Qed.

Lemma escaped_text (text : string) :
  PyStr.replace dquote "'" (escape_carets text) = each_char escaped_char text.
Proof.
  unfold escape_carets, dquote. cbn [fold_left append].
  rewrite !replace_one_char, !each_char_each_char.
  apply each_char_ext. intros c.
  destruct c as [[] [] [] [] [] [] [] []]; reflexivity.
Qed.

Lemma mem_char_each_char (c : ascii) (f : ascii -> string) (s : string) :
  (forall d, PyStr.mem_char c (f d) = false) -> PyStr.mem_char c (each_char f s) = false.
Proof.
  intros Hf. induction s as [|d s IH]; cbn; [reflexivity|].
  rewrite mem_char_app, Hf, IH. reflexivity.
Qed.

Lemma split_pieces_without (c sep : ascii) (s : string) :
  PyStr.mem_char c s = false ->
  Forall (fun piece => PyStr.mem_char c piece = false) (PyStr.split sep s).
Proof.
  induction s as [|d s IH]; cbn; [repeat constructor|].
  intros Hno. apply orb_false_iff in Hno as (Hd & Hs). specialize (IH Hs).
  destruct (Ascii.eqb d sep).
  - constructor; [reflexivity | exact IH].
  - destruct (PyStr.split sep s) as [|p ps]; [repeat constructor; cbn; now rewrite Hd|].
    inversion IH as [|? ? Hp Hps]; subst.
    constructor; [cbn; rewrite Hd, Hp; reflexivity | exact Hps].
Qed.

(** X28.  [escape_characters] treats the text character by character, although
    it makes six replacements one after the other: every [^], [&], [|],
    [<] and [>] of the text gets one caret before it, the carets of the
    text among them and none of those the function has put, and every
    double quote becomes an apostrophe.  No line it returns is empty and
    none holds a double quote. *)
Theorem escape_characters_char_by_char (text : string) :
  escape_characters text =
    map (fun line => if String.eqb line "" then "." else " " ++ line)
        (PyStr.split "010" (each_char escaped_char text)) /\
  Forall (fun line => line <> "" /\ PyStr.mem_char "034" line = false)
         (escape_characters text).
Proof.
  assert (Hform : escape_characters text =
                  map (fun line => if String.eqb line "" then "." else " " ++ line)
                      (PyStr.split "010" (each_char escaped_char text)))
    by (unfold escape_characters; rewrite escaped_text; reflexivity).
  split; [exact Hform|]. rewrite Hform.
  apply Forall_map.
  assert (Hquote : PyStr.mem_char "034" (each_char escaped_char text) = false).
  { apply mem_char_each_char. intros d.
    destruct d as [[] [] [] [] [] [] [] []]; reflexivity. }
  apply (split_pieces_without "034" "010") in Hquote.
  revert Hquote. apply Forall_impl. intros piece Hpiece.
  destruct piece as [|c piece]; cbn [String.eqb].
  - split; [discriminate | reflexivity].
  - split; [discriminate|]. cbn [append PyStr.mem_char Ascii.eqb Bool.eqb orb andb].
    exact Hpiece.
Qed.

Lemma escape_characters_example :
  escape_characters ("a & b" ++ nl ++ nl ++ "x^2 > " ++ dquote ++ "y" ++ dquote) =
  [" a ^& b"; "."; " x^^2 ^> 'y'"].
Proof. reflexivity. Qed.

(** *** Duplicating rows *)

Lemma camera_column (col : nat) :
  (col < columnCount)%nat ->
  String.eqb (nth col column_names "") "Camera" = (col =? column "Camera")%nat.
Proof.
  unfold columnCount. intros Hcol.
  do 10 (destruct col as [|col]; [reflexivity|]). lia.
Qed.

(** What one turn of the loop over the columns does when the cell can be
    copied. *)
Lemma duplicate_cell_ok (row_int newRow_int col : nat) (t : table) :
  (col < columnCount)%nat ->
  can_duplicate_cell col (cell_at t row_int col) = true ->
  duplicate_cell row_int newRow_int t col =
  (Ok tt,
   update_nth newRow_int
     (update_nth col
        (fun c => match cell_widget (cell_at t row_int col) with
                  | Some checked => {| cell_item := cell_item c; cell_widget := Some checked |}
                  | None =>
                      match cell_item (cell_at t row_int col) with
                      | Some i =>
                          {| cell_item := Some (CustomTableWidgetItem (item_text i)
                                                                      (hidden_of i));
                             cell_widget := cell_widget c |}
                      | None => c
                      end
                  end)) t).
Proof.
  intros Hcol Hcan. unfold duplicate_cell, can_duplicate_cell in *.
  rewrite (camera_column col Hcol).
  unfold cellWidget, item, getHiddenValue, item, setCellWidget, setCellData, setItem.
  destruct (cell_widget (cell_at t row_int col)) as [checked|].
  - cbn [andb]. destruct (col =? column "Camera")%nat; [discriminate Hcan | reflexivity].
  - destruct (cell_item (cell_at t row_int col)) as [[text|display hidden]|];
      [ | | discriminate Hcan]; cbn [hidden_of item_text] in *.
    + destruct (col =? column "Camera")%nat; [discriminate Hcan | reflexivity].
    + destruct (col =? column "Camera")%nat, hidden; try discriminate Hcan; reflexivity.
Qed.

Lemma duplicate_cells_ok (row_int newRow_int : nat) (t0 : table) (cols : list nat) :
  row_int <> newRow_int ->
  Forall (fun col => (col < columnCount)%nat /\
                     can_duplicate_cell col (cell_at t0 row_int col) = true) cols ->
  forall t,
    nth row_int t [] = nth row_int t0 [] ->
    duplicate_cells row_int newRow_int cols t =
    (Ok tt,
     update_nth newRow_int
       (fun r =>
          fold_left
            (fun r col =>
               update_nth col
                 (fun c => match cell_widget (cell_at t0 row_int col) with
                           | Some checked =>
                               {| cell_item := cell_item c; cell_widget := Some checked |}
                           | None =>
                               match cell_item (cell_at t0 row_int col) with
                               | Some i =>
                                   {| cell_item :=
                                        Some (CustomTableWidgetItem (item_text i)
                                                                    (hidden_of i));
                                      cell_widget := cell_widget c |}
                               | None => c
                               end
                           end) r) cols r) t).
Proof.
  intros Hne. induction 1 as [|col cols (Hcol & Hcan) _ IH]; intros t Hrow;
    cbn [duplicate_cells fold_left].
  - f_equal. clear. revert newRow_int; induction t as [|r t IH]; intros [|n]; cbn;
      try reflexivity. rewrite <- IH. reflexivity.
  - assert (Hcell : cell_at t row_int col = cell_at t0 row_int col)
      by (unfold cell_at; rewrite Hrow; reflexivity).
    rewrite duplicate_cell_ok by (exact Hcol || (rewrite Hcell; exact Hcan)).
    rewrite IH by (rewrite nth_update_nth_other by (intros Heq; apply Hne; symmetry; exact Heq);
                   exact Hrow).
    rewrite update_nth_twice, Hcell. reflexivity.
Qed.

Lemma firstn_exact {A : Type} (a b : list A) : firstn (List.length a) (a ++ b) = a.
Proof. induction a as [|x a IH]; cbn; [reflexivity | now rewrite IH]. Qed.

Lemma skipn_exact {A : Type} (a b : list A) : skipn (List.length a) (a ++ b) = b.
Proof. induction a as [|x a IH]; cbn; [reflexivity | exact IH]. Qed.

Lemma update_nth_at {A : Type} (n : nat) (f : A -> A) (before after : list A) (a : A) :
  List.length before = n ->
  update_nth n f (before ++ a :: after) = (before ++ f a :: after)%list.
Proof. intros <-. apply update_nth_middle. Qed.

Lemma nth_firstn_app (n row : nat) (t rest : table) :
  (row < n)%nat -> (n <= List.length t)%nat ->
  nth row (firstn n t ++ rest) [] = nth row t [].
Proof.
  intros Hrow Hn. rewrite app_nth1 by (rewrite firstn_length_le; lia).
  rewrite nth_firstn.
  replace (row <? n)%nat with true by (symmetry; apply Nat.ltb_lt; exact Hrow). reflexivity.
Qed.

Lemma can_duplicate_cells (t : table) (row : nat) :
  can_duplicate t row = true ->
  Forall (fun col => (col < columnCount)%nat /\
                     can_duplicate_cell col (cell_at t row col) = true) (seq O columnCount).
Proof.
  unfold can_duplicate. rewrite forallb_forall. intros Hall.
  apply Forall_forall. intros col Hcol. split; [apply in_seq in Hcol; lia | apply Hall, Hcol].
Qed.

(** The loop over the rows to duplicate: the copies come to stand below
    the last of them, in the order opposite to the one they are made in. *)
Lemma duplicate_rows_ok (n : nat) (t : table) (rows : list nat) :
  (n <= List.length t)%nat ->
  Forall (fun row => (row < n)%nat /\ can_duplicate t row = true) rows ->
  forall copies,
    duplicate_rows n rows (firstn n t ++ copies ++ skipn n t)%list =
    (Ok tt, (firstn n t ++ (rev (map (duplicated_row t) rows) ++ copies) ++ skipn n t)%list).
Proof.
  intros Hn. induction 1 as [|row rows (Hrow & Hcan) _ IH]; intros copies;
    cbn [duplicate_rows map rev]; [reflexivity|].
  assert (Hlen : List.length (firstn n t) = n) by (apply firstn_length_le; exact Hn).
  assert (Hinsert : insertRow n (firstn n t ++ copies ++ skipn n t)%list =
                    (firstn n t ++ repeat empty_cell columnCount :: copies ++ skipn n t)%list).
  { unfold insertRow, rowCount.
    replace (n <=? List.length (firstn n t ++ copies ++ skipn n t)%list)%nat with true
      by (symmetry; apply Nat.leb_le; rewrite length_app; lia).
    generalize (copies ++ skipn n t)%list as rest. intros rest.
    revert Hlen. generalize (firstn n t) as before. intros before <-.
    rewrite firstn_exact, skipn_exact. reflexivity. }
  rewrite Hinsert.
  rewrite (duplicate_cells_ok row n t (seq O columnCount))
    by (first [ lia | apply can_duplicate_cells, Hcan
              | apply nth_firstn_app; [exact Hrow | exact Hn] ]).
  rewrite (update_nth_at n _ (firstn n t)) by exact Hlen.
  change (fold_left _ (seq O columnCount) (repeat empty_cell columnCount))
    with (duplicated_row t row) at 1.
  change (duplicated_row t row :: copies ++ skipn n t)%list
    with ((duplicated_row t row :: copies) ++ skipn n t)%list.
  rewrite (IH (duplicated_row t row :: copies)).
  f_equal. f_equal. rewrite <- !app_assoc. reflexivity.
Qed.

Lemma strictly_sorted_last (l : list nat) :
  StronglySorted lt l -> Forall (fun x => (x <= List.last l O)%nat) l.
Proof.
  induction 1 as [|x l Hsorted IH Hall]; [constructor|].
  destruct l as [|y l]; [repeat constructor|].
  change (List.last (x :: y :: l) O) with (List.last (y :: l) O).
  constructor; [|exact IH].
  apply Forall_inv in Hall. apply Forall_inv in IH. lia.
Qed.

Lemma last_in (l : list nat) : l <> [] -> In (List.last l O) l.
Proof.
  induction l as [|x l IH]; [congruence|]. intros _.
  destruct l as [|y l]; [left; reflexivity|].
  right. apply IH. discriminate.
Qed.

Lemma sorted_set_not_nil (l : list nat) : l <> [] -> sorted_set l <> [].
Proof.
  destruct l as [|x l]; [congruence|]. intros _ Hnil.
  assert (Hin : In x (sorted_set (x :: l))) by (apply sorted_set_in; left; reflexivity).
  rewrite Hnil in Hin. exact Hin.
Qed.

(** A copy made by [duplicate_row] reads like the cell it was made of. *)
Lemma duplicated_cell_entry (t t' : table) (row row' col : nat) :
  cell_at t' row' col = duplicated_cell (cell_at t row col) ->
  entry_of_cell t' row' col = entry_of_cell t row col.
Proof.
  unfold entry_of_cell, cellWidget, getHiddenValue, item. intros ->.
  unfold duplicated_cell.
  destruct (cell_widget (cell_at t row col)) as [checked|]; cbn; [reflexivity|].
  destruct (cell_item (cell_at t row col)) as [[text|display hidden]|]; reflexivity.
Qed.

Lemma map_result_ext {A B : Type} (f g : A -> result B) (l : list A) :
  (forall a, In a l -> f a = g a) -> map_result f l = map_result g l.
Proof.
  induction l as [|x l IH]; intros Hext; cbn; [reflexivity|].
  rewrite (Hext x) by (left; reflexivity).
  rewrite IH by (intros a Ha; apply Hext; right; exact Ha). reflexivity.
Qed.

Lemma duplicated_row_entries (t t' : table) (row row' : nat) :
  nth row' t' [] = duplicated_row t row ->
  get_entry_values t' row' = get_entry_values t row.
Proof.
  intros Hrow. unfold get_entry_values. apply map_result_ext. intros col Hcol.
  apply duplicated_cell_entry. unfold cell_at at 1. rewrite Hrow. unfold duplicated_row.
  apply in_seq in Hcol. change (List.length column_names) with columnCount in Hcol.
  rewrite (nth_indep _ empty_cell (duplicated_cell (cell_at t row O)))
    by (rewrite length_map, length_seq; lia).
  rewrite (map_nth (fun col => duplicated_cell (cell_at t row col))).
  rewrite seq_nth by lia. reflexivity.
Qed.

(** X29.  [duplicate_row]: with a selection of rows of the table, each
    with a check box or an item in every cell and a hidden value in the
    cell of the camera, the copies of the selected rows are inserted
    together below the last selected row, in the order of the rows, the
    rows of the table keeping their order around them; the flag
    [system_modified] is cleared; and [get_entry_values] reads of the
    [k]-th copy what it reads of the [k]-th selected row, the hidden
    values included. *)
Theorem duplicate_row_copies_rows (selected_rows : list nat) (d : Dialog) :
  selected_rows <> [] ->
  Forall (fun row => (row < rowCount (tableWidget d))%nat /\
                     can_duplicate (tableWidget d) row = true) selected_rows ->
  let t := tableWidget d in
  let rows := sorted_set selected_rows in
  let below := S (List.last rows O) in
  duplicate_row selected_rows d =
  (Ok tt, {| tableWidget := (firstn below t ++ map (duplicated_row t) rows ++ skipn below t)%list;
             system_modified := false |}) /\
  forall k, (k < List.length rows)%nat ->
    get_entry_values (tableWidget (snd (duplicate_row selected_rows d))) (below + k) =
    get_entry_values t (nth k rows O).
Proof.
  intros Hsel Hall t rows below.
  assert (Hrows : rows <> []) by (apply sorted_set_not_nil; exact Hsel).
  assert (Hmember : forall row, In row rows ->
            (row < rowCount t)%nat /\ can_duplicate t row = true).
  { intros row Hrow. apply (proj1 (sorted_set_in row selected_rows)) in Hrow.
    rewrite Forall_forall in Hall. exact (Hall row Hrow). }
  assert (Hbelow : (below <= List.length t)%nat).
  { destruct (Hmember _ (last_in rows Hrows)) as [Hlt _].
    unfold below, rowCount in *. lia. }
  assert (Hloop : Forall (fun row => (row < below)%nat /\ can_duplicate t row = true)
                         (rev rows)).
  { apply Forall_forall. intros row Hrow. apply in_rev in Hrow.
    pose proof (strictly_sorted_last rows (sorted_set_strict _)) as Hmax.
    rewrite Forall_forall in Hmax. specialize (Hmax row Hrow).
    split; [unfold below; lia | apply Hmember, Hrow]. }
  assert (Hrun : duplicate_row selected_rows d =
    (Ok tt, {| tableWidget := (firstn below t ++ map (duplicated_row t) rows ++ skipn below t)%list;
               system_modified := false |})).
  { unfold duplicate_row. destruct selected_rows as [|row0 sel]; [congruence|].
    fold rows. fold t.
    replace (List.last rows O + 1 + 0)%nat with below by (unfold below; lia).
    pose proof (duplicate_rows_ok below t (rev rows) Hbelow Hloop []) as Hcopies.
    cbn [app] in Hcopies. rewrite firstn_skipn in Hcopies. rewrite Hcopies.
    rewrite map_rev, rev_involutive, app_nil_r. reflexivity. }
  split; [exact Hrun|].
  intros k Hk. rewrite Hrun. cbn [snd tableWidget].
  apply duplicated_row_entries.
  rewrite app_nth2 by (rewrite firstn_length_le by exact Hbelow; lia).
  rewrite firstn_length_le by exact Hbelow.
  replace (below + k - below)%nat with k by lia.
  rewrite app_nth1 by (rewrite length_map; exact Hk).
  rewrite (nth_indep _ [] (duplicated_row t O)) by (rewrite length_map; exact Hk).
  apply (map_nth (duplicated_row t)).
Qed.

Lemma duplicate_row_copies_rows_witness :
  let t := tableWidget two_entries in
  duplicate_row [1; 0; 1]%nat two_entries =
  (Ok tt, {| tableWidget := (t ++ [duplicated_row t 0; duplicated_row t 1])%list;
             system_modified := false |}) /\
  get_entry_values (tableWidget (snd (duplicate_row [1; 0; 1]%nat two_entries))) 3 =
  get_entry_values t 1.
Proof.
  assert (Hsel : [1; 0; 1]%nat <> []) by discriminate.
  assert (Hall : Forall (fun row => (row < rowCount (tableWidget two_entries))%nat /\
                                    can_duplicate (tableWidget two_entries) row = true)
                        [1; 0; 1]%nat).
  { repeat constructor; cbn; lia. }
  destruct (duplicate_row_copies_rows [1; 0; 1]%nat two_entries Hsel Hall) as [Hrun Hread].
  split.
  - exact Hrun.
  - apply (Hread 1%nat). cbn. lia.
Defined.
